(** * CheckerMonitoringRoom: the paginated search / filter / cache engine

    A shallow embedding of [src/pages/CheckerMonitoringRoom.tsx]: the
    string helpers, the query that [fetchRawData] compiles, the search
    resolver, the page cache with neighbour prefetching, the two
    local mutations (periodicity update, soft delete), the requester
    select and the context menu of a row.

    Conventions.
    - JavaScript strings are [string]; character-level helpers work on
      the list of code units ([list ascii], code units below 256).
    - The Record Store is a parameter: a [Backend] answers the
      requests of the page.  [RecordStore] is one such backend, over
      two tables held in memory, for running the page on concrete data.
    - Page numbers, counts and sizes are [Z] (JavaScript numbers holding
      integers in the safe range).
    - A function that can throw returns [Exc]; a function that talks to
      the backend also returns the list of requests it issued. *)

From Stdlib Require Import ZArith NArith Ascii String List Bool Lia DecimalString.
From stdpp Require Import gmap strings list.
Import ListNotations.

Local Open Scope string_scope.
Local Open Scope list_scope.
Local Open Scope Z_scope.

(** ** JavaScript string primitives *)

Module Js.

Definition chars (s : string) : list ascii := list_ascii_of_string s.
Definition str (l : list ascii) : string := string_of_list_ascii l.

Definition code (c : ascii) : nat := nat_of_ascii c.

Definition between (lo hi : nat) (c : ascii) : bool :=
  (Nat.leb lo (code c) && Nat.leb (code c) hi)%bool.

(** [[A-Z]], [[a-z]], [\d] *)
Definition is_upper : ascii -> bool := between 65 90.
Definition is_lower : ascii -> bool := between 97 122.
Definition is_digit : ascii -> bool := between 48 57.

(** [[a-zA-Z0-9]] and [[A-Z0-9]] *)
Definition is_alnum (c : ascii) : bool := (is_lower c || is_upper c || is_digit c)%bool.
Definition is_upper_alnum (c : ascii) : bool := (is_upper c || is_digit c)%bool.

(** White space and line terminators removed by [String.prototype.trim]
    (and matched by [\s]) among the code units below 256:
    TAB, LF, VT, FF, CR, SP, NBSP. *)
Definition is_space (c : ascii) : bool :=
  (between 9 13 c || Nat.eqb (code c) 32 || Nat.eqb (code c) 160)%bool.

Fixpoint drop_space (l : list ascii) : list ascii :=
  match l with
  | c :: l' => if is_space c then drop_space l' else l
  | [] => []
  end.

Definition trim_chars (l : list ascii) : list ascii :=
  rev (drop_space (rev (drop_space l))).

Definition trim (s : string) : string := str (trim_chars (chars s)).

(** [toUpperCase] and [toLowerCase] on ASCII: the letters move by 32,
    every other code unit of the ASCII range stays.  The model is
    exact on ASCII strings, and on every string for
    [normalizeVatInput], which upper-cases only what is left of
    [[a-zA-Z0-9]]; code units from 128 on are left as they are. *)
Definition upper_char (c : ascii) : ascii :=
  if is_lower c then ascii_of_nat (code c - 32) else c.
Definition lower_char (c : ascii) : ascii :=
  if is_upper c then ascii_of_nat (code c + 32) else c.

Definition toUpperCase (s : string) : string := str (map upper_char (chars s)).
Definition toLowerCase (s : string) : string := str (map lower_char (chars s)).

(** [!s] for a string: the empty string is the only falsy one. *)
Definition is_empty (s : string) : bool :=
  match s with EmptyString => true | _ => false end.

End Js.

Import Js.

(** ** Module-level helpers of the page *)

(** [normalizePeriodicity]: the four enum values pass, anything else
    (including [null] / [undefined], here [None]) becomes ['daily']. *)
Definition normalizePeriodicity (value : option string) : string :=
  match value with
  | Some v =>
      if (String.eqb v "daily" || String.eqb v "weekly"
          || String.eqb v "monthly" || String.eqb v "inactive")%bool
      then v else "daily"
  | None => "daily"
  end.

(** [sanitizeSearchTerm]: trim, delete [%] and [_], turn [,] into a space. *)
Definition sanitizeSearchTerm (value : string) : string :=
  str (map (fun c => if Ascii.eqb c "," then " "%char else c)
         (List.filter (fun c => negb (Ascii.eqb c "%" || Ascii.eqb c "_"))
            (trim_chars (chars value)))).

(** [normalizeVatInput]: delete everything outside [[a-zA-Z0-9]], then
    upper-case. *)
Definition normalizeVatInput (value : string) : string :=
  str (map upper_char (List.filter is_alnum (chars value))).

(** [/^[A-Z]{2}$/] *)
Definition isIsoCountryCodeLike (value : string) : bool :=
  match chars value with
  | [a; b] => (is_upper a && is_upper b)%bool
  | _ => false
  end.

(** [/^\d{4}-\d{2}-\d{2}$/] *)
Definition isIsoDate (value : string) : bool :=
  match chars value with
  | [y1; y2; y3; y4; d1; m1; m2; d2; a1; a2] =>
      (is_digit y1 && is_digit y2 && is_digit y3 && is_digit y4
       && Ascii.eqb d1 "-" && is_digit m1 && is_digit m2
       && Ascii.eqb d2 "-" && is_digit a1 && is_digit a2)%bool
  | _ => false
  end.

(** [value.match(/^([A-Z]{2})([A-Z0-9]{2,14})$/)]: the two capture
    groups when the whole string matches, [None] for [null]. *)
Definition matchRequester (value : string) : option (string * string) :=
  match chars value with
  | a :: b :: rest =>
      if (is_upper a && is_upper b && forallb is_upper_alnum rest
          && Nat.leb 2 (length rest) && Nat.leb (length rest) 14)%bool
      then Some (str [a; b], str rest)
      else None
  | _ => None
  end.

(** [isVatLike]: the same pattern without groups, [.test]. *)
Definition isVatLike (value : string) : bool :=
  match matchRequester value with Some _ => true | None => false end.

(** The pattern [^([A-Z]{2})([A-Z0-9]{2,14})$] as a language: the
    definition the specification words, against which [matchRequester]
    is compared. *)
Definition requester_pattern (value prefix remainder : string) : Prop :=
  value = (prefix ++ remainder)%string
  /\ length (chars prefix) = 2%nat
  /\ Forall (fun c => is_upper c = true) (chars prefix)
  /\ (2 <= length (chars remainder) <= 14)%nat
  /\ Forall (fun c => is_upper_alnum c = true) (chars remainder).

(** ** Results of code that can throw *)

Inductive Exc (A : Type) : Type :=
| Ok (a : A)
| Throw (msg : string).
Arguments Ok {A} a.
Arguments Throw {A} msg.

Definition bindE {A B} (m : Exc A) (k : A -> Exc B) : Exc B :=
  match m with Ok a => k a | Throw msg => Throw msg end.

(** ** [Number(string)]

    The value of [Number] applied to a string, as ECMAScript's
    StringToNumber defines it: surrounding white space is ignored, the
    empty string is [0], a StrDecimalLiteral (optional sign, [Infinity]
    or digits with an optional fraction and exponent) or an unsigned
    binary / octal / hexadecimal integer literal gives its mathematical
    value rounded to the nearest Number value, and everything else
    gives [NaN].

    The Number values are those of IEEE 754 binary64: [m * 2^e] with
    [m < 2^53] and [-1074 <= e <= 971], both zeros, both infinities
    and [NaN].  Rounding is to the nearest value, ties to the even
    mantissa, and to an infinity from [2^1024 - 2^970] on.  A finite
    value is kept as its exact decimal expansion
    [(-1)^negative * mantissa * 10^exp10]: [exp10 = 0] for an integer,
    and otherwise the least number of decimals that writes it. *)

Inductive JsNumber : Type :=
| NaN
| Inf (negative : bool)
| Num (negative : bool) (mantissa : N) (exp10 : Z).

Module Binary64.

Definition precision : Z := 53.
Definition emin : Z := -1074.
Definition emax : Z := 971.

(** [floor (log2 (num / den))] for positive [num] and [den]. *)
Definition ilog2 (num den : N) : Z :=
  let e := Z.of_N (N.log2 num) - Z.of_N (N.log2 den) in
  let below :=
    if 0 <=? e then (num <? den * 2 ^ Z.to_N e)%N
    else (num * 2 ^ Z.to_N (- e) <? den)%N in
  if below then e - 1 else e.

(** [num / (den * 2^q)] rounded to the nearest integer, ties to even. *)
Definition scaled (num den : N) (q : Z) : N :=
  let a := if 0 <=? q then num else (num * 2 ^ Z.to_N (- q))%N in
  let b := if 0 <=? q then (den * 2 ^ Z.to_N q)%N else den in
  let m := (a / b)%N in
  let r := (a mod b)%N in
  match (2 * r ?= b)%N with
  | Lt => m
  | Gt => (m + 1)%N
  | Eq => if N.even m then m else (m + 1)%N
  end.

(** [m * 2^e] with the factors two of [m] moved into the exponent. *)
Fixpoint odd_part (m : positive) (e : Z) : positive * Z :=
  match m with
  | xO m' => odd_part m' (e + 1)
  | _ => (m, e)
  end.

(** The decimal expansion of [m * 2^e]. *)
Definition decimal (negative : bool) (m : N) (e : Z) : JsNumber :=
  match m with
  | N0 => Num negative 0 0
  | Npos p =>
      let '(p', e') := odd_part p e in
      if 0 <=? e' then Num negative (Npos p' * 2 ^ Z.to_N e') 0
      else Num negative (Npos p' * 5 ^ Z.to_N (- e')) e'
  end.

(** The Number value for the rational [num / den], [den] positive. *)
Definition round (negative : bool) (num den : N) : JsNumber :=
  if (num =? 0)%N then Num negative 0 0
  else
    let q := Z.max (ilog2 num den - (precision - 1)) emin in
    let m := scaled num den q in
    if ((emax <? q) || ((q =? emax) && (m =? 2 ^ 53)%N))%bool then Inf negative
    else decimal negative m q.

(** The Number value for [mantissa * 10^exp10]. *)
Definition of_decimal (negative : bool) (mantissa : N) (exp10 : Z) : JsNumber :=
  if 0 <=? exp10 then round negative (mantissa * 10 ^ Z.to_N exp10) 1
  else round negative mantissa (10 ^ Z.to_N (- exp10)).

End Binary64.

Module StringToNumber.

Fixpoint span (p : ascii -> bool) (l : list ascii) : list ascii * list ascii :=
  match l with
  | c :: l' =>
      if p c then let '(a, b) := span p l' in (c :: a, b) else ([], l)
  | [] => ([], [])
  end.

Definition is_hex (c : ascii) : bool :=
  (is_digit c || between 65 70 c || between 97 102 c)%bool.
Definition is_octal : ascii -> bool := between 48 55.
Definition is_binary : ascii -> bool := between 48 49.

Definition digit_value (c : ascii) : N :=
  if is_digit c then N.of_nat (code c - 48)
  else if between 65 70 c then N.of_nat (code c - 55)
  else N.of_nat (code c - 87).

Definition radix_value (radix : N) (l : list ascii) : N :=
  fold_left (fun acc c => (acc * radix + digit_value c)%N) l 0%N.

Definition nonempty {A} (l : list A) : bool :=
  match l with [] => false | _ => true end.

(** ExponentPart, or nothing, up to the end of the input. *)
Definition exponent (l : list ascii) : option Z :=
  match l with
  | [] => Some 0
  | e :: l' =>
      if (Ascii.eqb e "e" || Ascii.eqb e "E")%bool then
        let '(neg, ds) :=
          match l' with
          | s :: r =>
              if Ascii.eqb s "+" then (false, r)
              else if Ascii.eqb s "-" then (true, r)
              else (false, l')
          | [] => (false, l')
          end in
        if (nonempty ds && forallb is_digit ds)%bool then
          let v := Z.of_N (radix_value 10 ds) in
          Some (if neg then - v else v)
        else None
      else None
  end.

(** StrUnsignedDecimalLiteral with the sign already taken. *)
Definition unsigned_decimal (neg : bool) (l : list ascii) : JsNumber :=
  if String.eqb (str l) "Infinity" then Inf neg
  else
    let '(ip, r1) := span is_digit l in
    match r1 with
    | dot :: r2 =>
        if Ascii.eqb dot "." then
          let '(fp, r3) := span is_digit r2 in
          if (nonempty ip || nonempty fp)%bool then
            match exponent r3 with
            | Some e =>
                Binary64.of_decimal neg (radix_value 10 (ip ++ fp)) (e - Z.of_nat (length fp))
            | None => NaN
            end
          else NaN
        else if nonempty ip then
          match exponent r1 with
          | Some e => Binary64.of_decimal neg (radix_value 10 ip) e
          | None => NaN
          end
        else NaN
    | [] => if nonempty ip then Binary64.of_decimal neg (radix_value 10 ip) 0 else NaN
    end.

(** NonDecimalIntegerLiteral: [0x], [0o], [0b] prefixes, no sign. *)
Definition non_decimal (l : list ascii) : option JsNumber :=
  match l with
  | z :: x :: ds =>
      if Ascii.eqb z "0" then
        let lit (radix : N) (p : ascii -> bool) :=
          Some (if (nonempty ds && forallb p ds)%bool
                then Binary64.round false (radix_value radix ds) 1 else NaN) in
        if (Ascii.eqb x "x" || Ascii.eqb x "X")%bool then lit 16%N is_hex
        else if (Ascii.eqb x "o" || Ascii.eqb x "O")%bool then lit 8%N is_octal
        else if (Ascii.eqb x "b" || Ascii.eqb x "B")%bool then lit 2%N is_binary
        else None
      else None
  | _ => None
  end.

Definition of_chars (l : list ascii) : JsNumber :=
  match trim_chars l with
  | [] => Num false 0 0
  | (c :: l') as t =>
      match non_decimal t with
      | Some n => n
      | None =>
          if Ascii.eqb c "+" then unsigned_decimal false l'
          else if Ascii.eqb c "-" then unsigned_decimal true l'
          else unsigned_decimal false t
      end
  end.

End StringToNumber.

Definition Number (s : string) : JsNumber := StringToNumber.of_chars (chars s).

Definition isNaN (n : JsNumber) : bool :=
  match n with NaN => true | _ => false end.

(** [Number.isInteger]: finite with no fractional part. *)
Definition isInteger (n : JsNumber) : bool :=
  match n with
  | Num _ m e =>
      if 0 <=? e then true
      else (N.modulo m (10 ^ Z.to_N (- e)) =? 0)%N
  | _ => false
  end.

(** ** Calendar dates

    [getNextIsoDate] builds [new Date(isoDate + 'T00:00:00.000Z')], adds
    one UTC day and returns the first ten characters of
    [toISOString()].  The date-time string is a valid instance of the
    format when the month is 01-12 and the day 01-31; a day beyond the
    month's length is carried into the next month.  For any other
    month or day the [Date] is invalid and [toISOString] throws a
    [RangeError]. *)

Module Calendar.

Definition is_leap (y : Z) : bool :=
  ((y mod 4 =? 0) && (negb (y mod 100 =? 0) || (y mod 400 =? 0)))%bool.

Definition days_in_month (y m : Z) : Z :=
  if m =? 2 then (if is_leap y then 29 else 28)
  else if ((m =? 4) || (m =? 6) || (m =? 9) || (m =? 11))%bool then 30
  else 31.

(** First day of the month after [(y, m)]. *)
Definition next_month (y m : Z) : Z * Z * Z :=
  if m =? 12 then (y + 1, 1, 1) else (y, m + 1, 1).

(** Carry a day beyond the month's length into the next month. *)
Definition carry (y m d : Z) : Z * Z * Z :=
  if d <=? days_in_month y m then (y, m, d)
  else let '(y', m', _) := next_month y m in (y', m', d - days_in_month y m).

Definition succ_day (y m d : Z) : Z * Z * Z :=
  let '(y1, m1, d1) := carry y m d in
  if d1 <? days_in_month y1 m1 then (y1, m1, d1 + 1) else next_month y1 m1.

Definition digit (n : Z) : ascii := ascii_of_nat (48 + Z.to_nat (n mod 10)).

Definition pad2 (n : Z) : list ascii := [digit (n / 10); digit n].
Definition pad4 (n : Z) : list ascii :=
  [digit (n / 1000); digit (n / 100); digit (n / 10); digit n].

Definition number (l : list ascii) : Z :=
  Z.of_N (StringToNumber.radix_value 10 l).

(** [toISOString().slice(0, 10)]: years above 9999 print as an
    expanded year [+YYYYYY], of which ten characters keep [+YYYYYY-MM]. *)
Definition iso10 (y m d : Z) : string :=
  if y <=? 9999
  then str (pad4 y ++ ["-"%char] ++ pad2 m ++ ["-"%char] ++ pad2 d)
  else str (["+"%char; digit (y / 100000); digit (y / 10000)] ++ pad4 y
            ++ ["-"%char] ++ pad2 m).

End Calendar.

Definition getNextIsoDate (isoDate : string) : Exc string :=
  match chars isoDate with
  | [y1; y2; y3; y4; _; m1; m2; _; d1; d2] =>
      let y := Calendar.number [y1; y2; y3; y4] in
      let m := Calendar.number [m1; m2] in
      let d := Calendar.number [d1; d2] in
      if ((1 <=? m) && (m <=? 12) && (1 <=? d) && (d <=? 31))%bool then
        let '(y', m', d') := Calendar.succ_day y m d in
        Ok (Calendar.iso10 y' m' d')
      else Throw "RangeError: Invalid time value"
  | _ => Throw "RangeError: Invalid time value"
  end.

(** ** Rows of the two collections *)

(** [MonitoredNumber]: a row of [vat_checker_numbers] with the three
    fields that [enrichWithLastCheckResult] joins in.  [reference] is
    the jsonb object, kept as the text that [reference->>key] reads for
    each key it has. *)
Record MonitoredNumber : Type := {
  uuid : string;
  country_code : string;
  vat_number : string;
  country_code_requester : option string;
  vat_number_requester : option string;
  periodicity : string;
  number_of_checks : option Z;
  user_uuid : string;
  last_check_date : option string;
  last_check_valid : option bool;
  last_check_checked_at : option string;
  last_check_name : option string;
  created_at : string;
  reference : list (string * string)
}.

(** [{ ...item, periodicity }] *)
Definition with_periodicity (p : string) (item : MonitoredNumber) : MonitoredNumber :=
  {| uuid := uuid item; country_code := country_code item;
     vat_number := vat_number item;
     country_code_requester := country_code_requester item;
     vat_number_requester := vat_number_requester item;
     periodicity := p;
     number_of_checks := number_of_checks item; user_uuid := user_uuid item;
     last_check_date := last_check_date item;
     last_check_valid := last_check_valid item;
     last_check_checked_at := last_check_checked_at item;
     last_check_name := last_check_name item;
     created_at := created_at item; reference := reference item |}.

(** [{ ...item, last_check_valid, last_check_checked_at, last_check_name }] *)
Definition with_last_check (valid : option bool) (checked_at name : option string)
    (item : MonitoredNumber) : MonitoredNumber :=
  {| uuid := uuid item; country_code := country_code item;
     vat_number := vat_number item;
     country_code_requester := country_code_requester item;
     vat_number_requester := vat_number_requester item;
     periodicity := periodicity item;
     number_of_checks := number_of_checks item; user_uuid := user_uuid item;
     last_check_date := last_check_date item;
     last_check_valid := valid;
     last_check_checked_at := checked_at;
     last_check_name := name;
     created_at := created_at item; reference := reference item |}.

(** [LatestCheckRow] *)
Record LatestCheckRow : Type := {
  lc_vat_number_uuid : option string;
  lc_valid : option bool;
  lc_vat_check_date : option string;
  lc_name : option string
}.

(** ** Queries sent to the Record Store *)

Inductive Operand : Type :=
| VText (s : string)
| VNum (n : JsNumber)
| VNull.

(** One [column.operator.value] condition. *)
Record Cond : Type := { column : string; operator : string; operand : Operand }.

Inductive Filter : Type :=
| Is (c : Cond)              (* .eq .neq .gt .gte .lt .ilike *)
| IsNot (c : Cond)           (* .not(column, operator, value) *)
| AnyOf (cs : list Cond)     (* .or('c1,c2,...') *)
| OneOf (col : string) (values : list string).   (* .in(column, values) *)

(** The query builder: each call appends one filter. *)
Definition Query : Type := list Filter.

Definition cond (col op : string) (v : Operand) : Cond :=
  {| column := col; operator := op; operand := v |}.

Definition q_eq (col : string) (v : Operand) (q : Query) : Query := q ++ [Is (cond col "eq" v)].
Definition q_neq (col : string) (v : Operand) (q : Query) : Query := q ++ [Is (cond col "neq" v)].
Definition q_gt (col : string) (v : Operand) (q : Query) : Query := q ++ [Is (cond col "gt" v)].
Definition q_gte (col : string) (v : Operand) (q : Query) : Query := q ++ [Is (cond col "gte" v)].
Definition q_lt (col : string) (v : Operand) (q : Query) : Query := q ++ [Is (cond col "lt" v)].
Definition q_ilike (col pattern : string) (q : Query) : Query :=
  q ++ [Is (cond col "ilike" (VText pattern))].
Definition q_not (col op : string) (v : Operand) (q : Query) : Query := q ++ [IsNot (cond col op v)].
Definition q_or (cs : list Cond) (q : Query) : Query := q ++ [AnyOf cs].
Definition q_in (col : string) (values : list string) (q : Query) : Query := q ++ [OneOf col values].

(** The paginated query on [vat_checker_numbers]:
    [select('*', { count: 'exact' })], the filters,
    [order('created_at', { ascending: false })], [range(from, to)]. *)
Record PageQuery : Type := { pq_filters : Query; pq_from : Z; pq_to : Z }.

(** The resolver's lookups: [select(column).or(conditions)], for the
    check records also [.not('vat_number_uuid', 'is', null)], then
    [.limit(n)]. *)
Record Lookup : Type := {
  lk_table : string;
  lk_select : string;
  lk_or : list Cond;
  lk_not_null : option string;
  lk_limit : Z
}.

Inductive Request : Type :=
| RLookup (l : Lookup)
| RLatestChecks (uuids : list string)
| RPage (q : PageQuery).

(** What the client library resolves to: [{ data, error, count }]. *)
Record Response (A : Type) : Type := {
  r_data : option (list A);
  r_error : option string;
  r_count : option Z
}.
Arguments r_data {A} _.
Arguments r_error {A} _.
Arguments r_count {A} _.

(** The Record Store as the page sees it. *)
Record Backend : Type := {
  run_lookup : Lookup -> Response (option string);
  run_latest_checks : list string -> Response LatestCheckRow;
  run_page : PageQuery -> Response MonitoredNumber
}.

(** [data || []] *)
Definition rows_of {A} (r : Response A) : list A :=
  match r_data r with Some l => l | None => [] end.

(** ** Asynchronous functions: the requests issued and the outcome *)

Definition Fetch (A : Type) : Type := list Request * Exc A.

Definition retF {A} (a : A) : Fetch A := ([], Ok a).
Definition liftE {A} (m : Exc A) : Fetch A := ([], m).
Definition bindF {A B} (m : Fetch A) (k : A -> Fetch B) : Fetch B :=
  match m with
  | (t, Ok a) => let '(t', r) := k a in (t ++ t', r)
  | (t, Throw msg) => (t, Throw msg)
  end.

Notation "'let*' x ':=' m 'in' k" := (bindF m (fun x => k))
  (at level 10, x name, m at level 100, k at level 200).

Definition issued {A} (m : Fetch A) : list Request := fst m.
Definition outcome {A} (m : Fetch A) : Exc A := snd m.

Definition is_page_request (r : Request) : bool :=
  match r with RPage _ => true | _ => false end.

(** ** Query state *)

Inductive MonitoringStatusFilter : Type :=
| StatusAll | StatusPending | StatusInactive | StatusActive | StatusDeleted.

(** What [fetchRawData] reads from the component: the search box, the
    column filters (an object, iterated in insertion order), the
    requester and status selectors and the page size. *)
Record QueryState : Type := {
  search : string;
  filters : list (string * string);
  requesterFilter : string;
  statusFilter : MonitoringStatusFilter;
  pageSize : Z
}.

(** [filters[key]] *)
Fixpoint get_filter (key : string) (fs : list (string * string)) : option string :=
  match fs with
  | (k, v) :: fs' => if String.eqb k key then Some v else get_filter key fs'
  | [] => None
  end.

(** [{ ...prev, [key]: value }]: an existing key keeps its place. *)
Fixpoint set_filter (key value : string) (fs : list (string * string))
    : list (string * string) :=
  match fs with
  | (k, v) :: fs' =>
      if String.eqb k key then (k, value) :: fs' else (k, v) :: set_filter key value fs'
  | [] => [(key, value)]
  end.

(** ** Identifier lists *)

Definition mem (x : string) (l : list string) : bool := existsb (String.eqb x) l.

(** [Array.from(new Set(l))]: first occurrences, in order. *)
Fixpoint uniq (seen l : list string) : list string :=
  match l with
  | x :: l' => if mem x seen then uniq seen l' else x :: uniq (x :: seen) l'
  | [] => []
  end.

Definition toUniqueUuids (values : list (option string)) : list string :=
  uniq []
    (List.filter (fun v => negb (is_empty v))
       (map (fun v => match v with Some s => trim s | None => "" end) values)).

Definition intersectUuids (left right : list string) : list string :=
  List.filter (fun v => mem v right) left.

(** ** The Filter Compiler: direct column filters *)

Definition periodicityValues : list string := ["daily"; "weekly"; "monthly"; "inactive"].

(** The body of the [forEach] of [applyDirectColumnFilters]. *)
Definition applyColumnFilter (nextQuery : Query) (entry : string * string) : Exc Query :=
  let '(key, value) := entry in
  let valStr := trim value in
  if (is_empty valStr || String.eqb key "entity_name")%bool then Ok nextQuery
  else if String.eqb key "number_of_checks" then
    let numericValue := Number valStr in
    if negb (isNaN numericValue)
    then Ok (q_eq key (VNum numericValue) nextQuery)
    else Ok nextQuery
  else if String.eqb key "last_check_date" then
    if isIsoDate valStr then Ok (q_eq key (VText valStr) nextQuery) else Ok nextQuery
  else if String.eqb key "created_at" then
    if isIsoDate valStr then
      bindE (getNextIsoDate valStr) (fun nextDate =>
        Ok (q_lt "created_at" (VText (nextDate ++ "T00:00:00.000Z"))
              (q_gte "created_at" (VText (valStr ++ "T00:00:00.000Z")) nextQuery)))
    else Ok nextQuery
  else if String.eqb key "country_code" then
    let normalizedCountry := toUpperCase valStr in
    if isIsoCountryCodeLike normalizedCountry
    then Ok (q_eq "country_code" (VText normalizedCountry) nextQuery)
    else Ok nextQuery
  else if String.eqb key "periodicity" then
    let normalizedPeriodicity := toLowerCase valStr in
    if mem normalizedPeriodicity periodicityValues
    then Ok (q_eq "periodicity" (VText normalizedPeriodicity) nextQuery)
    else Ok nextQuery
  else Ok (q_ilike key ("%" ++ valStr ++ "%") nextQuery).

Fixpoint applyDirectColumnFilters (query : Query) (inputFilters : list (string * string))
    : Exc Query :=
  match inputFilters with
  | entry :: rest =>
      bindE (applyColumnFilter query entry) (fun q => applyDirectColumnFilters q rest)
  | [] => Ok query
  end.

(** The status selector's branch of [fetchRawData]. *)
Definition zero : Operand := VNum (Num false 0 0).

Definition applyStatusFilter (sel : MonitoringStatusFilter) (query : Query) : Query :=
  match sel with
  | StatusDeleted => q_eq "reference->>status" (VText "deleted") query
  | StatusInactive =>
      q_not "reference->>status" "eq" (VText "deleted")
        (q_eq "periodicity" (VText "inactive") query)
  | StatusPending =>
      q_or [cond "number_of_checks" "is" VNull; cond "number_of_checks" "eq" (VText "0")]
        (q_not "reference->>status" "eq" (VText "deleted")
           (q_neq "periodicity" (VText "inactive") query))
  | StatusActive =>
      q_gt "number_of_checks" zero
        (q_not "reference->>status" "eq" (VText "deleted")
           (q_neq "periodicity" (VText "inactive") query))
  | StatusAll => query
  end.

(** The requester selector's branch: [None] is the early
    [return { data: [], count: 0 }]. *)
Definition applyRequesterFilter (requester : string) (query : Query) : option Query :=
  if String.eqb requester "__all__" then Some query
  else
    match matchRequester (normalizeVatInput requester) with
    | None => None
    | Some (prefix, remainder) =>
        Some (q_eq "vat_number_requester" (VText remainder)
                (q_eq "country_code_requester" (VText prefix) query))
    end.

(** ** The Search Resolver client *)

Inductive ResolveMode : Type := ModeSearch | ModeEntity.

Definition ilike_term (col term : string) : Cond :=
  cond col "ilike" (VText ("%" ++ term ++ "%")).

(** [term.replace(/\s+/g, '')] *)
Definition compact (term : string) : string :=
  str (List.filter (fun c => negb (is_space c)) (chars term)).

Definition lookupVatNumbers (term : string) (mode : ResolveMode) : Lookup :=
  let compactVatTerm := compact term in
  let normalizedCountryTerm := toUpperCase term in
  let countryCodeSearchFilter :=
    match mode with
    | ModeSearch =>
        if isIsoCountryCodeLike normalizedCountryTerm
        then [cond "country_code" "eq" (VText normalizedCountryTerm)] else []
    | ModeEntity => []
    end in
  let filtersForSearch :=
    match mode with
    | ModeSearch =>
        [ilike_term "vat_number" term; ilike_term "vat_number" compactVatTerm]
        ++ countryCodeSearchFilter
        ++ [ilike_term "reference->>name" term;
            ilike_term "reference->>nom_complet" term;
            ilike_term "reference->>counterpart_name" term;
            ilike_term "reference->>address" term;
            ilike_term "reference->>counterpart_address" term;
            ilike_term "reference->>counterpart_address_line" term;
            ilike_term "reference->>counterpart_address_city" term;
            ilike_term "reference->>counterpart_address_postal_code" term;
            ilike_term "reference->>counterpart_address_country" term]
    | ModeEntity =>
        [ilike_term "reference->>name" term;
         ilike_term "reference->>nom_complet" term;
         ilike_term "reference->>counterpart_name" term]
    end in
  {| lk_table := "vat_checker_numbers"; lk_select := "uuid";
     lk_or := filtersForSearch; lk_not_null := None; lk_limit := 2000 |}.

Definition lookupChecks (term : string) : Lookup :=
  let compactVatTerm := compact term in
  let normalizedCountryTerm := toUpperCase term in
  let countryCodeSearchFilter :=
    if isIsoCountryCodeLike normalizedCountryTerm
    then [cond "country_code_check" "eq" (VText normalizedCountryTerm)] else [] in
  let checkSearchFilters :=
    [ilike_term "name" term; ilike_term "address" term;
     ilike_term "vat_number_check" term; ilike_term "vat_number_check" compactVatTerm]
    ++ countryCodeSearchFilter in
  {| lk_table := "vat_checker_numbers_checks"; lk_select := "vat_number_uuid";
     lk_or := checkSearchFilters; lk_not_null := Some "vat_number_uuid";
     lk_limit := 2000 |}.

(** Both lookups end the same way: an error is logged and gives [[]],
    otherwise the selected column of the rows goes through
    [toUniqueUuids]. *)
Definition runLookup (be : Backend) (l : Lookup) : Fetch (list string) :=
  let r := run_lookup be l in
  ([RLookup l],
   Ok (match r_error r with
       | Some _ => []
       | None => toUniqueUuids (rows_of r)
       end)).

Definition fetchMatchingVatUuidsFromVatNumbers (be : Backend) (term : string)
    (mode : ResolveMode) : Fetch (list string) :=
  if is_empty term then retF [] else runLookup be (lookupVatNumbers term mode).

Definition fetchMatchingVatUuidsFromChecks (be : Backend) (term : string)
    : Fetch (list string) :=
  if is_empty term then retF [] else runLookup be (lookupChecks term).

(** [Promise.all] of the two lookups, then the union without duplicates. *)
Definition resolveVatUuids (be : Backend) (mode : ResolveMode) (term : string)
    : Fetch (list string) :=
  let* fromVatNumbers := fetchMatchingVatUuidsFromVatNumbers be term mode in
  let* fromChecks := fetchMatchingVatUuidsFromChecks be term in
  retF (toUniqueUuids (map Some (fromVatNumbers ++ fromChecks))).

Definition resolveVatUuidsForSearchTerm (be : Backend) := resolveVatUuids be ModeSearch.
Definition resolveVatUuidsForEntityFilter (be : Backend) := resolveVatUuids be ModeEntity.

(** ** Joining the latest check *)

Definition check_of (u : string) (row : LatestCheckRow) : bool :=
  match lc_vat_number_uuid row with
  | Some v => (negb (is_empty v) && String.eqb v u)%bool
  | None => false
  end.

Definition check_name (row : LatestCheckRow) : string :=
  match lc_name row with Some n => trim n | None => "" end.

(** The two [Map]s keep the first row (the latest check) of each entry,
    and the first non-blank name. *)
Definition enrichItem (checks : list LatestCheckRow) (item : MonitoredNumber)
    : MonitoredNumber :=
  let latest := find (check_of (uuid item)) checks in
  let latestName :=
    find (fun row => (check_of (uuid item) row && negb (is_empty (check_name row)))%bool)
      checks in
  with_last_check
    (match latest with Some row => lc_valid row | None => None end)
    (match latest with Some row => lc_vat_check_date row | None => None end)
    (match latestName with Some row => Some (check_name row) | None => None end)
    item.

Definition enrichWithLastCheckResult (be : Backend) (items : list MonitoredNumber)
    : Fetch (list MonitoredNumber) :=
  match items with
  | [] => retF items
  | _ =>
      let uuids := List.filter (fun u => negb (is_empty u)) (map uuid items) in
      match uuids with
      | [] => retF items
      | _ =>
          let r := run_latest_checks be uuids in
          ([RLatestChecks uuids],
           Ok (match r_error r with
               | Some _ => items
               | None => map (enrichItem (rows_of r)) items
               end))
      end
  end.

(** ** [fetchRawData] *)

Definition PageResult : Type := list MonitoredNumber * Z.

Definition emptyPage : PageResult := ([], 0).

(** Lines 734-749: the identifier constraint, [None] for [null]. *)
Definition resolveConstraint (be : Backend) (st : QueryState) : Fetch (option (list string)) :=
  let searchTerm := sanitizeSearchTerm (search st) in
  let* constrainedUuids :=
    (if negb (is_empty searchTerm)
     then let* l := resolveVatUuidsForSearchTerm be searchTerm in retF (Some l)
     else retF None) in
  let entityFilterValue :=
    trim (match get_filter "entity_name" (filters st) with Some v => v | None => "" end) in
  if negb (is_empty entityFilterValue) then
    let entityTerm := sanitizeSearchTerm entityFilterValue in
    let* entityUuids := resolveVatUuidsForEntityFilter be entityTerm in
    retF (Some (match constrainedUuids with
                | None => entityUuids
                | Some l => intersectUuids l entityUuids
                end))
  else retF constrainedUuids.

(** The awaited query: [if (error) throw error], [data || []], the
    enrichment and [count || 0]. *)
Definition runPage (be : Backend) (q : PageQuery) : Fetch PageResult :=
  let r := run_page be q in
  let* pageData :=
    ([RPage q],
     match r_error r with
     | Some msg => Throw msg
     | None => Ok (rows_of r)
     end) in
  let* pageDataWithResult := enrichWithLastCheckResult be pageData in
  retF (pageDataWithResult, match r_count r with Some c => c | None => 0 end).

Definition fetchRawData (be : Backend) (st : QueryState) (pageNum : Z) : Fetch PageResult :=
  let from := (pageNum - 1) * pageSize st in
  let to := from + pageSize st - 1 in
  let* query := liftE (applyDirectColumnFilters [] (filters st)) in
  match applyRequesterFilter (requesterFilter st) query with
  | None => retF emptyPage
  | Some query =>
      let query := applyStatusFilter (statusFilter st) query in
      let* constrainedUuids := resolveConstraint be st in
      match constrainedUuids with
      | Some [] => retF emptyPage
      | Some l =>
          runPage be {| pq_filters := q_in "uuid" l query; pq_from := from; pq_to := to |}
      | None =>
          runPage be {| pq_filters := query; pq_from := from; pq_to := to |}
      end
  end.

(** ** The Record Store: what a compiled condition selects

    The store is PostgreSQL behind PostgREST: every condition is an SQL
    comparison, evaluated in three-valued logic.  A comparison with a
    NULL column is unknown, [NOT unknown] is unknown, and a row is
    selected only when every filter of the query is true. *)

Module Sql.

Inductive tri : Type := T | F | U.

Definition of_bool (b : bool) : tri := if b then T else F.

Definition not3 (a : tri) : tri :=
  match a with T => F | F => T | U => U end.

Definition or3 (a b : tri) : tri :=
  match a, b with
  | T, _ | _, T => T
  | F, F => F
  | _, _ => U
  end.

Definition is_true (a : tri) : bool :=
  match a with T => true | _ => false end.

(** A column's value in one row. *)
Inductive Value : Type :=
| Null
| Text (s : string)
| Int (z : Z).

(** [LIKE]: [%] is any sequence, [_] any one character. *)
Fixpoint like (pattern : list ascii) : list ascii -> bool :=
  match pattern with
  | [] => fun s => match s with [] => true | _ => false end
  | p :: pattern' =>
      if Ascii.eqb p "%" then
        fix any (s : list ascii) : bool :=
          (like pattern' s
           || match s with [] => false | _ :: s' => any s' end)%bool
      else if Ascii.eqb p "_" then
        fun s => match s with [] => false | _ :: s' => like pattern' s' end
      else
        fun s => match s with
                 | [] => false
                 | c :: s' => (Ascii.eqb p c && like pattern' s')%bool
                 end
  end.

Definition ilike (pattern s : string) : bool :=
  like (map lower_char (chars pattern)) (map lower_char (chars s)).

(** An integer column against a number: the comparison of [z] with
    [(-1)^neg * m * 10^e]. *)
Definition compare_int (z : Z) (n : JsNumber) : option comparison :=
  match n with
  | NaN => None
  | Inf neg => Some (if neg then Gt else Lt)
  | Num neg m e =>
      let v := if neg then - Z.of_N m else Z.of_N m in
      Some (if 0 <=? e then z ?= v * 10 ^ e else z * 10 ^ (- e) ?= v)
  end.

Definition compare_value (v : Value) (o : Operand) : option comparison :=
  match v, o with
  | Text s, VText t => Some (String.compare s t)
  | Int z, VNum n => compare_int z n
  | Int z, VText t => compare_int z (Number t)
  | _, _ => None
  end.

Definition holds (op : string) (c : comparison) : bool :=
  if String.eqb op "eq" then match c with Eq => true | _ => false end
  else if String.eqb op "neq" then match c with Eq => false | _ => true end
  else if String.eqb op "gt" then match c with Gt => true | _ => false end
  else if String.eqb op "gte" then match c with Lt => false | _ => true end
  else if String.eqb op "lt" then match c with Lt => true | _ => false end
  else if String.eqb op "lte" then match c with Gt => false | _ => true end
  else false.

(** One condition on one row, the row given by its columns. *)
Definition test (get : string -> Value) (c : Cond) : tri :=
  let v := get (column c) in
  if String.eqb (operator c) "is" then
    match operand c, v with
    | VNull, Null => T
    | VNull, _ => F
    | _, _ => U
    end
  else
    match v with
    | Null => U
    | _ =>
        if String.eqb (operator c) "ilike" then
          match v, operand c with
          | Text s, VText p => of_bool (ilike p s)
          | _, _ => U
          end
        else
          match compare_value v (operand c) with
          | Some cmp => of_bool (holds (operator c) cmp)
          | None => U
          end
    end.

Definition any_of (get : string -> Value) (cs : list Cond) : tri :=
  fold_right (fun c acc => or3 (test get c) acc) F cs.

Definition filter_value (get : string -> Value) (f : Filter) : tri :=
  match f with
  | Is c => test get c
  | IsNot c => not3 (test get c)
  | AnyOf cs => any_of get cs
  | OneOf col values =>
      match get col with
      | Text s => of_bool (mem s values)
      | _ => U
      end
  end.

(** The [WHERE] clause of a query: all filters true. *)
Definition selects (get : string -> Value) (q : Query) : bool :=
  forallb (fun f => is_true (filter_value get f)) q.

Definition text_or_null (o : option string) : Value :=
  match o with Some s => Text s | None => Null end.

(** [reference->>key] *)
Definition json_text (key : string) (obj : list (string * string)) : Value :=
  text_or_null (get_filter key obj).

(** The columns of [vat_checker_numbers]. *)
Definition number_column (r : MonitoredNumber) (col : string) : Value :=
  if String.eqb col "uuid" then Text (uuid r)
  else if String.eqb col "country_code" then Text (country_code r)
  else if String.eqb col "vat_number" then Text (vat_number r)
  else if String.eqb col "country_code_requester" then text_or_null (country_code_requester r)
  else if String.eqb col "vat_number_requester" then text_or_null (vat_number_requester r)
  else if String.eqb col "periodicity" then Text (periodicity r)
  else if String.eqb col "number_of_checks" then
    match number_of_checks r with Some n => Int n | None => Null end
  else if String.eqb col "user_uuid" then Text (user_uuid r)
  else if String.eqb col "last_check_date" then text_or_null (last_check_date r)
  else if String.eqb col "created_at" then Text (created_at r)
  else if String.prefix "reference->>" col
  then json_text (String.substring 12 (String.length col - 12) col) (reference r)
  else Null.

Definition selects_number (q : Query) (r : MonitoredNumber) : bool :=
  selects (number_column r) q.

End Sql.

(** ** A Record Store holding two tables

    The store of section 6 of the specification, for running the page
    against concrete data: lookups return the first [limit] matching
    rows in table order, the paginated query returns the window
    [from..to] of the matching rows by [created_at] descending together
    with the count of all matching rows. *)

Record CheckRecord : Type := {
  ck_vat_number_uuid : option string;
  ck_name : option string;
  ck_address : option string;
  ck_country_code_check : option string;
  ck_vat_number_check : option string;
  ck_valid : option bool;
  ck_vat_check_date : option string
}.

Record Store : Type := {
  numbers : list MonitoredNumber;
  checks : list CheckRecord
}.

Module RecordStore.

Definition check_column (r : CheckRecord) (col : string) : Sql.Value :=
  if String.eqb col "vat_number_uuid" then Sql.text_or_null (ck_vat_number_uuid r)
  else if String.eqb col "name" then Sql.text_or_null (ck_name r)
  else if String.eqb col "address" then Sql.text_or_null (ck_address r)
  else if String.eqb col "country_code_check" then Sql.text_or_null (ck_country_code_check r)
  else if String.eqb col "vat_number_check" then Sql.text_or_null (ck_vat_number_check r)
  else if String.eqb col "vat_check_date" then Sql.text_or_null (ck_vat_check_date r)
  else Sql.Null.

Definition table (s : Store) (name : string) : list (string -> Sql.Value) :=
  if String.eqb name "vat_checker_numbers" then map Sql.number_column (numbers s)
  else if String.eqb name "vat_checker_numbers_checks" then map check_column (checks s)
  else [].

Definition ok {A} (data : list A) (count : option Z) : Response A :=
  {| r_data := Some data; r_error := None; r_count := count |}.

Definition lookup_matches (l : Lookup) (get : string -> Sql.Value) : bool :=
  (Sql.is_true (Sql.any_of get (lk_or l))
   && match lk_not_null l with
      | Some col => match get col with Sql.Null => false | _ => true end
      | None => true
      end)%bool.

Definition selected (col : string) (get : string -> Sql.Value) : option string :=
  match get col with Sql.Text s => Some s | _ => None end.

Definition lookup (s : Store) (l : Lookup) : Response (option string) :=
  ok (map (selected (lk_select l))
        (firstn (Z.to_nat (lk_limit l))
           (List.filter (lookup_matches l) (table s (lk_table l)))))
     None.

Fixpoint insert_desc {A} (key : A -> string) (x : A) (l : list A) : list A :=
  match l with
  | y :: l' => if String.leb (key y) (key x) then x :: l else y :: insert_desc key x l'
  | [] => [x]
  end.

Definition sort_desc {A} (key : A -> string) (l : list A) : list A :=
  fold_right (insert_desc key) [] l.

(** [range(from, to)] over the rows already ordered. *)
Definition window {A} (from to : Z) (l : list A) : list A :=
  firstn (Z.to_nat (to - from + 1)) (skipn (Z.to_nat from) l).

Definition page (s : Store) (q : PageQuery) : Response MonitoredNumber :=
  let matching := List.filter (Sql.selects_number (pq_filters q)) (numbers s) in
  ok (window (pq_from q) (pq_to q) (sort_desc created_at matching))
     (Some (Z.of_nat (length matching))).

Definition latest_row (r : CheckRecord) : LatestCheckRow :=
  {| lc_vat_number_uuid := ck_vat_number_uuid r; lc_valid := ck_valid r;
     lc_vat_check_date := ck_vat_check_date r; lc_name := ck_name r |}.

Definition date_key (r : CheckRecord) : string :=
  match ck_vat_check_date r with Some d => d | None => "" end.

Definition latest_checks (s : Store) (uuids : list string) : Response LatestCheckRow :=
  ok (map latest_row
        (sort_desc date_key
           (List.filter
              (fun r => match ck_vat_number_uuid r with
                        | Some u => mem u uuids
                        | None => false
                        end)
              (checks s))))
     None.

Definition backend (s : Store) : Backend :=
  {| run_lookup := lookup s; run_latest_checks := latest_checks s; run_page := page s |}.

End RecordStore.

(** ** Answers of the checker API *)

(** A JavaScript value as [response.json()] produces it; [JUndefined]
    is what reading a missing property gives. *)
#[warnings="-register-all"] Inductive JsValue : Type :=
| JUndefined
| JNull
| JBool (b : bool)
| JNum (n : JsNumber)
| JStr (s : string)
| JArr (items : list JsValue)
| JObj (fields : list (string * JsValue)).

(** [!v] is false *)
Definition truthy (v : JsValue) : bool :=
  match v with
  | JUndefined | JNull => false
  | JBool b => b
  | JNum NaN => false
  | JNum (Num _ m _) => negb (m =? 0)%N
  | JNum (Inf _) => true
  | JStr s => negb (is_empty s)
  | JArr _ | JObj _ => true
  end.

(** [typeof v === 'object'] *)
Definition is_object (v : JsValue) : bool :=
  match v with JNull | JArr _ | JObj _ => true | _ => false end.

(** [record[key]] *)
Fixpoint get_property (key : string) (fields : list (string * JsValue)) : JsValue :=
  match fields with
  | (k, v) :: rest => if String.eqb k key then v else get_property key rest
  | [] => JUndefined
  end.

Definition property (key : string) (v : JsValue) : JsValue :=
  match v with JObj fields => get_property key fields | _ => JUndefined end.

(** [typeof v === 'string' && v.trim()] *)
Definition nonblank_string (v : JsValue) : option string :=
  match v with
  | JStr s => if is_empty (trim s) then None else Some s
  | _ => None
  end.

Definition extractApiErrorMessage (payload : JsValue) (fallback : string) : string :=
  if (negb (truthy payload) || negb (is_object payload))%bool then fallback
  else
    match nonblank_string (property "error" payload) with
    | Some e => e
    | None =>
        match nonblank_string (property "message" payload) with
        | Some m => m
        | None => fallback
        end
    end.

(** ** The requester options

    [loadRequesterOptions] once its two requests have been answered:
    [Ok] carries the profile and the subaccounts of the payloads,
    [Throw] stands for a missing session or a response that is not ok. *)

Record RequesterOption : Type := { opt_value : string; opt_label : string }.

(** [profilePayload?.profile] *)
Record Profile : Type := {
  user_vat_number : option string;
  company_name : option string
}.

(** A row of [subaccountsPayload?.subaccounts]; [sub_name] is [None]
    when [row.name] is not a string. *)
Record Subaccount : Type := {
  sub_name : option string;
  subuser_vat_number : option string
}.

(** The three translated labels the effect reads. *)
Record RequesterLabels : Type := {
  mainAccount : string;
  subaccountFallback : string;
  allRequesters : string
}.

(** [a || b] on strings *)
Definition orString (a b : string) : string := if is_empty a then b else a.

Definition orEmpty (o : option string) : string :=
  match o with Some s => s | None => "" end.

Definition has_option (vat : string) (options : list RequesterOption) : bool :=
  existsb (fun o => String.eqb (opt_value o) vat) options.

Definition ownOption (t : RequesterLabels) (profile : option Profile)
    : list RequesterOption :=
  let ownVat :=
    normalizeVatInput
      (orEmpty (match profile with Some p => user_vat_number p | None => None end)) in
  if isVatLike ownVat then
    let companyName :=
      match profile with
      | Some p => match company_name p with Some n => trim n | None => "" end
      | None => ""
      end in
    let mainLabel := orString companyName (mainAccount t) in
    [{| opt_value := ownVat; opt_label := mainLabel ++ " (" ++ ownVat ++ ")" |}]
  else [].

(** The loop over the subaccounts: [optionsByVat] keeps insertion
    order, a VAT number already present is skipped. *)
Fixpoint addSubaccounts (t : RequesterLabels) (rows : list Subaccount)
    (optionsByVat : list RequesterOption) : list RequesterOption :=
  match rows with
  | row :: rest =>
      let vat := normalizeVatInput (orEmpty (subuser_vat_number row)) in
      if (negb (isVatLike vat) || has_option vat optionsByVat)%bool
      then addSubaccounts t rest optionsByVat
      else
        let name := match sub_name row with Some n => trim n | None => "" end in
        addSubaccounts t rest
          (optionsByVat
           ++ [{| opt_value := vat;
                  opt_label := orString name (subaccountFallback t) ++ " (" ++ vat ++ ")" |}])
  | [] => optionsByVat
  end.

Definition allOption (t : RequesterLabels) : RequesterOption :=
  {| opt_value := "__all__"; opt_label := allRequesters t |}.

Definition buildRequesterOptions (t : RequesterLabels)
    (answer : Exc (option Profile * list Subaccount)) : list RequesterOption :=
  match answer with
  | Ok (profile, subaccounts) =>
      allOption t :: addSubaccounts t subaccounts (ownOption t profile)
  | Throw _ => [allOption t]
  end.

(** [setRequesterFilter(prev => options.some(...) ? prev : '__all__')],
    and ['__all__'] after a failure. *)
Definition requesterFilterAfterLoad (t : RequesterLabels)
    (answer : Exc (option Profile * list Subaccount)) (prev : string) : string :=
  match answer with
  | Ok _ => if has_option prev (buildRequesterOptions t answer) then prev else "__all__"
  | Throw _ => "__all__"
  end.

(** What the effect sets: the options and the selected requester. *)
Definition loadRequesterOptions (t : RequesterLabels)
    (answer : Exc (option Profile * list Subaccount)) (prev : string)
    : list RequesterOption * string :=
  (buildRequesterOptions t answer, requesterFilterAfterLoad t answer prev).

(** ** The context menu *)

(** [openVatContextMenu]: where the menu opens for a click at
    [(clientX, clientY)]; [window] is the inner size of the viewport,
    [None] when there is no [window].  Coordinates are whole CSS
    pixels. *)
Definition openVatContextMenu (clientX clientY : Z) (window : option (Z * Z)) : Z * Z :=
  let viewportWidth := match window with Some (w, _) => w | None => 0 end in
  let viewportHeight := match window with Some (_, h) => h | None => 0 end in
  let menuWidth := 260 in
  let menuHeight := 120 in
  let padding := 12 in
  let x := Z.max padding (Z.min clientX (Z.max padding (viewportWidth - menuWidth - padding))) in
  let y := Z.max padding (Z.min clientY (Z.max padding (viewportHeight - menuHeight - padding))) in
  (x, y).

(** ** The component: state, closures and pending work

    React state and refs of [CheckerMonitoringRoom] that the data view
    uses, with the requester select and the context menu of a row.
    A handler runs to completion; what it awaits becomes a [Task] that
    a later event completes.  A function created during a render
    keeps reading the values of that render: a [Closure].

    Left out are the toasts, the text of the page box and the open
    filter column, which no request and no row depends on, and the
    check history of the detail view.  The language does not change
    while the page is shown: the effect that loads the requester
    options runs once, when the page mounts.  The translations are
    not part of the sources: a message that the code takes from a
    label of the language is the text the code falls back to. *)

Record Closure : Type := {
  cl_query : QueryState;
  cl_page : Z;
  cl_totalCount : Z;
  cl_totalPages : Z
}.

Inductive Task : Type :=
| TLoad (cl : Closure) (targetPage : Z)
    (* loadPageData awaiting fetchRawData(targetPage) *)
| TPrefetch (cl : Closure) (p : Z) (rest : list Z)
    (* prefetchNeighbors awaiting fetchRawData(p), then the pages of rest *)
| TSavePeriodicity (target currentPeriodicity nextPeriodicity : string)
    (* savePeriodicity awaiting the PATCH *)
| TSoftDelete (cl : Closure) (target : string)
    (* softDeleteVatNumber awaiting the update *)
| TRequesterOptions (t : RequesterLabels)
    (* loadRequesterOptions awaiting GET /me and GET /subaccounts *)
| TCertificate (target : MonitoredNumber)
    (* handleDownloadFromContextMenu awaiting fetchLatestCheckForVat *)
| TManualCheck (cl : Closure) (target : MonitoredNumber)
    (* handleForceCheckFromContextMenu awaiting the POST of runManualVatCheck *)
| TReload (cl : Closure) (targetPage : Z).
    (* the same handler awaiting loadPageData(page, true) *)

(** [contextAction] *)
Inductive ContextAction : Type := ActionDownload | ActionForce.

Record State : Type := {
  data : list MonitoredNumber;
  loading : bool;
  error : option string;
  page : Z;
  totalCount : Z;
  totalPages : Z;
  query : QueryState;
  requesterOptions : list RequesterOption;
  loadingRequesterFilter : bool;
  dataCache : gmap Z (list MonitoredNumber);
  dataCacheRef : gmap Z (list MonitoredNumber);
  selectedNumber : option MonitoredNumber;
  periodicityDraft : string;
  updatingPeriodicity : bool;
  deletingVatNumber : bool;
  vatContextMenu : option (Z * Z * MonitoredNumber);
  contextAction : option ContextAction;
  timer : option Closure;
  tasks : list Task
}.

Definition set_data (v : list MonitoredNumber) (s : State) : State :=
  {| data := v; loading := loading s; error := error s; page := page s;
     totalCount := totalCount s; totalPages := totalPages s; query := query s;
     requesterOptions := requesterOptions s;
     loadingRequesterFilter := loadingRequesterFilter s; dataCache := dataCache s;
     dataCacheRef := dataCacheRef s; selectedNumber := selectedNumber s;
     periodicityDraft := periodicityDraft s;
     updatingPeriodicity := updatingPeriodicity s;
     deletingVatNumber := deletingVatNumber s; vatContextMenu := vatContextMenu s;
     contextAction := contextAction s; timer := timer s; tasks := tasks s |}.

Definition set_loading (v : bool) (s : State) : State :=
  {| data := data s; loading := v; error := error s; page := page s;
     totalCount := totalCount s; totalPages := totalPages s; query := query s;
     requesterOptions := requesterOptions s;
     loadingRequesterFilter := loadingRequesterFilter s; dataCache := dataCache s;
     dataCacheRef := dataCacheRef s; selectedNumber := selectedNumber s;
     periodicityDraft := periodicityDraft s;
     updatingPeriodicity := updatingPeriodicity s;
     deletingVatNumber := deletingVatNumber s; vatContextMenu := vatContextMenu s;
     contextAction := contextAction s; timer := timer s; tasks := tasks s |}.

Definition set_error (v : option string) (s : State) : State :=
  {| data := data s; loading := loading s; error := v; page := page s;
     totalCount := totalCount s; totalPages := totalPages s; query := query s;
     requesterOptions := requesterOptions s;
     loadingRequesterFilter := loadingRequesterFilter s; dataCache := dataCache s;
     dataCacheRef := dataCacheRef s; selectedNumber := selectedNumber s;
     periodicityDraft := periodicityDraft s;
     updatingPeriodicity := updatingPeriodicity s;
     deletingVatNumber := deletingVatNumber s; vatContextMenu := vatContextMenu s;
     contextAction := contextAction s; timer := timer s; tasks := tasks s |}.

Definition set_page (v : Z) (s : State) : State :=
  {| data := data s; loading := loading s; error := error s; page := v;
     totalCount := totalCount s; totalPages := totalPages s; query := query s;
     requesterOptions := requesterOptions s;
     loadingRequesterFilter := loadingRequesterFilter s; dataCache := dataCache s;
     dataCacheRef := dataCacheRef s; selectedNumber := selectedNumber s;
     periodicityDraft := periodicityDraft s;
     updatingPeriodicity := updatingPeriodicity s;
     deletingVatNumber := deletingVatNumber s; vatContextMenu := vatContextMenu s;
     contextAction := contextAction s; timer := timer s; tasks := tasks s |}.

Definition set_totalCount (v : Z) (s : State) : State :=
  {| data := data s; loading := loading s; error := error s; page := page s;
     totalCount := v; totalPages := totalPages s; query := query s;
     requesterOptions := requesterOptions s;
     loadingRequesterFilter := loadingRequesterFilter s; dataCache := dataCache s;
     dataCacheRef := dataCacheRef s; selectedNumber := selectedNumber s;
     periodicityDraft := periodicityDraft s;
     updatingPeriodicity := updatingPeriodicity s;
     deletingVatNumber := deletingVatNumber s; vatContextMenu := vatContextMenu s;
     contextAction := contextAction s; timer := timer s; tasks := tasks s |}.

Definition set_totalPages (v : Z) (s : State) : State :=
  {| data := data s; loading := loading s; error := error s; page := page s;
     totalCount := totalCount s; totalPages := v; query := query s;
     requesterOptions := requesterOptions s;
     loadingRequesterFilter := loadingRequesterFilter s; dataCache := dataCache s;
     dataCacheRef := dataCacheRef s; selectedNumber := selectedNumber s;
     periodicityDraft := periodicityDraft s;
     updatingPeriodicity := updatingPeriodicity s;
     deletingVatNumber := deletingVatNumber s; vatContextMenu := vatContextMenu s;
     contextAction := contextAction s; timer := timer s; tasks := tasks s |}.

Definition set_query (v : QueryState) (s : State) : State :=
  {| data := data s; loading := loading s; error := error s; page := page s;
     totalCount := totalCount s; totalPages := totalPages s; query := v;
     requesterOptions := requesterOptions s;
     loadingRequesterFilter := loadingRequesterFilter s; dataCache := dataCache s;
     dataCacheRef := dataCacheRef s; selectedNumber := selectedNumber s;
     periodicityDraft := periodicityDraft s;
     updatingPeriodicity := updatingPeriodicity s;
     deletingVatNumber := deletingVatNumber s; vatContextMenu := vatContextMenu s;
     contextAction := contextAction s; timer := timer s; tasks := tasks s |}.

Definition set_requesterOptions (v : list RequesterOption) (s : State) : State :=
  {| data := data s; loading := loading s; error := error s; page := page s;
     totalCount := totalCount s; totalPages := totalPages s; query := query s;
     requesterOptions := v; loadingRequesterFilter := loadingRequesterFilter s;
     dataCache := dataCache s; dataCacheRef := dataCacheRef s;
     selectedNumber := selectedNumber s; periodicityDraft := periodicityDraft s;
     updatingPeriodicity := updatingPeriodicity s;
     deletingVatNumber := deletingVatNumber s; vatContextMenu := vatContextMenu s;
     contextAction := contextAction s; timer := timer s; tasks := tasks s |}.

Definition set_loadingRequesterFilter (v : bool) (s : State) : State :=
  {| data := data s; loading := loading s; error := error s; page := page s;
     totalCount := totalCount s; totalPages := totalPages s; query := query s;
     requesterOptions := requesterOptions s; loadingRequesterFilter := v;
     dataCache := dataCache s; dataCacheRef := dataCacheRef s;
     selectedNumber := selectedNumber s; periodicityDraft := periodicityDraft s;
     updatingPeriodicity := updatingPeriodicity s;
     deletingVatNumber := deletingVatNumber s; vatContextMenu := vatContextMenu s;
     contextAction := contextAction s; timer := timer s; tasks := tasks s |}.

Definition set_dataCache (v : gmap Z (list MonitoredNumber)) (s : State) : State :=
  {| data := data s; loading := loading s; error := error s; page := page s;
     totalCount := totalCount s; totalPages := totalPages s; query := query s;
     requesterOptions := requesterOptions s;
     loadingRequesterFilter := loadingRequesterFilter s; dataCache := v;
     dataCacheRef := dataCacheRef s; selectedNumber := selectedNumber s;
     periodicityDraft := periodicityDraft s;
     updatingPeriodicity := updatingPeriodicity s;
     deletingVatNumber := deletingVatNumber s; vatContextMenu := vatContextMenu s;
     contextAction := contextAction s; timer := timer s; tasks := tasks s |}.

Definition set_dataCacheRef (v : gmap Z (list MonitoredNumber)) (s : State) : State :=
  {| data := data s; loading := loading s; error := error s; page := page s;
     totalCount := totalCount s; totalPages := totalPages s; query := query s;
     requesterOptions := requesterOptions s;
     loadingRequesterFilter := loadingRequesterFilter s; dataCache := dataCache s;
     dataCacheRef := v; selectedNumber := selectedNumber s;
     periodicityDraft := periodicityDraft s;
     updatingPeriodicity := updatingPeriodicity s;
     deletingVatNumber := deletingVatNumber s; vatContextMenu := vatContextMenu s;
     contextAction := contextAction s; timer := timer s; tasks := tasks s |}.

Definition set_selectedNumber (v : option MonitoredNumber) (s : State) : State :=
  {| data := data s; loading := loading s; error := error s; page := page s;
     totalCount := totalCount s; totalPages := totalPages s; query := query s;
     requesterOptions := requesterOptions s;
     loadingRequesterFilter := loadingRequesterFilter s; dataCache := dataCache s;
     dataCacheRef := dataCacheRef s; selectedNumber := v;
     periodicityDraft := periodicityDraft s;
     updatingPeriodicity := updatingPeriodicity s;
     deletingVatNumber := deletingVatNumber s; vatContextMenu := vatContextMenu s;
     contextAction := contextAction s; timer := timer s; tasks := tasks s |}.

Definition set_periodicityDraft (v : string) (s : State) : State :=
  {| data := data s; loading := loading s; error := error s; page := page s;
     totalCount := totalCount s; totalPages := totalPages s; query := query s;
     requesterOptions := requesterOptions s;
     loadingRequesterFilter := loadingRequesterFilter s; dataCache := dataCache s;
     dataCacheRef := dataCacheRef s; selectedNumber := selectedNumber s;
     periodicityDraft := v; updatingPeriodicity := updatingPeriodicity s;
     deletingVatNumber := deletingVatNumber s; vatContextMenu := vatContextMenu s;
     contextAction := contextAction s; timer := timer s; tasks := tasks s |}.

Definition set_updatingPeriodicity (v : bool) (s : State) : State :=
  {| data := data s; loading := loading s; error := error s; page := page s;
     totalCount := totalCount s; totalPages := totalPages s; query := query s;
     requesterOptions := requesterOptions s;
     loadingRequesterFilter := loadingRequesterFilter s; dataCache := dataCache s;
     dataCacheRef := dataCacheRef s; selectedNumber := selectedNumber s;
     periodicityDraft := periodicityDraft s; updatingPeriodicity := v;
     deletingVatNumber := deletingVatNumber s; vatContextMenu := vatContextMenu s;
     contextAction := contextAction s; timer := timer s; tasks := tasks s |}.

Definition set_deletingVatNumber (v : bool) (s : State) : State :=
  {| data := data s; loading := loading s; error := error s; page := page s;
     totalCount := totalCount s; totalPages := totalPages s; query := query s;
     requesterOptions := requesterOptions s;
     loadingRequesterFilter := loadingRequesterFilter s; dataCache := dataCache s;
     dataCacheRef := dataCacheRef s; selectedNumber := selectedNumber s;
     periodicityDraft := periodicityDraft s;
     updatingPeriodicity := updatingPeriodicity s; deletingVatNumber := v;
     vatContextMenu := vatContextMenu s; contextAction := contextAction s;
     timer := timer s; tasks := tasks s |}.

Definition set_vatContextMenu (v : option (Z * Z * MonitoredNumber)) (s : State) : State :=
  {| data := data s; loading := loading s; error := error s; page := page s;
     totalCount := totalCount s; totalPages := totalPages s; query := query s;
     requesterOptions := requesterOptions s;
     loadingRequesterFilter := loadingRequesterFilter s; dataCache := dataCache s;
     dataCacheRef := dataCacheRef s; selectedNumber := selectedNumber s;
     periodicityDraft := periodicityDraft s;
     updatingPeriodicity := updatingPeriodicity s;
     deletingVatNumber := deletingVatNumber s; vatContextMenu := v;
     contextAction := contextAction s; timer := timer s; tasks := tasks s |}.

Definition set_contextAction (v : option ContextAction) (s : State) : State :=
  {| data := data s; loading := loading s; error := error s; page := page s;
     totalCount := totalCount s; totalPages := totalPages s; query := query s;
     requesterOptions := requesterOptions s;
     loadingRequesterFilter := loadingRequesterFilter s; dataCache := dataCache s;
     dataCacheRef := dataCacheRef s; selectedNumber := selectedNumber s;
     periodicityDraft := periodicityDraft s;
     updatingPeriodicity := updatingPeriodicity s;
     deletingVatNumber := deletingVatNumber s; vatContextMenu := vatContextMenu s;
     contextAction := v; timer := timer s; tasks := tasks s |}.

Definition set_timer (v : option Closure) (s : State) : State :=
  {| data := data s; loading := loading s; error := error s; page := page s;
     totalCount := totalCount s; totalPages := totalPages s; query := query s;
     requesterOptions := requesterOptions s;
     loadingRequesterFilter := loadingRequesterFilter s; dataCache := dataCache s;
     dataCacheRef := dataCacheRef s; selectedNumber := selectedNumber s;
     periodicityDraft := periodicityDraft s;
     updatingPeriodicity := updatingPeriodicity s;
     deletingVatNumber := deletingVatNumber s; vatContextMenu := vatContextMenu s;
     contextAction := contextAction s; timer := v; tasks := tasks s |}.

Definition set_tasks (v : list Task) (s : State) : State :=
  {| data := data s; loading := loading s; error := error s; page := page s;
     totalCount := totalCount s; totalPages := totalPages s; query := query s;
     requesterOptions := requesterOptions s;
     loadingRequesterFilter := loadingRequesterFilter s; dataCache := dataCache s;
     dataCacheRef := dataCacheRef s; selectedNumber := selectedNumber s;
     periodicityDraft := periodicityDraft s;
     updatingPeriodicity := updatingPeriodicity s;
     deletingVatNumber := deletingVatNumber s; vatContextMenu := vatContextMenu s;
     contextAction := contextAction s; timer := timer s; tasks := v |}.

Definition with_search (v : string) (q : QueryState) : QueryState :=
  {| search := v; filters := filters q; requesterFilter := requesterFilter q;
     statusFilter := statusFilter q; pageSize := pageSize q |}.

Definition with_filters (v : list (string * string)) (q : QueryState) : QueryState :=
  {| search := search q; filters := v; requesterFilter := requesterFilter q;
     statusFilter := statusFilter q; pageSize := pageSize q |}.

Definition with_requesterFilter (v : string) (q : QueryState) : QueryState :=
  {| search := search q; filters := filters q; requesterFilter := v;
     statusFilter := statusFilter q; pageSize := pageSize q |}.

Definition with_statusFilter (v : MonitoringStatusFilter) (q : QueryState) : QueryState :=
  {| search := search q; filters := filters q; requesterFilter := requesterFilter q;
     statusFilter := v; pageSize := pageSize q |}.

Definition with_pageSize (v : Z) (q : QueryState) : QueryState :=
  {| search := search q; filters := filters q; requesterFilter := requesterFilter q;
     statusFilter := statusFilter q; pageSize := v |}.

Definition closure_of (s : State) : Closure :=
  {| cl_query := query s; cl_page := page s;
     cl_totalCount := totalCount s; cl_totalPages := totalPages s |}.

Definition add_task (t : Task) (s : State) : State := set_tasks (tasks s ++ [t]) s.

(** ** The Page Cache *)

Definition updateCache (p : Z) (pageData : list MonitoredNumber) (s : State) : State :=
  set_dataCache (<[p := pageData]> (dataCache s))
    (set_dataCacheRef (<[p := pageData]> (dataCacheRef s)) s).

Definition clearCache (s : State) : State :=
  set_dataCache ∅ (set_dataCacheRef ∅ s).

(** [dataCacheRef.current[p]] is truthy: an array, even empty, is. *)
Definition cached (cache : gmap Z (list MonitoredNumber)) (p : Z) : bool :=
  match cache !! p with Some _ => true | None => false end.

(** ** Neighbour prefetching *)

(** [Math.ceil(a / b)] for a positive page size. *)
Definition ceilDiv (a b : Z) : Z := - ((- a) / b).

(** [x || y] on numbers: [0] is falsy. *)
Definition orElse (x y : Z) : Z := if x =? 0 then y else x.

(** The first loop of [prefetchNeighbors]; [total] is the optional
    second argument, [totalPages] the value of the closure. *)
Definition neighbors (currentPage : Z) (total : option Z) (totalPages : Z) : list Z :=
  let maxPage := match total with Some t => orElse t totalPages | None => totalPages end in
  flat_map
    (fun i =>
       (if 0 <? currentPage - i then [currentPage - i] else [])
       ++ (if currentPage + i <=? maxPage then [currentPage + i] else []))
    [1; 2].

(** The second loop up to its next [await]: the first neighbour that
    is not cached, and the neighbours after it. *)
Fixpoint next_uncached (cache : gmap Z (list MonitoredNumber)) (ps : list Z)
    : option (Z * list Z) :=
  match ps with
  | p :: rest => if cached cache p then next_uncached cache rest else Some (p, rest)
  | [] => None
  end.

Definition continuePrefetch (cl : Closure) (ps : list Z) (s : State) : State :=
  match next_uncached (dataCacheRef s) ps with
  | Some (p, rest) => add_task (TPrefetch cl p rest) s
  | None => s
  end.

Definition prefetchNeighbors (cl : Closure) (currentPage : Z) (total : option Z)
    (s : State) : State :=
  continuePrefetch cl (neighbors currentPage total (cl_totalPages cl)) s.

(** [fetchRawData(p)] of the loop has resolved or thrown. *)
Definition prefetched (cl : Closure) (p : Z) (rest : list Z) (r : Exc PageResult)
    (s : State) : State :=
  continuePrefetch cl rest
    (match r with
     | Ok (neighborData, _) => updateCache p neighborData s
     | Throw _ => s
     end).

(** The same loop run without anything else happening in between: the
    pages fetched, in order, and the cache at the end. *)
Fixpoint prefetchLoop (be : Backend) (st : QueryState) (ps : list Z)
    (cache : gmap Z (list MonitoredNumber)) : list Z * gmap Z (list MonitoredNumber) :=
  match ps with
  | p :: rest =>
      if cached cache p then prefetchLoop be st rest cache
      else
        let cache' :=
          match outcome (fetchRawData be st p) with
          | Ok (neighborData, _) => <[p := neighborData]> cache
          | Throw _ => cache
          end in
        let '(fetched, final) := prefetchLoop be st rest cache' in
        (p :: fetched, final)
  | [] => ([], cache)
  end.

(** ** [loadPageData] *)

Definition loadPageData (cl : Closure) (targetPage : Z) (forceRefresh : bool)
    (s : State) : State :=
  match (if forceRefresh then None else dataCacheRef s !! targetPage) with
  | Some rows =>
      prefetchNeighbors cl targetPage None (set_loading false (set_data rows s))
  | None =>
      add_task (TLoad cl targetPage) (set_error None (set_loading true s))
  end.

(** [fetchRawData(targetPage)] has resolved or thrown. *)
Definition loaded (cl : Closure) (targetPage : Z) (r : Exc PageResult) (s : State) : State :=
  set_loading false
    (match r with
     | Ok (pageData, count) =>
         let computedTotalPages := orElse (ceilDiv count (pageSize (cl_query cl))) 1 in
         prefetchNeighbors cl targetPage (Some computedTotalPages)
           (updateCache targetPage pageData
              (set_totalPages computedTotalPages
                 (set_totalCount count (set_data pageData s))))
     | Throw msg => set_error (Some msg) s
     end).

(** [setPage(p)] and the effect on [[page]] that follows a change. *)
Definition setPage (p : Z) (s : State) : State :=
  if p =? page s then s
  else let s' := set_page p s in loadPageData (closure_of s') p false s'.

(** ** Local mutations *)

Definition mapCache (f : list MonitoredNumber -> list MonitoredNumber) (s : State) : State :=
  let nextCache := f <$> dataCacheRef s in
  set_dataCache nextCache (set_dataCacheRef nextCache s).

(** [updateItems] of [applyPeriodicityLocally] *)
Definition updateItems (id periodicity' : string) (items : list MonitoredNumber)
    : list MonitoredNumber :=
  map (fun item => if String.eqb (uuid item) id
                   then with_periodicity periodicity' item else item) items.

(** [removeFromItems] of [removeMonitoredNumberLocally] *)
Definition removeFromItems (id : string) (items : list MonitoredNumber)
    : list MonitoredNumber :=
  List.filter (fun item => negb (String.eqb (uuid item) id)) items.

Definition applyPeriodicityLocally (id periodicity' : string) (s : State) : State :=
  mapCache (updateItems id periodicity')
    (set_selectedNumber
       (match selectedNumber s with
        | Some prev => if String.eqb (uuid prev) id
                       then Some (with_periodicity periodicity' prev) else Some prev
        | None => None
        end)
       (set_data (updateItems id periodicity' (data s)) s)).

(** The totals and the page come from the closure of the render that
    created the handler. *)
Definition removeMonitoredNumberLocally (cl : Closure) (id : string) (s : State) : State :=
  let s1 :=
    mapCache (removeFromItems id)
      (set_selectedNumber
         (match selectedNumber s with
          | Some prev => if String.eqb (uuid prev) id then None else Some prev
          | None => None
          end)
         (set_data (removeFromItems id (data s)) s)) in
  let nextTotalCount := Z.max 0 (cl_totalCount cl - 1) in
  let nextTotalPages := Z.max 1 (ceilDiv nextTotalCount (pageSize (cl_query cl))) in
  let s2 := set_totalPages nextTotalPages (set_totalCount nextTotalCount s1) in
  if nextTotalPages <? cl_page cl then setPage nextTotalPages s2 else s2.

(** The click on save: nothing without a selected entry or when the
    draft is the current value. *)
Definition savePeriodicity (s : State) : State :=
  match selectedNumber s with
  | None => s
  | Some sel =>
      let currentPeriodicity := normalizePeriodicity (Some (periodicity sel)) in
      let nextPeriodicity := periodicityDraft s in
      if String.eqb currentPeriodicity nextPeriodicity then s
      else
        add_task (TSavePeriodicity (uuid sel) currentPeriodicity nextPeriodicity)
          (applyPeriodicityLocally (uuid sel) nextPeriodicity
             (set_error None (set_updatingPeriodicity true s)))
  end.

(** The answer to the PATCH: [Ok payload] carries
    [payload?.vat_number?.periodicity], [Throw] is a response that is
    not ok (or a missing session). *)
Definition periodicitySaved (id currentPeriodicity nextPeriodicity : string)
    (r : Exc (option string)) (s : State) : State :=
  set_updatingPeriodicity false
    (match r with
     | Ok payload =>
         let confirmedPeriodicity :=
           normalizePeriodicity
             (Some (match payload with Some p => p | None => nextPeriodicity end)) in
         if String.eqb confirmedPeriodicity nextPeriodicity then s
         else set_periodicityDraft confirmedPeriodicity
                (applyPeriodicityLocally id confirmedPeriodicity s)
     | Throw msg =>
         set_error (Some (if is_empty msg then "Failed to update periodicity." else msg))
           (set_periodicityDraft currentPeriodicity
              (applyPeriodicityLocally id currentPeriodicity s))
     end).

Definition softDeleteVatNumber (confirmed : bool) (s : State) : State :=
  match selectedNumber s with
  | None => s
  | Some target =>
      if (deletingVatNumber s || negb confirmed)%bool then s
      else add_task (TSoftDelete (closure_of s) (uuid target))
             (set_error None (set_deletingVatNumber true s))
  end.

(** The answer to the update: [None] is success, [Some msg] the error. *)
Definition softDeleted (cl : Closure) (id : string) (err : option string) (s : State) : State :=
  set_deletingVatNumber false
    (match err with
     | None => removeMonitoredNumberLocally cl id s
     | Some msg =>
         set_error (Some (if is_empty msg then "Failed to delete VAT number." else msg)) s
     end).

(** ** The requester select *)

(** The effect that loads the options, up to its first [await]. *)
Definition startRequesterOptions (t : RequesterLabels) (s : State) : State :=
  add_task (TRequesterOptions t) (set_loadingRequesterFilter true s).

(** ** The context menu of a row *)

(** [setVatContextMenu({ x, y, item })] *)
Definition openMenu (clientX clientY : Z) (window : option (Z * Z)) (item : MonitoredNumber)
    (s : State) : State :=
  set_vatContextMenu (Some (openVatContextMenu clientX clientY window, item)) s.

(** The click on the download entry: nothing without a menu or while
    an action of the menu is running. *)
Definition handleDownloadFromContextMenu (s : State) : State :=
  match vatContextMenu s, contextAction s with
  | Some (_, target), None =>
      add_task (TCertificate target)
        (set_error None (set_contextAction (Some ActionDownload) s))
  | _, _ => s
  end.

(** [fetchLatestCheckForVat] has answered: [Ok (Some check)] lets
    [downloadCertificateForRow] open the certificate, [Ok None] is an
    entry without any check, [Throw] the error of the store. *)
Definition certificateDownloaded (r : Exc (option CheckRecord)) (s : State) : State :=
  set_contextAction None
    (match r with
     | Ok (Some _) => set_vatContextMenu None s
     | Ok None => set_error (Some "No checks performed yet.") s
     | Throw msg =>
         set_error (Some (if is_empty msg then "Failed to download certificate." else msg)) s
     end).

(** The click on the entry that forces a check, with the answer to
    [window.confirm]. *)
Definition handleForceCheckFromContextMenu (confirmed : bool) (s : State) : State :=
  match vatContextMenu s, contextAction s with
  | Some (_, target), None =>
      if confirmed
      then add_task (TManualCheck (closure_of s) target)
             (set_error None (set_contextAction (Some ActionForce) s))
      else s
  | _, _ => s
  end.

(** The answer to the POST of [runManualVatCheck]: [None] is success,
    after which the handler runs [clearCache()] and awaits
    [loadPageData(page, true)] of its closure; [Some msg] is the error. *)
Definition manualCheckDone (cl : Closure) (err : option string) (s : State) : State :=
  match err with
  | None =>
      add_task (TReload cl (cl_page cl)) (set_error None (set_loading true (clearCache s)))
  | Some msg =>
      set_contextAction None
        (set_error (Some (if is_empty msg then "Failed to run manual VAT check." else msg)) s)
  end.

(** The awaited [loadPageData] has finished, with rows or with its
    error shown: the menu closes. *)
Definition reloaded (cl : Closure) (targetPage : Z) (r : Exc PageResult) (s : State) : State :=
  set_contextAction None (set_vatContextMenu None (loaded cl targetPage r s)).

(** ** Events *)

(** The four inputs watched by the debounced effect. *)
Inductive Change : Type :=
| SetSearch (value : string)
| SetFilter (key value : string)          (* handleFilterChange *)
| SetRequester (value : string)
| SetStatus (value : MonitoringStatusFilter).

(** What the outside world answers when an awaited call completes. *)
Record World : Type := {
  w_backend : Backend;
  w_patch : Exc (option string);
  w_delete : option string;
  w_requesters : Exc (option Profile * list Subaccount);
  w_latestCheck : Exc (option CheckRecord);
  w_check : option string
}.

Inductive Event : Type :=
| EvChange (c : Change)
| EvTimer                                  (* the 500 ms timeout fires *)
| EvPrevPage
| EvNextPage
| EvPageInput (parsed : option Z)          (* handlePageInputSubmit, parseInt(pageInput) *)
| EvPageSize (n : Z)
| EvDraft (p : string)                     (* setPeriodicityDraft *)
| EvSavePeriodicity
| EvSoftDelete (confirmed : bool)
| EvComplete (i : nat) (w : World)         (* the i-th pending task completes *)
| EvOpenMenu (clientX clientY : Z) (window : option (Z * Z)) (item : MonitoredNumber)
                                           (* openVatContextMenu on a row *)
| EvCloseMenu                              (* setVatContextMenu(null) *)
| EvDownloadCertificate                    (* handleDownloadFromContextMenu *)
| EvForceCheck (confirmed : bool).         (* handleForceCheckFromContextMenu *)

(** A setter given the value the state already has does not render
    again; [setFilters] always builds a new object. *)
Definition changes (c : Change) (q : QueryState) : bool :=
  match c with
  | SetSearch v => negb (String.eqb v (search q))
  | SetFilter _ _ => true
  | SetRequester v => negb (String.eqb v (requesterFilter q))
  | SetStatus v =>
      match v, statusFilter q with
      | StatusAll, StatusAll | StatusPending, StatusPending
      | StatusInactive, StatusInactive | StatusActive, StatusActive
      | StatusDeleted, StatusDeleted => false
      | _, _ => true
      end
  end.

Definition applyChange (c : Change) (q : QueryState) : QueryState :=
  match c with
  | SetSearch v => with_search v q
  | SetFilter k v => with_filters (set_filter k v (filters q)) q
  | SetRequester v => with_requesterFilter v q
  | SetStatus v => with_statusFilter v q
  end.

(** The effect on [[search, filters, requesterFilter, statusFilter]]:
    the previous timeout is cleared and a new one is set, whose
    callback belongs to the render that follows the change. *)
Definition change (c : Change) (s : State) : State :=
  if changes c (query s) then
    let s' := set_query (applyChange c (query s)) s in
    set_timer (Some (closure_of s')) s'
  else s.

(** The callback of the timeout: [setPage(1); clearCache();
    loadPageData(1, true)], then the effect on [[page]] when the page
    was not 1. *)
Definition timeout (s : State) : State :=
  match timer s with
  | None => s
  | Some cl =>
      let s1 := loadPageData cl 1 true (clearCache (set_page 1 (set_timer None s))) in
      if page s =? 1 then s1 else loadPageData (closure_of s1) 1 false s1
  end.

(** The effect on [[pageSize]]. *)
Definition changePageSize (n : Z) (s : State) : State :=
  if n =? pageSize (query s) then s
  else
    let s1 := clearCache (set_query (with_pageSize n (query s)) s) in
    if page s1 =? 1 then loadPageData (closure_of s1) 1 true s1
    else setPage 1 s1.

Definition handlePageInputSubmit (parsed : option Z) (s : State) : State :=
  let newPage := match parsed with Some n => if n <? 1 then 1 else n | None => 1 end in
  let newPage := if totalPages s <? newPage then totalPages s else newPage in
  setPage newPage s.

(** [loadRequesterOptions] has its two answers: the options are set,
    the selected requester is kept when it is still offered, and a
    requester that changes arms the debounce like any other change. *)
Definition requesterOptionsLoaded (t : RequesterLabels)
    (answer : Exc (option Profile * list Subaccount)) (s : State) : State :=
  let '(options, selected) := loadRequesterOptions t answer (requesterFilter (query s)) in
  set_loadingRequesterFilter false
    (change (SetRequester selected) (set_requesterOptions options s)).

Fixpoint remove_nth {A} (i : nat) (l : list A) : list A :=
  match l, i with
  | [], _ => []
  | _ :: l', O => l'
  | x :: l', S i' => x :: remove_nth i' l'
  end.

Definition complete (t : Task) (w : World) (s : State) : State :=
  match t with
  | TLoad cl targetPage =>
      loaded cl targetPage (outcome (fetchRawData (w_backend w) (cl_query cl) targetPage)) s
  | TPrefetch cl p rest =>
      prefetched cl p rest (outcome (fetchRawData (w_backend w) (cl_query cl) p)) s
  | TSavePeriodicity id cur next => periodicitySaved id cur next (w_patch w) s
  | TSoftDelete cl id => softDeleted cl id (w_delete w) s
  | TRequesterOptions t => requesterOptionsLoaded t (w_requesters w) s
  | TCertificate _ => certificateDownloaded (w_latestCheck w) s
  | TManualCheck cl _ => manualCheckDone cl (w_check w) s
  | TReload cl targetPage =>
      reloaded cl targetPage
        (outcome (fetchRawData (w_backend w) (cl_query cl) targetPage)) s
  end.

Definition step (s : State) (e : Event) : State :=
  match e with
  | EvChange c => change c s
  | EvTimer => timeout s
  | EvPrevPage => setPage (Z.max 1 (page s - 1)) s
  | EvNextPage => setPage (Z.min (totalPages s) (page s + 1)) s
  | EvPageInput parsed => handlePageInputSubmit parsed s
  | EvPageSize n => changePageSize n s
  | EvDraft p => set_periodicityDraft p s
  | EvSavePeriodicity => savePeriodicity s
  | EvSoftDelete confirmed => softDeleteVatNumber confirmed s
  | EvComplete i w =>
      match tasks s !! i with
      | Some t => complete t w (set_tasks (remove_nth i (tasks s)) s)
      | None => s
      end
  | EvOpenMenu clientX clientY window item => openMenu clientX clientY window item s
  | EvCloseMenu => set_vatContextMenu None s
  | EvDownloadCertificate => handleDownloadFromContextMenu s
  | EvForceCheck confirmed => handleForceCheckFromContextMenu confirmed s
  end.

Definition run (s : State) (es : list Event) : State := fold_left step es s.

(** The labels of the language the page mounts in; they are shown in
    the select and nothing else reads them. *)
Definition labelsAtMount : RequesterLabels :=
  {| mainAccount := "Main account"; subaccountFallback := "Subaccount";
     allRequesters := "All requesters" |}.

(** The state after mounting: page 1 of the unfiltered list is being
    loaded, and so are the requester options. *)
Definition initialQuery : QueryState :=
  {| search := ""; filters := []; requesterFilter := "__all__";
     statusFilter := StatusAll; pageSize := 15 |}.

Definition mounted : State :=
  let cl := {| cl_query := initialQuery; cl_page := 1;
               cl_totalCount := 0; cl_totalPages := 1 |} in
  startRequesterOptions labelsAtMount
    {| data := []; loading := true; error := None; page := 1; totalCount := 0;
       totalPages := 1; query := initialQuery;
       requesterOptions := []; loadingRequesterFilter := true;
       dataCache := ∅; dataCacheRef := ∅;
       selectedNumber := None; periodicityDraft := "daily";
       updatingPeriodicity := false; deletingVatNumber := false;
       vatContextMenu := None; contextAction := None;
       timer := None; tasks := [TLoad cl 1] |}.

(** ** The status selector as the specification words it *)

Definition status_flag (r : MonitoredNumber) : option string :=
  get_filter "status" (reference r).

Definition is_deleted (r : MonitoredNumber) : bool :=
  match status_flag r with Some v => String.eqb v "deleted" | None => false end.

Definition is_inactive (r : MonitoredNumber) : bool := String.eqb (periodicity r) "inactive".

(** [deleted]: the status flag equals "deleted"; [inactive]:
    periodicity is inactive and the flag is not "deleted"; [pending]:
    periodicity is not inactive, not deleted, check count null or
    zero; [active]: periodicity is not inactive, not deleted, check
    count above zero; [all]: no constraint. *)
Definition status_mapping (sel : MonitoringStatusFilter) (r : MonitoredNumber) : bool :=
  match sel with
  | StatusDeleted => is_deleted r
  | StatusInactive => (is_inactive r && negb (is_deleted r))%bool
  | StatusPending =>
      (negb (is_inactive r) && negb (is_deleted r)
       && match number_of_checks r with Some n => n =? 0 | None => true end)%bool
  | StatusActive =>
      (negb (is_inactive r) && negb (is_deleted r)
       && match number_of_checks r with Some n => 0 <? n | None => false end)%bool
  | StatusAll => true
  end.

(** The buckets whose predicate carries [not(reference->>status eq deleted)]. *)
Definition excludes_deleted (sel : MonitoringStatusFilter) : bool :=
  match sel with
  | StatusInactive | StatusPending | StatusActive => true
  | StatusDeleted | StatusAll => false
  end.

Definition has_status_flag (r : MonitoredNumber) : bool :=
  match status_flag r with Some _ => true | None => false end.

(** ** The identifier constraint as the specification words it *)

Definition result_of {A} (default : A) (m : Fetch A) : A :=
  match outcome m with Ok a => a | Throw _ => default end.

(** [filters.entity_name || ''] *)
Definition entityFilter (st : QueryState) : string :=
  match get_filter "entity_name" (filters st) with Some v => v | None => "" end.

Definition searchActive (st : QueryState) : bool :=
  negb (is_empty (sanitizeSearchTerm (search st))).
Definition entityActive (st : QueryState) : bool :=
  negb (is_empty (sanitizeSearchTerm (entityFilter st))).

Definition searchSet (be : Backend) (st : QueryState) : list string :=
  result_of [] (resolveVatUuidsForSearchTerm be (sanitizeSearchTerm (search st))).
Definition entitySet (be : Backend) (st : QueryState) : list string :=
  result_of [] (resolveVatUuidsForEntityFilter be (sanitizeSearchTerm (entityFilter st))).

(** The search term's resolved set, the entity filter's resolved set,
    or the intersection of the two when both are active; no
    constraint when neither is. *)
Definition identifier_constraint (be : Backend) (st : QueryState) : option (list string) :=
  match searchActive st, entityActive st with
  | true, true => Some (intersectUuids (searchSet be st) (entitySet be st))
  | true, false => Some (searchSet be st)
  | false, true => Some (entitySet be st)
  | false, false => None
  end.

(** No paginated query among the requests. *)
Definition only_lookups (t : list Request) : Prop :=
  Forall (fun r => is_page_request r = false) t.

(** A store answers a lookup with no more rows than its limit. *)
Definition honours_limit (be : Backend) : Prop :=
  forall l, (length (rows_of (run_lookup be l)) <= Z.to_nat (lk_limit l))%nat.

(** ** The prefetch set as the specification words it *)

(** [{P-2, P-1, P+1, P+2}] within [[1, T]], minus the cached pages. *)
Definition claimed_prefetch (P T : Z) (cache : gmap Z (list MonitoredNumber)) (p : Z)
    : Prop :=
  (p = P - 2 \/ p = P - 1 \/ p = P + 1 \/ p = P + 2)
  /\ 1 <= p <= T
  /\ cache !! p = None.

(** The pages [prefetchNeighbors(P, T)] fetches when nothing else
    touches the cache meanwhile. *)
Definition prefetched_pages (be : Backend) (st : QueryState) (P T : Z)
    (cache : gmap Z (list MonitoredNumber)) : list Z :=
  fst (prefetchLoop be st (neighbors P (Some T) T) cache).

(** Completing the prefetch task at the head of the pending work,
    again and again, with nothing else happening: the pages whose
    fetch completed and the state at the end. *)
Fixpoint drainPrefetch (w : World) (fuel : nat) (s : State) : list Z * State :=
  match fuel with
  | O => ([], s)
  | S fuel' =>
      match tasks s with
      | TPrefetch _ p _ :: _ =>
          let '(ps, s') := drainPrefetch w fuel' (step s (EvComplete 0 w)) in
          (p :: ps, s')
      | _ => ([], s)
      end
  end.

(** ** Every copy of an entry agrees with the detail record *)


(** ** Concrete inputs *)

Module Scenario.

Definition emptyStore : Store := {| numbers := []; checks := [] |}.
Definition emptyBackend : Backend := RecordStore.backend emptyStore.

(** A search that matches nothing, with a date filter of the right
    shape for month 13. *)
Definition searchWithBadDate : QueryState :=
  {| search := "zz"; filters := [("created_at", "2024-13-01")];
     requesterFilter := "__all__"; statusFilter := StatusAll; pageSize := 15 |}.

(** The same search with a date that exists, and a requester value
    outside the pattern with that date. *)
Definition searchWithDate : QueryState :=
  {| search := "zz"; filters := [("created_at", "2024-12-01")];
     requesterFilter := "__all__"; statusFilter := StatusAll; pageSize := 15 |}.

Definition requesterWithDate : QueryState :=
  {| search := ""; filters := [("created_at", "2024-12-01")];
     requesterFilter := "X"; statusFilter := StatusAll; pageSize := 15 |}.


(** Two entries that were never soft-deleted: their reference blob
    has no status flag. *)
Definition entry (id vat periodicity' : string) (n : option Z) (created : string)
    (ref : list (string * string)) : MonitoredNumber :=
  {| uuid := id; country_code := "FR"; vat_number := vat;
     country_code_requester := None; vat_number_requester := None;
     periodicity := periodicity'; number_of_checks := n; user_uuid := "owner";
     last_check_date := None; last_check_valid := None;
     last_check_checked_at := None; last_check_name := None;
     created_at := created; reference := ref |}.

Definition pausedEntry : MonitoredNumber :=
  entry "a1" "11111111111" "inactive" (Some 3) "2024-01-01T10:00:00+00:00"
    [("name", "ACME")].
Definition checkedEntry : MonitoredNumber :=
  entry "a2" "22222222222" "daily" (Some 5) "2024-01-02T10:00:00+00:00"
    [("name", "Globex")].

Definition twoEntries : Store :=
  {| numbers := [pausedEntry; checkedEntry]; checks := [] |}.

Definition byStatus (sel : MonitoringStatusFilter) : QueryState :=
  {| search := ""; filters := []; requesterFilter := "__all__";
     statusFilter := sel; pageSize := 15 |}.

(** 2001 entries whose VAT number contains the search term, and no
    check record; the identifier of entry [i] is [i] in decimal, least
    significant digit first. *)
Definition numbered (i : nat) : MonitoredNumber :=
  entry (NilEmpty.string_of_uint (Decimal.rev (Nat.to_uint i))) "DE999" "daily" (Some 1)
    "2024-01-01T10:00:00+00:00" [].

Definition manyEntries : Store :=
  {| numbers := map numbered (seq 0 2001); checks := [] |}.

(** The first [n] of these entries. *)
Definition numberedEntries (n : nat) : Store :=
  {| numbers := map numbered (seq 0 n); checks := [] |}.

Definition searchDE : QueryState :=
  {| search := "DE999"; filters := []; requesterFilter := "__all__";
     statusFilter := StatusAll; pageSize := 15 |}.

(** The detail view is open on an entry of the first page, which is
    also cached, and the draft differs from its periodicity. *)
Definition detailOpen : State :=
  {| data := [checkedEntry; pausedEntry]; loading := false; error := None;
     page := 1; totalCount := 2; totalPages := 1; query := initialQuery;
     dataCache := {[1 := [checkedEntry; pausedEntry]]};
     dataCacheRef := {[1 := [checkedEntry; pausedEntry]]};
     selectedNumber := Some checkedEntry; periodicityDraft := "weekly";
     updatingPeriodicity := false; deletingVatNumber := false;
     requesterOptions := []; loadingRequesterFilter := false;
     vatContextMenu := None; contextAction := None;
     timer := None; tasks := [] |}.





(** The only entry of the list is open in the detail view. *)
Definition lastEntryOpen : State :=
  {| data := [pausedEntry]; loading := false; error := None;
     page := 1; totalCount := 1; totalPages := 1; query := initialQuery;
     dataCache := {[1 := [pausedEntry]]}; dataCacheRef := {[1 := [pausedEntry]]};
     selectedNumber := Some pausedEntry; periodicityDraft := "inactive";
     updatingPeriodicity := false; deletingVatNumber := false;
     requesterOptions := []; loadingRequesterFilter := false;
     vatContextMenu := None; contextAction := None;
     timer := None; tasks := [] |}.

(** The backend answers page queries from the store, rejects the
    PATCH and accepts the soft delete and the manual check; the
    account has no VAT number and no subaccount, and the entries have
    no check. *)
Definition world (s : Store) : World :=
  {| w_backend := RecordStore.backend s;
     w_patch := Throw "periodicity update rejected";
     w_delete := None;
     w_requesters := Ok (None, []);
     w_latestCheck := Ok None;
     w_check := None |}.


(** Two searches in a row; the fetch of the second one completes
    before the fetch of the first. *)
Definition staleTrace : list Event :=
  [EvComplete 0 (world twoEntries);       (* page 1 of the unfiltered list arrives *)
   EvComplete 0 (world twoEntries);       (* the requester options arrive *)
   EvChange (SetSearch "1111"); EvTimer;  (* search 1111: reset, its fetch is pending *)
   EvChange (SetSearch "2222"); EvTimer;  (* search 2222: reset, its fetch is pending *)
   EvComplete 1 (world twoEntries);       (* the fetch for 2222 completes *)
   EvComplete 0 (world twoEntries)].      (* the fetch for 1111 completes *)

(** The component shows page 4 of 5 of a search whose lookups now
    fail, and the user asks for the next page. *)
Definition failingLookups : Backend :=
  {| run_lookup := fun _ => {| r_data := None; r_error := Some "timeout"; r_count := None |};
     run_latest_checks := RecordStore.latest_checks twoEntries;
     run_page := RecordStore.page twoEntries |}.

Definition pageFourOfFive : State :=
  {| data := []; loading := false; error := None;
     page := 4; totalCount := 70; totalPages := 5;
     query := {| search := "1111"; filters := []; requesterFilter := "__all__";
                 statusFilter := StatusAll; pageSize := 15 |};
     dataCache := ∅; dataCacheRef := ∅;
     selectedNumber := None; periodicityDraft := "daily";
     updatingPeriodicity := false; deletingVatNumber := false;
     requesterOptions := []; loadingRequesterFilter := false;
     vatContextMenu := None; contextAction := None;
     timer := None; tasks := [] |}.

(** The scenario of the specification: entry A holds the number
    DE123456789, a check record of entry B mentions it. *)
Definition unionStore : Store :=
  {| numbers := [entry "A" "DE123456789" "daily" (Some 1) "2024-02-01T08:00:00+00:00" [];
                 entry "B" "FR00000000000" "daily" (Some 1) "2024-02-02T08:00:00+00:00" []];
     checks := [{| ck_vat_number_uuid := Some "A"; ck_name := Some "A GmbH";
                   ck_address := None; ck_country_code_check := Some "DE";
                   ck_vat_number_check := Some "DE123456789"; ck_valid := Some true;
                   ck_vat_check_date := Some "2024-02-03" |};
                {| ck_vat_number_uuid := Some "B"; ck_name := Some "B SARL";
                   ck_address := None; ck_country_code_check := Some "DE";
                   ck_vat_number_check := Some "DE123456789"; ck_valid := Some false;
                   ck_vat_check_date := Some "2024-02-04" |}] |}.

End Scenario.

(** ** The check-count filter as the specification words it *)

(** "The value parses as an integer", in three readings. *)

(** [parseInt(value)] is a number: after leading white space and a
    sign comes a decimal digit, or [0x] and a hexadecimal digit. *)
Definition parseIntIsNumber (value : string) : bool :=
  let unsigned :=
    match drop_space (chars value) with
    | c :: rest => if (Ascii.eqb c "+" || Ascii.eqb c "-")%bool then rest else c :: rest
    | [] => []
    end in
  match unsigned with
  | z :: x :: rest =>
      if (Ascii.eqb z "0" && (Ascii.eqb x "x" || Ascii.eqb x "X"))%bool
      then match rest with d :: _ => StringToNumber.is_hex d | [] => false end
      else is_digit z
  | [z] => is_digit z
  | [] => false
  end.

(** The trimmed value is an integer literal: decimal digits after an
    optional sign. *)
Definition integerLiteral (value : string) : bool :=
  let digits (l : list ascii) := (StringToNumber.nonempty l && forallb is_digit l)%bool in
  match trim_chars (chars value) with
  | c :: rest =>
      if (Ascii.eqb c "+" || Ascii.eqb c "-")%bool then digits rest else digits (c :: rest)
  | [] => false
  end.

(** Read generously: [Number] of the value is a finite number without
    fractional part. *)
Definition parsesAsInteger (value : string) : bool := isInteger (Number value).

(** The compiled query holds a predicate for the check-count column. *)
Definition checkCountFiltered (value : string) : bool :=
  match applyDirectColumnFilters [] [("number_of_checks", value)] with
  | Ok [] => false
  | _ => true
  end.

(** ** The soft delete as the Record Store receives it *)

(** [{ ...existingReference, status: 'deleted', deleted_at: now }] *)
Definition nextReference (target : MonitoredNumber) (now : string)
    : list (string * string) :=
  set_filter "deleted_at" now (set_filter "status" "deleted" (reference target)).

(** The row with the identifier of the target after
    [update({ reference: nextReference, periodicity: 'inactive' })]. *)
Definition softDeleteUpdate (target : MonitoredNumber) (now : string)
    (row : MonitoredNumber) : MonitoredNumber :=
  {| uuid := uuid row; country_code := country_code row;
     vat_number := vat_number row;
     country_code_requester := country_code_requester row;
     vat_number_requester := vat_number_requester row;
     periodicity := "inactive";
     number_of_checks := number_of_checks row; user_uuid := user_uuid row;
     last_check_date := last_check_date row;
     last_check_valid := last_check_valid row;
     last_check_checked_at := last_check_checked_at row;
     last_check_name := last_check_name row;
     created_at := created_at row; reference := nextReference target now |}.

(** ** The certificate's file name *)

(** [[A-Za-z0-9_-]] *)
Definition is_file_char (c : ascii) : bool :=
  (is_alnum c || Ascii.eqb c "_" || Ascii.eqb c "-")%bool.

(** [safeFileVat] of [src/services/vatCertificateService.ts] *)
Definition safeFileVat (countryCode number : string) : string :=
  orString
    (str (firstn 40 (List.filter is_file_char (chars (countryCode ++ number)%string))))
    "VAT".

(** ** Events as the page produces them *)

Definition PAGE_SIZE_OPTIONS : list Z := [15; 25; 50; 100].

(** The store counts rows: [count] is never negative. *)
Definition counts_rows (be : Backend) : Prop :=
  forall q c, r_count (run_page be q) = Some c -> 0 <= c.

(** The page size comes from the select over [PAGE_SIZE_OPTIONS], and
    completions are answered by a store that counts rows. *)
Definition wellFormed (e : Event) : Prop :=
  match e with
  | EvPageSize n => In n PAGE_SIZE_OPTIONS
  | EvComplete _ w => counts_rows (w_backend w)
  | _ => True
  end.

(** The closure a pending task reads its page size from. *)
Definition task_pageSize (t : Task) : option Z :=
  match t with
  | TLoad cl _ | TPrefetch cl _ _ | TSoftDelete cl _
  | TManualCheck cl _ | TReload cl _ => Some (pageSize (cl_query cl))
  | TSavePeriodicity _ _ _ | TRequesterOptions _ | TCertificate _ => None
  end.

(** Every page size in use is positive. *)
Definition positive_sizes (s : State) : Prop :=
  0 < pageSize (query s)
  /\ (forall cl, timer s = Some cl -> 0 < pageSize (cl_query cl))
  /\ Forall (fun t => forall n, task_pageSize t = Some n -> 0 < n) (tasks s).

(** The page indicator makes sense: the page and the number of pages
    are at least 1, the total is not negative, the page sizes are
    positive. *)
Definition well_paged (s : State) : Prop :=
  1 <= page s /\ 1 <= totalPages s /\ 0 <= totalCount s /\ positive_sizes s.

(** A pending mutation of the detail view: the PATCH of the
    periodicity or the update of the soft delete. *)
Definition is_detail_mutation (t : Task) : bool :=
  match t with
  | TSavePeriodicity _ _ _ | TSoftDelete _ _ => true
  | _ => false
  end.

(** No detail record, and no mutation of the detail view pending. *)
Definition detail_closed (s : State) : Prop :=
  selectedNumber s = None /\ Forall (fun t => is_detail_mutation t = false) (tasks s).

(** ** The requester as the page can set it *)







(** ** What the column filters may send

    A predicate on a column of the table as the filter compiler lets it
    through: the value has been checked for the column it goes to. *)
Definition validated (f : Filter) : Prop :=
  match f with
  | Is c =>
      column c <> "entity_name"
      /\ if String.eqb (column c) "number_of_checks" then
           operator c = "eq" /\ exists n, operand c = VNum n /\ isNaN n = false
         else if String.eqb (column c) "last_check_date" then
           operator c = "eq" /\ exists d, operand c = VText d /\ isIsoDate d = true
         else if String.eqb (column c) "created_at" then
           exists d, isIsoDate d = true
             /\ (operator c = "gte" /\ operand c = VText (d ++ "T00:00:00.000Z")
                 \/ operator c = "lt"
                    /\ exists next, getNextIsoDate d = Ok next
                                    /\ operand c = VText (next ++ "T00:00:00.000Z"))
         else if String.eqb (column c) "country_code" then
           operator c = "eq"
           /\ exists v, operand c = VText v /\ isIsoCountryCodeLike v = true
         else if String.eqb (column c) "periodicity" then
           operator c = "eq" /\ exists v, operand c = VText v /\ In v periodicityValues
         else
           operator c = "ilike"
           /\ exists v, operand c = VText ("%" ++ v ++ "%") /\ v <> "" /\ trim v = v
  | IsNot _ | AnyOf _ | OneOf _ _ => False
  end.

(** * Properties *)

(** ** The model on small inputs *)

Example Number_examples :
  Number "12" = Num false 12 0 /\ Number " 7 " = Num false 7 0
  /\ Number "1.5" = Num false 15 (-1) /\ Number ".5" = Num false 5 (-1)
  /\ Number "1e3" = Num false 1000 0 /\ Number "0x1F" = Num false 31 0
  /\ Number "4.0" = Num false 4 0 /\ Number "-0" = Num true 0 0
  /\ Number "-Infinity" = Inf true /\ Number "12abc" = NaN
  /\ Number "." = NaN /\ Number "1e" = NaN /\ Number "+0x10" = NaN
  /\ Number "abc" = NaN /\ Number "" = Num false 0 0.
Proof. repeat split; reflexivity. Qed.

(** Values that are no Number value are rounded: ties go to the even
    mantissa, and what lies beyond the range becomes an infinity or a
    zero. *)
Example Number_rounding :
  Number "9007199254740993" = Num false 9007199254740992 0
  /\ Number "9007199254740995" = Num false 9007199254740996 0
  /\ Number "0x20000000000001" = Num false 9007199254740992 0
  /\ Number "1e23" = Num false 99999999999999991611392 0
  /\ Number "0.1"
     = Num false 1000000000000000055511151231257827021181583404541015625 (-55)
  /\ Number "1e400" = Inf false /\ Number "-1e400" = Inf true
  /\ Number "1.7976931348623159e308" = Inf false
  /\ Number "2e-324" = Num false 0 0 /\ Number "-1e-400" = Num true 0 0.
Proof. repeat split; vm_compute; reflexivity. Qed.

Example getNextIsoDate_examples :
  getNextIsoDate "2024-02-28" = Ok "2024-02-29"
  /\ getNextIsoDate "2023-02-28" = Ok "2023-03-01"
  /\ getNextIsoDate "2023-12-31" = Ok "2024-01-01"
  /\ getNextIsoDate "2024-01-15" = Ok "2024-01-16"
  /\ getNextIsoDate "9999-12-31" = Ok "+010000-01"
  /\ getNextIsoDate "2024-13-01" = Throw "RangeError: Invalid time value"
  /\ getNextIsoDate "2024-00-10" = Throw "RangeError: Invalid time value".
Proof. repeat split; reflexivity. Qed.

Example like_examples :
  Sql.ilike "%de12%" "xxDE123" = true /\ Sql.ilike "%de12%" "DE" = false
  /\ Sql.ilike "%%" "" = true /\ Sql.ilike "a_c" "ABC" = true.
Proof. repeat split; reflexivity. Qed.

Example reference_column_example :
  Sql.number_column
    {| uuid := "u"; country_code := "FR"; vat_number := "1";
       country_code_requester := None; vat_number_requester := None;
       periodicity := "daily"; number_of_checks := None; user_uuid := "";
       last_check_date := None; last_check_valid := None;
       last_check_checked_at := None; last_check_name := None;
       created_at := ""; reference := [("status", "deleted")] |}
    "reference->>status" = Sql.Text "deleted".
Proof. reflexivity. Qed.

Example sanitize_examples :
  sanitizeSearchTerm "  50%_off, now " = "50off  now"
  /\ normalizeVatInput "fr 12-345.678" = "FR12345678"
  /\ matchRequester "FR12345678" = Some ("FR", "12345678")
  /\ matchRequester "F1" = None
  /\ normalizePeriodicity (Some "yearly") = "daily"
  /\ toUniqueUuids [Some " a "; None; Some "b"; Some "a"; Some ""] = ["a"; "b"]
  /\ intersectUuids ["a"; "b"; "c"] ["c"; "a"] = ["a"; "c"].
Proof. repeat split; reflexivity. Qed.

Example neighbors_examples :
  neighbors 1 (Some 3) 1 = [2; 3] /\ neighbors 3 (Some 10) 1 = [2; 4; 1; 5]
  /\ neighbors 2 (Some 2) 1 = [1] /\ neighbors 5 (Some 1) 1 = [4; 3]
  /\ neighbors 2 None 4 = [1; 3; 4]
  /\ ceilDiv 32 15 = 3 /\ ceilDiv 30 15 = 2 /\ orElse (ceilDiv 0 15) 1 = 1.
Proof. repeat split; reflexivity. Qed.

(** The scenario of the specification: 32 matching rows at 15 per
    page give 3 pages. *)
Example total_pages_example : orElse (ceilDiv 32 15) 1 = 3.
Proof. reflexivity. Qed.

(** The union of the two lookups is the identifier constraint. *)
Example union_example :
  let be := RecordStore.backend Scenario.unionStore in
  let st := with_search "DE123456789" initialQuery in
  outcome (fetchMatchingVatUuidsFromVatNumbers be "DE123456789" ModeSearch) = Ok ["A"]
  /\ outcome (fetchMatchingVatUuidsFromChecks be "DE123456789") = Ok ["A"; "B"]
  /\ outcome (resolveConstraint be st) = Ok (Some ["A"; "B"])
  /\ map (fun r => match r with RPage q => last (pq_filters q) | _ => None end)
         (List.filter is_page_request (issued (fetchRawData be st 1)))
     = [Some (OneOf "uuid" ["A"; "B"])]
  /\ match outcome (fetchRawData be st 1) with
     | Ok (rows, count) =>
         map uuid rows = ["B"; "A"] /\ count = 2
         /\ map last_check_valid rows = [Some false; Some true]
         /\ map last_check_name rows = [Some "B SARL"; Some "A GmbH"]
     | Throw _ => False
     end.
Proof. vm_compute. repeat split. Qed.

(** ** Strings *)

Lemma chars_str (l : list ascii) : chars (str l) = l.
Proof. apply list_ascii_of_string_of_list_ascii. Qed.

Lemma str_chars (s : string) : str (chars s) = s.
Proof. apply string_of_list_ascii_of_string. Qed.

Lemma str_app (a b : list ascii) : str (a ++ b) = (str a ++ str b)%string.
Proof. induction a as [|c a IH]; simpl; [reflexivity | now rewrite IH]. Qed.

Lemma chars_app (a b : string) : chars (a ++ b)%string = chars a ++ chars b.
Proof. induction a as [|c a IH]; simpl; [reflexivity | now rewrite IH]. Qed.

Lemma is_empty_str (l : list ascii) : is_empty (str l) = true <-> l = [].
Proof. destruct l; simpl; split; intros H; congruence. Qed.

Lemma is_empty_spec (s : string) : is_empty s = true <-> s = "".
Proof. destruct s; simpl; split; intros H; congruence. Qed.

(** ** The requester pattern *)

Lemma forallb_Forall_true {A} (p : A -> bool) (l : list A) :
  forallb p l = true <-> Forall (fun c => p c = true) l.
Proof.
  induction l as [|x l IH]; simpl.
  - split; [constructor | reflexivity].
  - rewrite andb_true_iff, IH. split.
    + intros [Hx Hl]. now constructor.
    + intros H. inversion H; subst. now split.
Qed.

(** [matchRequester] returns exactly the splits of the pattern
    [^([A-Z]{2})([A-Z0-9]{2,14})$]. *)
Lemma matchRequester_spec (value prefix remainder : string) :
  matchRequester value = Some (prefix, remainder)
  <-> requester_pattern value prefix remainder.
Proof.
  unfold matchRequester, requester_pattern. split.
  - destruct (chars value) as [|a [|b rest]] eqn:Hv; try discriminate.
    destruct (_ && _)%bool eqn:Hc; [|discriminate].
    intros [= <- <-].
    rewrite !andb_true_iff in Hc. destruct Hc as [[[[Ha Hb] Hr] Hlo] Hhi].
    rewrite !chars_str. repeat split.
    + rewrite <- (str_chars value), Hv. apply (str_app [a; b] rest).
    + repeat constructor; assumption.
    + now apply Nat.leb_le.
    + now apply Nat.leb_le.
    + now apply forallb_Forall_true.
  - intros (Hv & Hlen & Hup & [Hlo Hhi] & Hrest).
    subst value. rewrite chars_app.
    destruct (chars prefix) as [|a [|b [|c l]]] eqn:Hp; try discriminate.
    inversion Hup as [|? ? Ha Hup']; subst. inversion Hup' as [|? ? Hb _]; subst.
    apply forallb_Forall_true in Hrest. apply Nat.leb_le in Hlo, Hhi.
    cbn [app]. rewrite Ha, Hb, Hrest, Hlo, Hhi. cbn [andb].
    rewrite <- Hp, !str_chars. reflexivity.
Qed.

Lemma matchRequester_None (value : string) :
  matchRequester value = None
  <-> forall prefix remainder, ~ requester_pattern value prefix remainder.
Proof.
  split.
  - intros H p r Hp. apply matchRequester_spec in Hp. congruence.
  - intros H. destruct (matchRequester value) as [[p r]|] eqn:E; [|reflexivity].
    exfalso. apply (H p r). now apply matchRequester_spec.
Qed.

(** ** Trimming *)

Lemma drop_space_head (l : list ascii) :
  match drop_space l with c :: _ => is_space c = false | [] => True end.
Proof.
  induction l as [|c l IH]; simpl; [exact I|].
  destruct (is_space c) eqn:E; [exact IH | exact E].
Qed.

Lemma drop_space_fixed (c : ascii) (l : list ascii) :
  is_space c = false -> drop_space (c :: l) = c :: l.
Proof. intros H. simpl. now rewrite H. Qed.

Lemma drop_space_idem (l : list ascii) : drop_space (drop_space l) = drop_space l.
Proof.
  pose proof (drop_space_head l) as H.
  destruct (drop_space l) as [|c t]; [reflexivity | now apply drop_space_fixed].
Qed.

Lemma drop_space_suffix (l : list ascii) : exists pre, l = pre ++ drop_space l.
Proof.
  induction l as [|c l [pre IH]]; simpl.
  - now exists [].
  - destruct (is_space c).
    + exists (c :: pre). simpl. now rewrite <- IH.
    + now exists [].
Qed.

Lemma trim_chars_idem (l : list ascii) : trim_chars (trim_chars l) = trim_chars l.
Proof.
  unfold trim_chars.
  set (a := drop_space l). set (b := drop_space (rev a)).
  assert (Hfix : drop_space (rev b) = rev b).
  { destruct (drop_space_suffix (rev a)) as [pre Hpre]. fold b in Hpre.
    assert (Ha : a = rev b ++ rev pre).
    { rewrite <- (rev_involutive a), Hpre, rev_app_distr. reflexivity. }
    pose proof (drop_space_head l) as Hh. fold a in Hh.
    destruct (rev b) as [|x t] eqn:Hb; [reflexivity|].
    rewrite Ha in Hh. simpl in Hh. now apply drop_space_fixed. }
  rewrite Hfix, rev_involutive. unfold b. now rewrite drop_space_idem.
Qed.

Lemma sanitize_trim (v : string) : sanitizeSearchTerm (trim v) = sanitizeSearchTerm v.
Proof. unfold sanitizeSearchTerm, trim. now rewrite chars_str, trim_chars_idem. Qed.

Lemma sanitize_of_blank (v : string) :
  is_empty (trim v) = true -> sanitizeSearchTerm v = "".
Proof.
  unfold trim, sanitizeSearchTerm. intros H. apply is_empty_str in H.
  now rewrite H.
Qed.

(** ** Identifier lists *)

Lemma mem_In (x : string) (l : list string) : mem x l = true <-> In x l.
Proof.
  unfold mem. rewrite existsb_exists. split.
  - intros (y & Hy & E). apply String.eqb_eq in E. now subst.
  - intros H. exists x. split; [assumption | apply String.eqb_refl].
Qed.

Lemma uniq_length (seen l : list string) : (length (uniq seen l) <= length l)%nat.
Proof.
  revert seen. induction l as [|x l IH]; intros seen; simpl; [lia|].
  destruct (mem x seen); simpl.
  - specialize (IH seen). lia.
  - specialize (IH (x :: seen)). lia.
Qed.

Lemma uniq_In (seen l : list string) (x : string) :
  In x (uniq seen l) <-> In x l /\ ~ In x seen.
Proof.
  revert seen. induction l as [|y l IH]; intros seen; simpl.
  - tauto.
  - destruct (mem y seen) eqn:E.
    + apply mem_In in E. rewrite IH. split.
      * intros [H1 H2]. tauto.
      * intros [[-> | H1] H2]; [contradiction | tauto].
    + assert (Hy : ~ In y seen) by (rewrite <- mem_In; congruence).
      simpl. rewrite IH. simpl. split.
      * intros [-> | [H1 H2]]; [tauto|]. split; [tauto|]. intros H. apply H2. now right.
      * intros [[-> | H1] H2]; [now left|].
        destruct (String.eqb_spec y x) as [->|Hne]; [now left|].
        right. split; [assumption|]. intros [H|H]; [congruence | contradiction].
Qed.

Lemma toUniqueUuids_length (values : list (option string)) :
  (length (toUniqueUuids values) <= length values)%nat.
Proof.
  unfold toUniqueUuids.
  etransitivity; [apply uniq_length|].
  etransitivity; [apply filter_length_le|].
  now rewrite length_map.
Qed.

Lemma intersectUuids_nil_r (l : list string) : intersectUuids l [] = [].
Proof. induction l as [|x l IH]; simpl; [reflexivity | exact IH]. Qed.

Lemma intersectUuids_In (left right : list string) (x : string) :
  In x (intersectUuids left right) <-> In x left /\ In x right.
Proof. unfold intersectUuids. now rewrite filter_In, mem_In. Qed.

(** ** The Fetch monad *)

Lemma bindF_Ok {A B} (m : Fetch A) (k : A -> Fetch B) (a : A) :
  outcome m = Ok a ->
  bindF m k = (issued m ++ issued (k a), outcome (k a)).
Proof.
  destruct m as [t r]. simpl. intros ->. simpl. now destruct (k a).
Qed.

Lemma bindF_ret {A B} (a : A) (k : A -> Fetch B) : bindF (retF a) k = k a.
Proof. unfold bindF, retF. now destruct (k a). Qed.

(** ** The resolver never throws and only sends lookups *)

Lemma only_lookups_app (a b : list Request) :
  only_lookups a -> only_lookups b -> only_lookups (a ++ b).
Proof. unfold only_lookups. rewrite Forall_app. tauto. Qed.

Lemma runLookup_shape (be : Backend) (l : Lookup) :
  exists ids, runLookup be l = ([RLookup l], Ok ids)
              /\ (length ids <= length (rows_of (run_lookup be l)))%nat.
Proof.
  unfold runLookup. eexists. split; [reflexivity|].
  destruct (r_error (run_lookup be l)); simpl; [lia | apply toUniqueUuids_length].
Qed.

Lemma fromVatNumbers_shape (be : Backend) (term : string) (mode : ResolveMode) :
  exists t ids,
    fetchMatchingVatUuidsFromVatNumbers be term mode = (t, Ok ids)
    /\ only_lookups t
    /\ (ids = [] \/
        (length ids <= length (rows_of (run_lookup be (lookupVatNumbers term mode))))%nat).
Proof.
  unfold fetchMatchingVatUuidsFromVatNumbers. destruct (is_empty term).
  - exists [], []. repeat split; [constructor | now left].
  - destruct (runLookup_shape be (lookupVatNumbers term mode)) as (ids & -> & Hlen).
    exists [RLookup (lookupVatNumbers term mode)], ids.
    repeat split; [repeat constructor | now right].
Qed.

Lemma fromChecks_shape (be : Backend) (term : string) :
  exists t ids,
    fetchMatchingVatUuidsFromChecks be term = (t, Ok ids)
    /\ only_lookups t
    /\ (ids = [] \/
        (length ids <= length (rows_of (run_lookup be (lookupChecks term))))%nat).
Proof.
  unfold fetchMatchingVatUuidsFromChecks. destruct (is_empty term).
  - exists [], []. repeat split; [constructor | now left].
  - destruct (runLookup_shape be (lookupChecks term)) as (ids & -> & Hlen).
    exists [RLookup (lookupChecks term)], ids.
    repeat split; [repeat constructor | now right].
Qed.

Lemma resolveVatUuids_shape (be : Backend) (mode : ResolveMode) (term : string) :
  exists t a b,
    resolveVatUuids be mode term = (t, Ok (toUniqueUuids (map Some (a ++ b))))
    /\ only_lookups t
    /\ (a = [] \/
        (length a <= length (rows_of (run_lookup be (lookupVatNumbers term mode))))%nat)
    /\ (b = [] \/
        (length b <= length (rows_of (run_lookup be (lookupChecks term))))%nat).
Proof.
  unfold resolveVatUuids.
  destruct (fromVatNumbers_shape be term mode) as (t1 & a & -> & Ht1 & Ha).
  destruct (fromChecks_shape be term) as (t2 & b & -> & Ht2 & Hb).
  exists (t1 ++ t2 ++ []), a, b. simpl. repeat split; try assumption.
  apply only_lookups_app; [assumption|]. apply only_lookups_app; [assumption | constructor].
Qed.

Lemma resolveVatUuids_outcome (be : Backend) (mode : ResolveMode) (term : string) :
  outcome (resolveVatUuids be mode term) = Ok (result_of [] (resolveVatUuids be mode term))
  /\ only_lookups (issued (resolveVatUuids be mode term)).
Proof.
  destruct (resolveVatUuids_shape be mode term) as (t & a & b & E & Ht & _).
  unfold result_of. rewrite E. simpl. now split.
Qed.

(** What lines 734-749 compute, case by case. *)
Lemma resolveConstraint_outcome (be : Backend) (st : QueryState) :
  only_lookups (issued (resolveConstraint be st))
  /\ outcome (resolveConstraint be st) =
     Ok (let fromSearch := if searchActive st then Some (searchSet be st) else None in
         if is_empty (trim (entityFilter st)) then fromSearch
         else Some (match fromSearch with
                    | None => entitySet be st
                    | Some l => intersectUuids l (entitySet be st)
                    end)).
Proof.
  unfold resolveConstraint, searchActive, searchSet, entitySet,
    resolveVatUuidsForSearchTerm, resolveVatUuidsForEntityFilter.
  fold (entityFilter st). rewrite sanitize_trim.
  set (term := sanitizeSearchTerm (search st)).
  set (eterm := sanitizeSearchTerm (entityFilter st)).
  destruct (resolveVatUuids_outcome be ModeSearch term) as [Hs Hts].
  destruct (resolveVatUuids_outcome be ModeEntity eterm) as [He Hte].
  destruct (is_empty term); simpl negb; cbv iota.
  - rewrite bindF_ret.
    destruct (is_empty (trim (entityFilter st))); simpl negb; cbv iota.
    + split; [constructor | reflexivity].
    + rewrite (bindF_Ok _ _ _ He). simpl. rewrite app_nil_r. now split.
  - rewrite (bindF_Ok _ _ _ Hs). cbn [retF issued outcome fst snd bindF].
    destruct (is_empty (trim (entityFilter st))); simpl negb; cbv iota.
    + simpl. rewrite !app_nil_r. now split.
    + rewrite (bindF_Ok _ _ _ He). simpl. rewrite !app_nil_r.
      split; [now apply only_lookups_app | reflexivity].
Qed.

(** ** [fetchRawData], branch by branch *)

Lemma runPage_issued (be : Backend) (q : PageQuery) :
  exists t, issued (runPage be q) = RPage q :: t
            /\ Forall (fun r => is_page_request r = false) t.
Proof.
  unfold runPage. destruct (r_error (run_page be q)) as [msg|].
  - exists []. split; [reflexivity | constructor].
  - cbn [bindF].
    assert (He : exists t items,
               enrichWithLastCheckResult be (rows_of (run_page be q)) = (t, Ok items)
               /\ only_lookups t).
    { unfold enrichWithLastCheckResult.
      destruct (rows_of (run_page be q)) as [|i l].
      - exists [], []. split; [reflexivity | constructor].
      - destruct (List.filter _ _).
        + eexists [], _. split; [reflexivity | constructor].
        + eexists [_], _. split; [reflexivity | repeat constructor]. }
    destruct He as (t & items & -> & Ht). simpl.
    exists (t ++ []). split; [reflexivity|].
    apply only_lookups_app; [assumption | constructor].
Qed.

Lemma fetchRawData_throw (be : Backend) (st : QueryState) (pageNum : Z) (msg : string) :
  applyDirectColumnFilters [] (filters st) = Throw msg ->
  fetchRawData be st pageNum = ([], Throw msg).
Proof. unfold fetchRawData. now intros ->. Qed.

Lemma fetchRawData_requester_mismatch (be : Backend) (st : QueryState) (pageNum : Z)
    (q : Query) :
  applyDirectColumnFilters [] (filters st) = Ok q ->
  applyRequesterFilter (requesterFilter st) q = None ->
  fetchRawData be st pageNum = ([], Ok emptyPage).
Proof.
  intros Hq Hr. unfold fetchRawData. rewrite Hq.
  change (liftE (Ok q)) with (retF q). rewrite bindF_ret. now rewrite Hr.
Qed.

Lemma fetchRawData_resolved (be : Backend) (st : QueryState) (pageNum : Z)
    (q q1 : Query) (c : option (list string)) :
  applyDirectColumnFilters [] (filters st) = Ok q ->
  applyRequesterFilter (requesterFilter st) q = Some q1 ->
  outcome (resolveConstraint be st) = Ok c ->
  let from := (pageNum - 1) * pageSize st in
  let to := from + pageSize st - 1 in
  let query := applyStatusFilter (statusFilter st) q1 in
  fetchRawData be st pageNum =
  match c with
  | Some [] => (issued (resolveConstraint be st) ++ [], Ok emptyPage)
  | Some l =>
      let r := runPage be {| pq_filters := q_in "uuid" l query;
                             pq_from := from; pq_to := to |} in
      (issued (resolveConstraint be st) ++ issued r, outcome r)
  | None =>
      let r := runPage be {| pq_filters := query; pq_from := from; pq_to := to |} in
      (issued (resolveConstraint be st) ++ issued r, outcome r)
  end.
Proof.
  intros Hq Hr Hc. unfold fetchRawData. rewrite Hq.
  change (liftE (Ok q)) with (retF q). rewrite bindF_ret. rewrite Hr.
  rewrite (bindF_Ok _ _ _ Hc).
  destruct c as [[|u l]|]; cbn [issued outcome fst snd retF app]; reflexivity.
Qed.

(** X1. Whenever the column filters compile, an empty identifier
    constraint ends the fetch with the empty page and the count 0,
    and no paginated query has been sent. *)
Lemma search_short_circuit (be : Backend) (st : QueryState) (pageNum : Z) (q : Query) :
  applyDirectColumnFilters [] (filters st) = Ok q ->
  identifier_constraint be st = Some [] ->
  outcome (fetchRawData be st pageNum) = Ok emptyPage
  /\ only_lookups (issued (fetchRawData be st pageNum)).
Proof.
  intros Hq Hc.
  destruct (applyRequesterFilter (requesterFilter st) q) as [q1|] eqn:Hr.
  2:{ rewrite (fetchRawData_requester_mismatch be st pageNum q Hq Hr).
      split; [reflexivity | constructor]. }
  destruct (resolveConstraint_outcome be st) as [Ht Ho].
  assert (Hempty : outcome (resolveConstraint be st) = Ok (Some [])).
  { rewrite Ho. f_equal. unfold identifier_constraint, entityActive in Hc.
    destruct (is_empty (trim (entityFilter st))) eqn:Hblank.
    - rewrite (sanitize_of_blank _ Hblank) in Hc. simpl in Hc.
      destruct (searchActive st); simpl; congruence.
    - destruct (is_empty (sanitizeSearchTerm (entityFilter st))) eqn:Hsan.
      + assert (He : entitySet be st = []).
        { unfold entitySet. apply is_empty_spec in Hsan. rewrite Hsan. reflexivity. }
        rewrite He. destruct (searchActive st); simpl; [|reflexivity].
        now rewrite intersectUuids_nil_r.
      + simpl in Hc. destruct (searchActive st); simpl; congruence. }
  rewrite (fetchRawData_resolved be st pageNum q q1 _ Hq Hr Hempty).
  cbn [issued outcome fst snd]. split; [reflexivity|].
  apply only_lookups_app; [assumption | constructor].
Qed.

(** The search term or the entity filter is active whenever there is
    an identifier constraint. *)
Lemma identifier_constraint_active (be : Backend) (st : QueryState) :
  (searchActive st || entityActive st)%bool = true
  <-> identifier_constraint be st <> None.
Proof.
  unfold identifier_constraint.
  destruct (searchActive st), (entityActive st); simpl; split; congruence.
Qed.

(** C1. Fails on the code at a query whose search term resolves to
    no identifier while the [created_at] filter reads 2024-13-01: the
    search is active and the identifier constraint is empty, yet the
    fetch does not return the empty page: it throws while the column
    filters are compiled, before the resolver runs.  (With the date
    2024-12-01 the same query returns the empty page.) *)
Theorem search_short_circuit_bad_date :
  searchActive Scenario.searchWithBadDate = true
  /\ identifier_constraint Scenario.emptyBackend Scenario.searchWithBadDate = Some []
  /\ fetchRawData Scenario.emptyBackend Scenario.searchWithBadDate 1
     = ([], Throw "RangeError: Invalid time value")
  /\ outcome (fetchRawData Scenario.emptyBackend Scenario.searchWithDate 1)
     = Ok emptyPage.
Proof. repeat split; vm_compute; reflexivity. Qed.

(** ** The requester selector *)

Lemma upper_char_alnum (c : ascii) :
  is_alnum c = true -> is_upper_alnum (upper_char c) = true.
Proof.
  destruct c as [[] [] [] [] [] [] [] []]; vm_compute; intros H;
    first [reflexivity | discriminate H].
Qed.

(** [normalizeVatInput] leaves only [A-Z] and [0-9]. *)
Lemma normalizeVatInput_upper_alnum (value : string) :
  Forall (fun c => is_upper_alnum c = true) (chars (normalizeVatInput value)).
Proof.
  unfold normalizeVatInput. rewrite chars_str.
  induction (chars value) as [|c l IH]; simpl; [constructor|].
  destruct (is_alnum c) eqn:E; simpl; [|exact IH].
  constructor; [now apply upper_char_alnum | exact IH].
Qed.

Lemma In_applyStatusFilter (sel : MonitoringStatusFilter) (q : Query) (f : Filter) :
  In f q -> In f (applyStatusFilter sel q).
Proof.
  intros H.
  destruct sel; unfold applyStatusFilter, q_eq, q_neq, q_not, q_or, q_gt;
    rewrite ?in_app_iff; tauto.
Qed.

Lemma page_request_of (be : Backend) (st : QueryState) (pageNum : Z) (q q1 : Query)
    (c : option (list string)) (pq : PageQuery) :
  applyDirectColumnFilters [] (filters st) = Ok q ->
  applyRequesterFilter (requesterFilter st) q = Some q1 ->
  outcome (resolveConstraint be st) = Ok c ->
  In (RPage pq) (issued (fetchRawData be st pageNum)) ->
  pq_filters pq =
    match c with
    | Some l => q_in "uuid" l (applyStatusFilter (statusFilter st) q1)
    | None => applyStatusFilter (statusFilter st) q1
    end
  /\ pq_from pq = (pageNum - 1) * pageSize st
  /\ pq_to pq = (pageNum - 1) * pageSize st + pageSize st - 1.
Proof.
  intros Hq Hr Hc Hin.
  destruct (resolveConstraint_outcome be st) as [Ht _].
  rewrite (fetchRawData_resolved be st pageNum q q1 c Hq Hr Hc) in Hin.
  assert (Hno : forall t, only_lookups t -> ~ In (RPage pq) t).
  { intros t HF Hp. unfold only_lookups in HF. rewrite List.Forall_forall in HF.
    specialize (HF _ Hp). discriminate HF. }
  destruct c as [[|u l]|]; cbn [issued fst] in Hin; apply in_app_or in Hin;
    destruct Hin as [Hin | Hin]; try (now apply Hno in Hin); try contradiction.
  - destruct (runPage_issued be {| pq_filters := q_in "uuid" (u :: l)
        (applyStatusFilter (statusFilter st) q1);
        pq_from := (pageNum - 1) * pageSize st;
        pq_to := (pageNum - 1) * pageSize st + pageSize st - 1 |}) as (t & Et & Hlk).
    rewrite Et in Hin. destruct Hin as [[= <-] | Hin]; [|now apply Hno in Hin].
    cbn. repeat split.
  - destruct (runPage_issued be {| pq_filters := applyStatusFilter (statusFilter st) q1;
        pq_from := (pageNum - 1) * pageSize st;
        pq_to := (pageNum - 1) * pageSize st + pageSize st - 1 |}) as (t & Et & Hlk).
    rewrite Et in Hin. destruct Hin as [[= <-] | Hin]; [|now apply Hno in Hin].
    cbn. repeat split.
Qed.

(** X2. Whenever the column filters compile: a requester value that is
    not the sentinel and does not match the pattern after
    normalisation gives the empty page with count 0 and sends
    nothing; one that matches puts the two equalities into every
    paginated query that is sent. *)
Lemma requester_fail_closed (be : Backend) (st : QueryState) (pageNum : Z) (q : Query) :
  applyDirectColumnFilters [] (filters st) = Ok q ->
  requesterFilter st <> "__all__" ->
  let normalized := normalizeVatInput (requesterFilter st) in
  ((forall prefix remainder, ~ requester_pattern normalized prefix remainder) ->
   fetchRawData be st pageNum = ([], Ok emptyPage))
  /\ (forall prefix remainder,
        requester_pattern normalized prefix remainder ->
        forall pq, In (RPage pq) (issued (fetchRawData be st pageNum)) ->
        In (Is (cond "country_code_requester" "eq" (VText prefix))) (pq_filters pq)
        /\ In (Is (cond "vat_number_requester" "eq" (VText remainder))) (pq_filters pq)).
Proof.
  intros Hq Hall normalized.
  assert (Hs : String.eqb (requesterFilter st) "__all__" = false)
    by now apply String.eqb_neq.
  split.
  - intros Hno. apply matchRequester_None in Hno.
    apply (fetchRawData_requester_mismatch be st pageNum q Hq).
    unfold applyRequesterFilter. rewrite Hs. fold normalized. now rewrite Hno.
  - intros prefix remainder Hp pq Hin. apply matchRequester_spec in Hp.
    assert (Hr : applyRequesterFilter (requesterFilter st) q
                 = Some (q_eq "vat_number_requester" (VText remainder)
                           (q_eq "country_code_requester" (VText prefix) q))).
    { unfold applyRequesterFilter. rewrite Hs. fold normalized. now rewrite Hp. }
    destruct (resolveConstraint_outcome be st) as [_ Hc].
    destruct (page_request_of be st pageNum q _ _ pq Hq Hr Hc Hin) as (Hf & _ & _).
    assert (Hin' : forall f,
               In f (applyStatusFilter (statusFilter st)
                       (q_eq "vat_number_requester" (VText remainder)
                          (q_eq "country_code_requester" (VText prefix) q))) ->
               In f (pq_filters pq)).
    { intros f Hf'. rewrite Hf.
      match goal with |- In _ (match ?c with _ => _ end) => destruct c end;
        [unfold q_in; apply in_or_app; now left | assumption]. }
    split; apply Hin', In_applyStatusFilter; unfold q_eq; rewrite !in_app_iff; simpl; tauto.
Qed.

(** ** The check-count filter *)

Lemma digit_facts (c : ascii) :
  is_digit c = true ->
  is_space c = false
  /\ Ascii.eqb c "+" = false /\ Ascii.eqb c "-" = false /\ Ascii.eqb c "I" = false
  /\ Ascii.eqb c "x" = false /\ Ascii.eqb c "X" = false
  /\ Ascii.eqb c "o" = false /\ Ascii.eqb c "O" = false
  /\ Ascii.eqb c "b" = false /\ Ascii.eqb c "B" = false /\ Ascii.eqb c "." = false.
Proof.
  destruct c as [[] [] [] [] [] [] [] []]; vm_compute; intros H;
    first [discriminate H | repeat split].
Qed.

Lemma span_all (p : ascii -> bool) (l : list ascii) :
  Forall (fun c => p c = true) l -> StringToNumber.span p l = (l, []).
Proof.
  induction 1 as [|c l Hc _ IH]; simpl; [reflexivity|]. now rewrite Hc, IH.
Qed.

Lemma trim_chars_digits (l : list ascii) :
  Forall (fun c => is_digit c = true) l -> trim_chars l = l.
Proof.
  intros H. unfold trim_chars.
  assert (Hd : forall l', Forall (fun c => is_digit c = true) l' -> drop_space l' = l').
  { intros [|c t] Hl; [reflexivity|]. inversion Hl; subst.
    apply drop_space_fixed. now apply digit_facts. }
  rewrite (Hd l H), (Hd (rev l)); [apply rev_involutive|].
  now apply List.Forall_rev.
Qed.

(** [Number] of a string of decimal digits is the Number value for the
    integer it writes. *)
Lemma Number_digits (ds : list ascii) :
  ds <> [] -> Forall (fun c => is_digit c = true) ds ->
  Number (str ds) = Binary64.round false (StringToNumber.radix_value 10 ds) 1.
Proof.
  intros Hne Hd. unfold Number, StringToNumber.of_chars.
  rewrite chars_str, (trim_chars_digits ds Hd).
  destruct ds as [|c l]; [congruence|].
  inversion Hd as [|? ? Hc Hl]; subst.
  destruct (digit_facts c Hc) as (_ & Hplus & Hminus & HI & _).
  assert (Hnd : StringToNumber.non_decimal (c :: l) = None).
  { unfold StringToNumber.non_decimal. destruct l as [|x l']; [reflexivity|].
    inversion Hl as [|? ? Hx _]; subst.
    destruct (digit_facts x Hx) as (_ & _ & _ & _ & E1 & E2 & E3 & E4 & E5 & E6 & _).
    rewrite E1, E2, E3, E4, E5, E6. simpl. now destruct (Ascii.eqb c "0"). }
  rewrite Hnd, Hplus, Hminus. unfold StringToNumber.unsigned_decimal.
  replace (String.eqb (str (c :: l)) "Infinity") with false
    by (simpl; now rewrite HI).
  rewrite (span_all is_digit (c :: l) Hd). cbn [StringToNumber.nonempty].
  unfold Binary64.of_decimal. cbn [Z.leb Z.compare Z.to_N N.pow].
  now rewrite N.mul_1_r.
Qed.

Lemma odd_part_spec (p : positive) :
  forall e,
    let '(p', e') := Binary64.odd_part p e in
    e <= e' /\ Npos p = (Npos p' * 2 ^ Z.to_N (e' - e))%N /\ N.odd (Npos p') = true.
Proof.
  induction p as [p IH|p IH|]; intros e; cbn [Binary64.odd_part].
  - replace (e - e) with 0 by lia. cbn. split; [lia|]. split; [lia | reflexivity].
  - specialize (IH (e + 1)). destruct (Binary64.odd_part p (e + 1)) as [p' e'].
    destruct IH as (Hle & Hv & Ho). split; [lia|]. split; [|exact Ho].
    replace (Z.to_N (e' - e)) with (N.succ (Z.to_N (e' - (e + 1)))) by lia.
    rewrite N.pow_succ_r'.
    change (N.pos p~0) with (2 * N.pos p)%N. rewrite Hv. lia.
  - replace (e - e) with 0 by lia. cbn. split; [lia|]. split; [lia | reflexivity].
Qed.

(** An integer below [2^53] is a Number value: nothing is rounded. *)
Lemma round_integer (negative : bool) (n : N) :
  (n < 2 ^ 53)%N -> Binary64.round negative n 1 = Num negative n 0.
Proof.
  intros Hn. unfold Binary64.round.
  destruct (N.eqb_spec n 0) as [->|Hz]; [reflexivity|].
  assert (Hpos : (0 < n)%N) by lia.
  pose proof (N.log2_spec n Hpos) as [Hlo Hhi].
  assert (Ha : (N.log2 n < 53)%N).
  { apply N.log2_lt_pow2; assumption. }
  assert (Hlog : Binary64.ilog2 n 1 = Z.of_N (N.log2 n)).
  { unfold Binary64.ilog2. change (N.log2 1) with 0%N. rewrite Z.sub_0_r.
    destruct (Z.leb_spec 0 (Z.of_N (N.log2 n))) as [_|H]; [|lia].
    rewrite N2Z.id, N.mul_1_l.
    destruct (N.ltb_spec n (2 ^ N.log2 n)); [lia | reflexivity]. }
  rewrite Hlog. unfold Binary64.precision, Binary64.emin, Binary64.emax.
  set (q := Z.max (Z.of_N (N.log2 n) - (53 - 1)) (-1074)).
  assert (Hq : q = Z.of_N (N.log2 n) - 52) by (unfold q; lia).
  assert (Hq0 : q <= 0) by lia.
  assert (Hm : Binary64.scaled n 1 q = (n * 2 ^ Z.to_N (- q))%N).
  { unfold Binary64.scaled.
    destruct (Z.leb_spec 0 q) as [H0|H0].
    - assert (q = 0) as -> by lia. cbn [Z.to_N Z.opp N.pow].
      rewrite !N.mul_1_r, N.div_1_r, N.mod_1_r. reflexivity.
    - rewrite N.div_1_r, N.mod_1_r. reflexivity. }
  rewrite Hm.
  replace (971 <? q) with false by (symmetry; apply Z.ltb_ge; lia).
  replace (q =? 971) with false by (symmetry; apply Z.eqb_neq; lia).
  cbn [orb andb]. unfold Binary64.decimal.
  assert (Hp2 : (0 < 2 ^ Z.to_N (- q))%N) by (apply N.neq_0_lt_0, N.pow_nonzero; lia).
  destruct (n * 2 ^ Z.to_N (- q))%N as [|p] eqn:Hp; [lia|].
  pose proof (odd_part_spec p q) as Hs.
  destruct (Binary64.odd_part p q) as [p' e'].
  destruct Hs as (Hle & Hv & Ho).
  destruct (Z.leb_spec 0 e') as [He|He].
  - f_equal.
    replace (Z.to_N (e' - q)) with (Z.to_N e' + Z.to_N (- q))%N in Hv by lia.
    rewrite N.pow_add_r in Hv. rewrite <- Hp in Hv.
    rewrite N.mul_assoc in Hv. apply N.mul_cancel_r in Hv; [now symmetry | lia].
  - exfalso.
    replace (Z.to_N (- q)) with (Z.to_N (- e') + Z.to_N (e' - q))%N in Hp by lia.
    rewrite N.pow_add_r in Hp. rewrite Hv, N.mul_assoc in Hp.
    apply N.mul_cancel_r in Hp; [|apply N.pow_nonzero; lia].
    assert (E : N.odd (n * 2 ^ Z.to_N (- e')) = false).
    { replace (Z.to_N (- e')) with (N.succ (Z.to_N (- e' - 1))) by lia.
      rewrite N.pow_succ_r', N.mul_assoc, (N.mul_comm n 2), <- N.mul_assoc.
      rewrite N.odd_mul. reflexivity. }
    rewrite Hp in E. congruence.
Qed.

(** Rounding never gives [NaN]. *)
Lemma round_not_NaN (negative : bool) (num den : N) :
  isNaN (Binary64.round negative num den) = false.
Proof.
  unfold Binary64.round. destruct (num =? 0)%N; [reflexivity|].
  destruct (_ || _)%bool; [reflexivity|].
  unfold Binary64.decimal. destruct (Binary64.scaled _ _ _) as [|p]; [reflexivity|].
  destruct (Binary64.odd_part p _) as [p' e']. now destruct (0 <=? e').
Qed.

(** The branch of [applyDirectColumnFilters] for the check count. *)
Lemma checkCount_filter (value : string) (query : Query) :
  applyColumnFilter query ("number_of_checks", value) =
  Ok (if (negb (is_empty (trim value)) && negb (isNaN (Number (trim value))))%bool
      then query ++ [Is (cond "number_of_checks" "eq" (VNum (Number (trim value))))]
      else query).
Proof.
  unfold applyColumnFilter.
  destruct (is_empty (trim value)); [reflexivity|].
  cbn [orb negb andb String.eqb Ascii.eqb Bool.eqb].
  now destruct (isNaN (Number (trim value))).
Qed.

(** C9. Fails on the code at the values [.5] and [Infinity] typed
    into the filter of the check count: neither parses as an integer,
    whether the parse is [parseInt], an integer literal or [Number]
    followed by [Number.isInteger], yet the compiled query holds an
    exact-match predicate for the check count, with the operands 0.5
    and Infinity, where the claim has the filter dropped.  The code
    validates the value with [Number] and [isNaN] only: the predicate
    is applied exactly when the trimmed value is not empty and
    [Number] of it is not [NaN].  (A string of decimal digits is
    always applied, with the integer it writes as long as that is
    below [2^53] and with the nearest Number value above; the date
    filter next to it drops what is not of its shape.) *)
Theorem checkCount_filter_not_integer_parse :
  (forall value query,
     applyDirectColumnFilters query [("number_of_checks", value)] =
     Ok (if (negb (is_empty (trim value)) && negb (isNaN (Number (trim value))))%bool
         then query ++ [Is (cond "number_of_checks" "eq" (VNum (Number (trim value))))]
         else query))
  /\ (parseIntIsNumber ".5" = false /\ integerLiteral ".5" = false
      /\ parsesAsInteger ".5" = false
      /\ applyDirectColumnFilters [] [("number_of_checks", ".5")]
         = Ok [Is (cond "number_of_checks" "eq" (VNum (Num false 5 (-1))))])
  /\ (parseIntIsNumber "Infinity" = false /\ integerLiteral "Infinity" = false
      /\ parsesAsInteger "Infinity" = false
      /\ applyDirectColumnFilters [] [("number_of_checks", "Infinity")]
         = Ok [Is (cond "number_of_checks" "eq" (VNum (Inf false)))])
  /\ (forall ds,
        ds <> [] -> Forall (fun c => is_digit c = true) ds ->
        integerLiteral (str ds) = true
        /\ checkCountFiltered (str ds) = true
        /\ ((StringToNumber.radix_value 10 ds < 2 ^ 53)%N ->
            applyDirectColumnFilters [] [("number_of_checks", str ds)]
            = Ok [Is (cond "number_of_checks" "eq"
                        (VNum (Num false (StringToNumber.radix_value 10 ds) 0)))]))
  /\ applyDirectColumnFilters [] [("number_of_checks", "9007199254740993")]
     = Ok [Is (cond "number_of_checks" "eq" (VNum (Num false 9007199254740992 0)))]
  /\ applyDirectColumnFilters [] [("last_check_date", ".5")] = Ok [].
Proof.
  assert (H1 : forall value query,
     applyDirectColumnFilters query [("number_of_checks", value)] =
     Ok (if (negb (is_empty (trim value)) && negb (isNaN (Number (trim value))))%bool
         then query ++ [Is (cond "number_of_checks" "eq" (VNum (Number (trim value))))]
         else query)).
  { intros value query. cbn [applyDirectColumnFilters]. rewrite checkCount_filter.
    cbn [bindE]. reflexivity. }
  split; [exact H1|].
  split; [repeat split; vm_compute; reflexivity|].
  split; [repeat split; vm_compute; reflexivity|].
  split; [|split; vm_compute; reflexivity].
  intros ds Hne Hd.
  assert (Ht : trim (str ds) = str ds).
  { unfold trim. now rewrite chars_str, trim_chars_digits. }
  assert (Hempty : is_empty (str ds) = false).
  { destruct ds; [congruence | reflexivity]. }
  split; [|split].
  - unfold integerLiteral. rewrite chars_str, (trim_chars_digits ds Hd).
    destruct ds as [|c l]; [congruence|].
    inversion Hd as [|? ? Hc Hl]; subst.
    destruct (digit_facts c Hc) as (_ & -> & -> & _).
    cbn [orb StringToNumber.nonempty andb].
    apply forallb_Forall_true. exact Hd.
  - unfold checkCountFiltered. rewrite H1, Ht, Hempty, (Number_digits ds Hne Hd).
    now rewrite round_not_NaN.
  - intros Hlt. rewrite H1, Ht, Hempty, (Number_digits ds Hne Hd).
    now rewrite (round_integer false _ Hlt).
Qed.

(** ** The status selector *)

Lemma string_compare_refl (t : string) : String.compare t t = Eq.
Proof.
  pose proof (String.compare_antisym t t) as H.
  destruct (String.compare t t); simpl in H; congruence.
Qed.

Lemma holds_eq_text (s t : string) :
  Sql.holds "eq" (String.compare s t) = String.eqb s t.
Proof.
  change (Sql.holds "eq" (String.compare s t))
    with (match String.compare s t with Eq => true | _ => false end).
  destruct (String.eqb_spec s t) as [->|Hne].
  - now rewrite string_compare_refl.
  - destruct (String.compare s t) eqn:E; try reflexivity.
    apply String.compare_eq_iff in E. contradiction.
Qed.

Lemma holds_neq_text (s t : string) :
  Sql.holds "neq" (String.compare s t) = negb (String.eqb s t).
Proof.
  change (Sql.holds "neq" (String.compare s t))
    with (match String.compare s t with Eq => false | _ => true end).
  destruct (String.eqb_spec s t) as [->|Hne].
  - now rewrite string_compare_refl.
  - destruct (String.compare s t) eqn:E; try reflexivity.
    apply String.compare_eq_iff in E. contradiction.
Qed.

Lemma status_column (r : MonitoredNumber) :
  Sql.number_column r "reference->>status" = Sql.text_or_null (status_flag r).
Proof. reflexivity. Qed.

Lemma periodicity_column (r : MonitoredNumber) :
  Sql.number_column r "periodicity" = Sql.Text (periodicity r).
Proof. reflexivity. Qed.

Lemma checks_column (r : MonitoredNumber) :
  Sql.number_column r "number_of_checks"
  = match number_of_checks r with Some n => Sql.Int n | None => Sql.Null end.
Proof. reflexivity. Qed.

(** What the compiled status predicate selects: the rows of the
    specification's mapping, except that the three buckets with the
    "not deleted" condition keep only rows whose reference blob has a
    status flag. *)
Lemma status_filter_selects (sel : MonitoringStatusFilter) (r : MonitoredNumber) :
  Sql.selects_number (applyStatusFilter sel []) r
  = (status_mapping sel r
     && (if excludes_deleted sel then has_status_flag r else true))%bool.
Proof.
  unfold Sql.selects_number, Sql.selects, status_mapping, is_deleted, is_inactive,
    has_status_flag.
  destruct sel; cbn [applyStatusFilter excludes_deleted q_eq q_neq q_not q_or q_gt
                       app forallb Sql.filter_value Sql.any_of fold_right zero];
    unfold Sql.test; cbn [column operator operand cond String.eqb Ascii.eqb Bool.eqb];
    rewrite ?status_column, ?periodicity_column, ?checks_column;
    cbn [Sql.compare_value]; rewrite ?holds_eq_text, ?holds_neq_text;
    destruct (status_flag r) as [v|]; destruct (number_of_checks r) as [n|];
    cbn [Sql.text_or_null Sql.compare_value]; rewrite ?holds_eq_text;
    destruct (String.eqb (periodicity r) "inactive");
    try destruct (String.eqb v "deleted"); cbn; try reflexivity.
  all: rewrite ?andb_false_r, ?andb_true_r; try reflexivity.
  - change (Number "0") with (Num false 0 0). destruct n; reflexivity.
  - destruct n; reflexivity.
Qed.

(** C3. The compiled status predicate is the specification's
    mapping for every row that carries a status flag, and for the
    selectors [deleted] and [all]; but an entry whose reference blob
    has no status flag, which the mapping counts as not deleted, is
    selected by none of the [inactive], [pending] and [active]
    predicates.  On a store of two entries never deleted, one paused
    and one checked, the unfiltered page has both and the [inactive]
    and [active] pages are empty. *)
Theorem status_filter_drops_unflagged :
  (forall sel r,
     Sql.selects_number (applyStatusFilter sel []) r
     = (status_mapping sel r
        && (if excludes_deleted sel then has_status_flag r else true))%bool)
  /\ status_flag Scenario.pausedEntry = None
  /\ status_mapping StatusInactive Scenario.pausedEntry = true
  /\ Sql.selects_number (applyStatusFilter StatusInactive []) Scenario.pausedEntry = false
  /\ status_mapping StatusActive Scenario.checkedEntry = true
  /\ Sql.selects_number (applyStatusFilter StatusActive []) Scenario.checkedEntry = false
  /\ outcome (fetchRawData (RecordStore.backend Scenario.twoEntries)
                (Scenario.byStatus StatusAll) 1)
     = Ok ([Scenario.checkedEntry; Scenario.pausedEntry], 2)
  /\ outcome (fetchRawData (RecordStore.backend Scenario.twoEntries)
                (Scenario.byStatus StatusInactive) 1) = Ok ([], 0)
  /\ outcome (fetchRawData (RecordStore.backend Scenario.twoEntries)
                (Scenario.byStatus StatusActive) 1) = Ok ([], 0).
Proof.
  split; [exact status_filter_selects|].
  repeat split; vm_compute; reflexivity.
Qed.

(** ** The cap on the resolver's lookups *)

Lemma resolved_bound (be : Backend) (mode : ResolveMode) (term : string) :
  honours_limit be ->
  (length (result_of [] (resolveVatUuids be mode term)) <= 4000)%nat.
Proof.
  intros Hlim.
  destruct (resolveVatUuids_shape be mode term) as (t & a & b & E & _ & Ha & Hb).
  unfold result_of. rewrite E. cbn [outcome snd].
  pose proof (toUniqueUuids_length (map Some (a ++ b))) as Hu.
  rewrite length_map, length_app in Hu.
  assert (Ha' : (length a <= 2000)%nat).
  { destruct Ha as [-> | Ha]; [simpl; lia|].
    pose proof (Hlim (lookupVatNumbers term mode)) as H.
    change (Z.to_nat (lk_limit (lookupVatNumbers term mode))) with 2000%nat in H. lia. }
  assert (Hb' : (length b <= 2000)%nat).
  { destruct Hb as [-> | Hb]; [simpl; lia|].
    pose proof (Hlim (lookupChecks term)) as H.
    change (Z.to_nat (lk_limit (lookupChecks term))) with 2000%nat in H. lia. }
  lia.
Qed.

Lemma store_honours_limit (s : Store) : honours_limit (RecordStore.backend s).
Proof.
  intros l. cbn. rewrite length_map. apply firstn_le_length.
Qed.

Lemma not_allowed_not_selected (l : list string) (q : Query) (r : MonitoredNumber) :
  mem (uuid r) l = false -> Sql.selects_number (q_in "uuid" l q) r = false.
Proof.
  intros H. unfold Sql.selects_number, Sql.selects, q_in.
  rewrite forallb_app.
  replace (forallb (fun f => Sql.is_true (Sql.filter_value (Sql.number_column r) f))
             [OneOf "uuid" l]) with false; [apply andb_false_r|].
  cbn [forallb Sql.filter_value].
  change (Sql.number_column r "uuid") with (Sql.Text (uuid r)).
  cbv iota. now rewrite H.
Qed.

(** C10. Both lookups carry the limit 2000; against a store that
    honours the limit the allow-list of a term therefore has at most
    4000 identifiers, for a search term and for an entity filter; an
    entry whose identifier is not on the allow-list is selected by no
    paginated query the fetch sends; and on a store of 2001 entries
    that all match the term DE999 the allow-list has 2000
    identifiers and the last entry, which matches, is not on it. *)
Theorem resolver_lookups_capped :
  (forall term mode, lk_limit (lookupVatNumbers term mode) = 2000)
  /\ (forall term, lk_limit (lookupChecks term) = 2000)
  /\ (forall be, honours_limit be ->
      forall mode term,
        (length (result_of [] (resolveVatUuids be mode term)) <= 4000)%nat)
  /\ (forall be st pageNum allowed r pq,
        outcome (resolveConstraint be st) = Ok (Some allowed) ->
        mem (uuid r) allowed = false ->
        In (RPage pq) (issued (fetchRawData be st pageNum)) ->
        Sql.selects_number (pq_filters pq) r = false)
  /\ (let be := RecordStore.backend Scenario.manyEntries in
      let omitted := Scenario.numbered 2000 in
      let lookup := lookupVatNumbers "DE999" ModeSearch in
      let allowed := searchSet be Scenario.searchDE in
      nth_error (numbers Scenario.manyEntries) 2000 = Some omitted
      /\ length (List.filter (RecordStore.lookup_matches lookup)
                   (map Sql.number_column (numbers Scenario.manyEntries))) = 2001%nat
      /\ RecordStore.lookup_matches lookup (Sql.number_column omitted) = true
      /\ outcome (resolveConstraint be Scenario.searchDE) = Ok (Some allowed)
      /\ length allowed = 2000%nat
      /\ mem (uuid omitted) allowed = false).
Proof.
  split; [reflexivity|]. split; [reflexivity|].
  split; [intros be Hlim mode term; now apply resolved_bound|].
  split.
  - intros be st pageNum allowed r pq Hc Hm Hin.
    destruct (applyDirectColumnFilters [] (filters st)) as [q|msg] eqn:Hq.
    2:{ rewrite (fetchRawData_throw be st pageNum msg Hq) in Hin. contradiction. }
    destruct (applyRequesterFilter (requesterFilter st) q) as [q1|] eqn:Hr.
    2:{ rewrite (fetchRawData_requester_mismatch be st pageNum q Hq Hr) in Hin.
        contradiction. }
    destruct (page_request_of be st pageNum q q1 _ pq Hq Hr Hc Hin) as (-> & _ & _).
    now apply not_allowed_not_selected.
  - cbv zeta. split; [vm_compute; reflexivity|].
    split.
    { unfold Scenario.manyEntries. cbn [numbers]. rewrite map_map.
      rewrite forallb_filter_id; [now rewrite length_map, length_seq|].
      apply forallb_forall. intros g Hg. apply in_map_iff in Hg.
      destruct Hg as (i & <- & _). reflexivity. }
    split; [reflexivity|].
    split; [exact (proj2 (resolveConstraint_outcome _ Scenario.searchDE))|].
    vm_compute. split; reflexivity.
Qed.

Lemma resolver_lookups_capped_witness :
  (length (result_of []
             (resolveVatUuids (RecordStore.backend Scenario.twoEntries) ModeSearch "1111"))
   <= 4000)%nat.
Proof.
  apply (proj1 (proj2 (proj2 resolver_lookups_capped))
           (RecordStore.backend Scenario.twoEntries)).
  apply store_honours_limit.
Defined.

(** ** Neighbour prefetching *)

Lemma neighbors_In (P T tp p : Z) :
  T <> 0 ->
  In p (neighbors P (Some T) tp)
  <-> ((p = P - 1 \/ p = P - 2) /\ 1 <= p) \/ ((p = P + 1 \/ p = P + 2) /\ p <= T).
Proof.
  intros HT. unfold neighbors, orElse.
  destruct (Z.eqb_spec T 0) as [|_]; [contradiction|].
  cbn [flat_map]. rewrite !in_app_iff.
  destruct (Z.ltb_spec 0 (P - 1)), (Z.leb_spec (P + 1) T),
           (Z.ltb_spec 0 (P - 2)), (Z.leb_spec (P + 2) T);
    cbn [In]; lia.
Qed.

Lemma cached_None (cache : gmap Z (list MonitoredNumber)) (p : Z) :
  cached cache p = false <-> cache !! p = None.
Proof. unfold cached. destruct (cache !! p); split; congruence. Qed.

Lemma prefetchLoop_In (be : Backend) (st : QueryState) (ps : list Z) (p : Z) :
  forall cache,
    In p (fst (prefetchLoop be st ps cache)) <-> In p ps /\ cache !! p = None.
Proof.
  induction ps as [|x rest IH]; intros cache; cbn [prefetchLoop].
  - cbn. tauto.
  - destruct (cached cache x) eqn:Hx.
    + rewrite IH. cbn [In]. split; [tauto|].
      intros [[-> | Hin] Hn]; [|tauto].
      apply cached_None in Hn. congruence.
    + apply cached_None in Hx.
      set (cache' := match outcome (fetchRawData be st x) with
                     | Ok (neighborData, _) => <[x := neighborData]> cache
                     | Throw _ => cache
                     end).
      assert (Hc : forall y, y <> x -> cache' !! y = cache !! y).
      { intros y Hy. unfold cache'.
        destruct (outcome (fetchRawData be st x)) as [[d c]|]; [|reflexivity].
        now rewrite lookup_insert_ne. }
      destruct (prefetchLoop be st rest cache') as [fetched final] eqn:E.
      specialize (IH cache'). rewrite E in IH. cbn [fst] in *. cbn [In].
      rewrite IH. destruct (Z.eq_dec x p) as [->|Hne].
      * tauto.
      * rewrite (Hc p) by congruence. tauto.
Qed.

(** Every paginated query of one query state has the same filters,
    whatever the page. *)
Lemma same_compiled_query (be : Backend) (st : QueryState) (p p' : Z)
    (pq pq' : PageQuery) :
  In (RPage pq) (issued (fetchRawData be st p)) ->
  In (RPage pq') (issued (fetchRawData be st p')) ->
  pq_filters pq = pq_filters pq'.
Proof.
  intros Hin Hin'.
  destruct (applyDirectColumnFilters [] (filters st)) as [q|msg] eqn:Hq.
  2:{ rewrite (fetchRawData_throw be st p msg Hq) in Hin. contradiction. }
  destruct (applyRequesterFilter (requesterFilter st) q) as [q1|] eqn:Hr.
  2:{ rewrite (fetchRawData_requester_mismatch be st p q Hq Hr) in Hin. contradiction. }
  destruct (resolveConstraint_outcome be st) as [_ Hc].
  destruct (page_request_of be st p q q1 _ pq Hq Hr Hc Hin) as (-> & _).
  destruct (page_request_of be st p' q q1 _ pq' Hq Hr Hc Hin') as (-> & _).
  reflexivity.
Qed.

Lemma continuePrefetch_tasks (cl : Closure) (ps : list Z) (s : State) :
  tasks s = [] ->
  tasks (continuePrefetch cl ps s)
  = match next_uncached (dataCacheRef s) ps with
    | Some (p, rest) => [TPrefetch cl p rest]
    | None => []
    end
  /\ dataCacheRef (continuePrefetch cl ps s) = dataCacheRef s.
Proof.
  intros Ht. unfold continuePrefetch.
  destruct (next_uncached (dataCacheRef s) ps) as [[p rest]|]; cbn; rewrite ?Ht; auto.
Qed.

(** The task-by-task prefetch of the component fetches the pages of
    [prefetchLoop] and ends with its cache. *)
Lemma drainPrefetch_loop (w : World) (cl : Closure) (ps : list Z) :
  forall s fuel,
    (length ps <= fuel)%nat ->
    tasks s = match next_uncached (dataCacheRef s) ps with
              | Some (p, rest) => [TPrefetch cl p rest]
              | None => []
              end ->
    let r := prefetchLoop (w_backend w) (cl_query cl) ps (dataCacheRef s) in
    let d := drainPrefetch w fuel s in
    fst d = fst r /\ dataCacheRef (snd d) = snd r /\ tasks (snd d) = [].
Proof.
  induction ps as [|x rest IH]; intros s fuel Hf Ht; cbv zeta.
  - cbn [next_uncached] in Ht. cbn [prefetchLoop fst snd].
    destruct fuel; cbn [drainPrefetch]; rewrite ?Ht; auto.
  - cbn [next_uncached] in Ht. cbn [prefetchLoop].
    destruct (cached (dataCacheRef s) x) eqn:Hx.
    + apply (IH s fuel); [cbn in Hf; lia | exact Ht].
    + destruct fuel as [|fuel]; [cbn in Hf; lia|].
      cbn [drainPrefetch]. rewrite Ht. cbn [step]. rewrite Ht.
      cbn [lookup list_lookup remove_nth complete].
      set (r := outcome (fetchRawData (w_backend w) (cl_query cl) x)).
      unfold prefetched.
      set (s1 := match r with
                 | Ok (neighborData, _) => updateCache x neighborData (set_tasks [] s)
                 | Throw _ => set_tasks [] s
                 end).
      assert (Ht1 : tasks s1 = []) by (unfold s1; now destruct r as [[d c]|]).
      assert (Hc1 : dataCacheRef s1 =
                    match r with
                    | Ok (neighborData, _) => <[x := neighborData]> (dataCacheRef s)
                    | Throw _ => dataCacheRef s
                    end) by (unfold s1; now destruct r as [[d c]|]).
      destruct (continuePrefetch_tasks cl rest s1 Ht1) as [Ht2 Hc2].
      rewrite <- Hc2 in Ht2.
      specialize (IH (continuePrefetch cl rest s1) fuel ltac:(cbn in Hf; lia) Ht2).
      cbv zeta in IH. rewrite Hc2, Hc1 in IH.
      destruct (drainPrefetch w fuel (continuePrefetch cl rest s1)) as [pages s'].
      destruct (prefetchLoop (w_backend w) (cl_query cl) rest _) as [fetched final].
      cbn [fst snd] in *. destruct IH as (-> & -> & ->). auto.
Qed.

(** After a load has completed, the prefetch of the component fetches
    [prefetched_pages] over the cache that now holds the loaded page. *)
Lemma loaded_prefetches (w : World) (cl : Closure) (P count : Z)
    (rows : list MonitoredNumber) (s : State) :
  tasks s = [] ->
  let T := orElse (ceilDiv count (pageSize (cl_query cl))) 1 in
  fst (drainPrefetch w 4 (loaded cl P (Ok (rows, count)) s))
  = prefetched_pages (w_backend w) (cl_query cl) P T (<[P := rows]> (dataCacheRef s)).
Proof.
  intros Ht T. unfold loaded, prefetchNeighbors, prefetched_pages. fold T.
  assert (HT : T <> 0).
  { unfold T, orElse. destruct (Z.eqb_spec (ceilDiv count (pageSize (cl_query cl))) 0); lia. }
  assert (Hn : neighbors P (Some T) (cl_totalPages cl) = neighbors P (Some T) T).
  { unfold neighbors, orElse. now destruct (Z.eqb_spec T 0). }
  rewrite Hn.
  set (s0 := updateCache P rows _).
  assert (Ht0 : tasks s0 = []) by exact Ht.
  assert (Hlen : (length (neighbors P (Some T) T) <= 4)%nat).
  { unfold neighbors. cbn [flat_map].
    repeat match goal with |- context [if ?b then _ else _] => destruct b end;
      cbn; lia. }
  destruct (continuePrefetch_tasks cl (neighbors P (Some T) T) s0 Ht0) as [Ht1 Hc1].
  set (y := set_loading false (continuePrefetch cl (neighbors P (Some T) T) s0)).
  assert (Hty : tasks y = match next_uncached (dataCacheRef y) (neighbors P (Some T) T) with
                          | Some (p, rest) => [TPrefetch cl p rest]
                          | None => []
                          end).
  { change (tasks y) with (tasks (continuePrefetch cl (neighbors P (Some T) T) s0)).
    change (dataCacheRef y)
      with (dataCacheRef (continuePrefetch cl (neighbors P (Some T) T) s0)).
    now rewrite Hc1. }
  pose proof (drainPrefetch_loop w cl (neighbors P (Some T) T) y 4 Hlen Hty) as H.
  cbv zeta in H. destruct H as (H & _ & _). rewrite H.
  change (dataCacheRef y)
    with (dataCacheRef (continuePrefetch cl (neighbors P (Some T) T) s0)).
  rewrite Hc1. reflexivity.
Qed.

(** What the two loops of [prefetchNeighbors] fetch: the pages [P-1],
    [P-2] that are at least 1 and the pages [P+1], [P+2] that are at
    most [T], minus the cached ones. *)
Lemma prefetched_pages_In (be : Backend) (st : QueryState) (P T : Z)
    (cache : gmap Z (list MonitoredNumber)) (p : Z) :
  T <> 0 ->
  In p (prefetched_pages be st P T cache)
  <-> (((p = P - 1 \/ p = P - 2) /\ 1 <= p) \/ ((p = P + 1 \/ p = P + 2) /\ p <= T))
      /\ cache !! p = None.
Proof.
  intros HT. unfold prefetched_pages.
  now rewrite prefetchLoop_In, (neighbors_In P T T p HT).
Qed.

(** C8. Fails on the code when the page that has loaded lies more
    than one page beyond the last one: the neighbours below [P] are
    kept when they are at least 1 and are never compared with the
    number of pages, so that for [P > T + 1] the page [P - 1], which
    is outside [[1, T]], is fetched ahead.  The page gets there: on
    page 5 of a list of 70 entries that has shrunk to 2 by the time
    page 5 loads, the load sets one page in total, keeps the page
    number 5 and fetches ahead pages 4 and 3, which end up in the
    cache.  (The neighbours above [P] are compared with [T]: for
    [P <= T + 1] the pages fetched ahead are those of the claim.  The
    component fetches these pages one pending task after the other,
    and every paginated query of one query state has the same
    filters.) *)
Theorem prefetch_beyond_total :
  (forall be st P T cache p,
     T <> 0 ->
     In p (prefetched_pages be st P T cache)
     <-> (((p = P - 1 \/ p = P - 2) /\ 1 <= p) \/ ((p = P + 1 \/ p = P + 2) /\ p <= T))
         /\ cache !! p = None)
  /\ (forall be st P T cache,
        1 <= T -> T + 1 < P -> cache !! (P - 1) = None ->
        In (P - 1) (prefetched_pages be st P T cache)
        /\ ~ claimed_prefetch P T cache (P - 1))
  /\ (let before := Scenario.world (Scenario.numberedEntries 70) in
      let after := Scenario.world Scenario.twoEntries in
      let s := run mounted [EvComplete 0 before; EvComplete 0 before;
                            EvPageInput (Some 5); EvComplete 1 after] in
      let s' := run s [EvComplete 1 after; EvComplete 1 after] in
      page s = 5 /\ totalCount s = 2 /\ totalPages s = 1
      /\ (exists cl, nth_error (tasks s) 1 = Some (TPrefetch cl 4 [3]))
      /\ ~ claimed_prefetch 5 1 (dataCacheRef s) 4
      /\ dataCacheRef s !! 4 = None /\ dataCacheRef s !! 3 = None
      /\ dataCacheRef s' !! 4 = Some [] /\ dataCacheRef s' !! 3 = Some [])
  /\ (forall be st P T cache p,
        1 <= P -> 1 <= T -> P <= T + 1 ->
        In p (prefetched_pages be st P T cache) <-> claimed_prefetch P T cache p)
  /\ (forall w cl P count rows s,
        tasks s = [] ->
        let T := orElse (ceilDiv count (pageSize (cl_query cl))) 1 in
        fst (drainPrefetch w 4 (loaded cl P (Ok (rows, count)) s))
        = prefetched_pages (w_backend w) (cl_query cl) P T (<[P := rows]> (dataCacheRef s)))
  /\ (forall be st p p' pq pq',
        In (RPage pq) (issued (fetchRawData be st p)) ->
        In (RPage pq') (issued (fetchRawData be st p')) ->
        pq_filters pq = pq_filters pq').
Proof.
  split; [exact prefetched_pages_In|].
  split.
  { intros be st P T cache HT HP Hn. split.
    - apply prefetched_pages_In; [lia|]. split; [|exact Hn]. left. split; [now left | lia].
    - intros (_ & Hr & _). lia. }
  split.
  { cbv zeta. split; [vm_compute; reflexivity|]. split; [vm_compute; reflexivity|].
    split; [vm_compute; reflexivity|].
    split; [eexists; vm_compute; reflexivity|].
    split; [intros (_ & Hr & _); lia|].
    repeat split; vm_compute; reflexivity. }
  split.
  { intros be st P T cache p HP1 HT HP. rewrite prefetched_pages_In by lia.
    unfold claimed_prefetch. split.
    - intros [H Hn]. split; [lia|]. split; [lia | exact Hn].
    - intros (H & Hr & Hn). split; [|exact Hn].
      destruct H as [-> | [-> | [-> | ->]]]; [left | left | right | right]; lia. }
  split; [exact loaded_prefetches | exact same_compiled_query].
Qed.

(** ** What the handlers leave alone *)

Lemma loadPageData_frame (cl : Closure) (p : Z) (force : bool) (s : State) :
  let s' := loadPageData cl p force s in
  page s' = page s /\ dataCacheRef s' = dataCacheRef s /\ dataCache s' = dataCache s
  /\ selectedNumber s' = selectedNumber s /\ totalCount s' = totalCount s
  /\ totalPages s' = totalPages s /\ query s' = query s /\ timer s' = timer s
  /\ (data s' = data s
      \/ exists rows, dataCacheRef s !! p = Some rows /\ data s' = rows).
Proof.
  unfold loadPageData, prefetchNeighbors, continuePrefetch.
  destruct force; [cbn; tauto|].
  destruct (dataCacheRef s !! p) as [rows|] eqn:E; [|cbn; tauto].
  cbn [dataCacheRef set_loading set_data].
  destruct (next_uncached _ _) as [[x rest]|]; cbn;
    repeat split; right; exists rows; split; auto.
Qed.

Lemma loadPageData_pending (cl : Closure) (p : Z) (s : State) :
  In (TLoad cl p) (tasks (loadPageData cl p true s)).
Proof. unfold loadPageData. cbn. apply in_or_app. right. now left. Qed.

Lemma loadPageData_keeps_tasks (cl : Closure) (p : Z) (force : bool) (s : State) (t : Task) :
  In t (tasks s) -> In t (tasks (loadPageData cl p force s)).
Proof.
  intros H. unfold loadPageData, prefetchNeighbors, continuePrefetch.
  destruct (if force then None else dataCacheRef s !! p) as [rows|].
  - cbn [dataCacheRef set_loading set_data].
    destruct (next_uncached _ _) as [[x rest]|]; cbn; [apply in_or_app; now left | exact H].
  - cbn. apply in_or_app. now left.
Qed.

(** ** The filter reset *)

Lemma change_arms (c : Change) (s : State) :
  changes c (query s) = true ->
  exists cl, timer (change c s) = Some cl
             /\ cl_query cl = applyChange c (query s)
             /\ query (change c s) = applyChange c (query s).
Proof. intros H. unfold change. rewrite H. cbn. eexists. repeat split. Qed.

Lemma change_frame (c : Change) (s : State) :
  page (change c s) = page s /\ dataCacheRef (change c s) = dataCacheRef s
  /\ dataCache (change c s) = dataCache s /\ tasks (change c s) = tasks s.
Proof. unfold change. destruct (changes c (query s)); cbn; tauto. Qed.

Lemma timeout_resets (s : State) (cl : Closure) :
  timer s = Some cl ->
  page (timeout s) = 1 /\ dataCacheRef (timeout s) = ∅ /\ dataCache (timeout s) = ∅
  /\ timer (timeout s) = None /\ In (TLoad cl 1) (tasks (timeout s)).
Proof.
  intros Ht. unfold timeout. rewrite Ht.
  set (s0 := clearCache (set_page 1 (set_timer None s))).
  pose proof (loadPageData_frame cl 1 true s0) as F1. cbv zeta in F1.
  destruct F1 as (P1 & R1 & C1 & _ & _ & _ & _ & T1 & _).
  pose proof (loadPageData_pending cl 1 s0) as Hin.
  destruct (page s =? 1).
  - rewrite P1, R1, C1, T1. cbn. tauto.
  - set (s1 := loadPageData cl 1 true s0) in *.
    pose proof (loadPageData_frame (closure_of s1) 1 false s1) as F2. cbv zeta in F2.
    destruct F2 as (P2 & R2 & C2 & _ & _ & _ & _ & T2 & _).
    rewrite P2, R2, C2, T2, P1, R1, C1, T1. cbn.
    repeat split. now apply loadPageData_keeps_tasks.
Qed.

(** Nothing but a completion puts a page into an empty cache. *)
Lemma empty_cache_stays (s : State) (e : Event) :
  (forall i w, e <> EvComplete i w) ->
  dataCacheRef s = ∅ -> dataCache s = ∅ ->
  dataCacheRef (step s e) = ∅ /\ dataCache (step s e) = ∅.
Proof.
  intros He Hr Hc.
  assert (Hload : forall cl p force x,
             dataCacheRef x = ∅ -> dataCache x = ∅ ->
             dataCacheRef (loadPageData cl p force x) = ∅
             /\ dataCache (loadPageData cl p force x) = ∅).
  { intros cl p force x Hx Hx'.
    pose proof (loadPageData_frame cl p force x) as F. cbv zeta in F.
    destruct F as (_ & -> & -> & _). now split. }
  assert (Hpage : forall p, dataCacheRef (setPage p s) = ∅ /\ dataCache (setPage p s) = ∅).
  { intros p. unfold setPage. destruct (p =? page s); [now split|]. now apply Hload. }
  destruct e; cbn [step].
  - destruct (change_frame c s) as (_ & -> & -> & _). now split.
  - destruct (timer s) as [cl|] eqn:Ht.
    + destruct (timeout_resets s cl Ht) as (_ & R & C & _). now split.
    + unfold timeout. rewrite Ht. now split.
  - apply Hpage.
  - apply Hpage.
  - apply Hpage.
  - unfold changePageSize. destruct (n =? pageSize (query s)); [now split|].
    set (s1 := clearCache _).
    assert (H1 : dataCacheRef s1 = ∅ /\ dataCache s1 = ∅) by now split.
    destruct H1 as [R1 C1].
    destruct (page s1 =? 1); [now apply Hload|].
    unfold setPage. destruct (1 =? page s1); [now split | now apply Hload].
  - now split.
  - unfold savePeriodicity. destruct (selectedNumber s) as [sel|]; [|now split].
    destruct (String.eqb _ _); [now split|].
    cbn. rewrite Hr. now rewrite fmap_empty.
  - unfold softDeleteVatNumber. destruct (selectedNumber s) as [sel|]; [|now split].
    destruct (_ || _)%bool; now split.
  - exfalso. now apply (He i w).
  - now split.
  - now split.
  - unfold handleDownloadFromContextMenu.
    destruct (vatContextMenu s) as [[pos target]|]; [|now split].
    destruct (contextAction s); now split.
  - unfold handleForceCheckFromContextMenu.
    destruct (vatContextMenu s) as [[pos target]|]; [|now split].
    destruct (contextAction s); [now split|]. destruct confirmed; now split.
Qed.

(** C5. Fails on the code: the reset is done, but what was in
    flight undoes it before the new fetch completes.  Every change of
    the search box, a column filter, the requester or the status
    selector arms the debounce timeout; when it fires the page number
    is 1 and the Page Cache (the ref and its state mirror) is empty
    while the fetch for the changed query state is pending, and no
    event other than a completion puts anything into the empty cache.
    But a request started before the change is completed like any
    other.  On a list of 40 entries, with the prefetch of page 2
    still in flight when the search changes to [zz]: the prefetch
    completes after the reset and page 2 of the unfiltered list is in
    the cache, while the fetch for [zz], which finds nothing, is
    still pending.  And when the search changes while the first page
    is still loading, the rows of the unfiltered list are displayed
    and cached as page 1 after the reset, with the fetch for [zz]
    still pending. *)
Theorem filter_reset_undone_by_stale_completion :
  (forall s c, changes c (query s) = true ->
     let s1 := step s (EvChange c) in
     (exists cl, timer s1 = Some cl /\ cl_query cl = applyChange c (query s))
     /\ query s1 = applyChange c (query s)
     /\ page s1 = page s /\ dataCacheRef s1 = dataCacheRef s
     /\ dataCache s1 = dataCache s /\ tasks s1 = tasks s)
  /\ (forall s cl,
        timer s = Some cl ->
        let s1 := step s EvTimer in
        In (TLoad cl 1) (tasks s1)
        /\ page s1 = 1 /\ dataCacheRef s1 = ∅ /\ dataCache s1 = ∅)
  /\ (forall s e,
        (forall i w, e <> EvComplete i w) ->
        dataCacheRef s = ∅ -> dataCache s = ∅ ->
        dataCacheRef (step s e) = ∅ /\ dataCache (step s e) = ∅)
  /\ (let w := Scenario.world (Scenario.numberedEntries 40) in
      let s := run mounted [EvComplete 0 w; EvComplete 0 w;
                            EvChange (SetSearch "zz"); EvTimer] in
      let s' := step s (EvComplete 0 w) in
      search (query s) = "zz" /\ page s = 1 /\ dataCacheRef s = ∅ /\ dataCache s = ∅
      /\ (exists old new,
            tasks s = [TPrefetch old 2 [3]; TLoad new 1]
            /\ search (cl_query old) = "" /\ cl_query new = query s
            /\ tasks s' = [TLoad new 1; TPrefetch old 3 []])
      /\ (exists rows,
            dataCacheRef s' !! 2 = Some rows /\ dataCache s' !! 2 = Some rows
            /\ length rows = 15%nat
            /\ outcome (fetchRawData (w_backend w) initialQuery 2) = Ok (rows, 40))
      /\ outcome (fetchRawData (w_backend w) (query s') 1) = Ok emptyPage)
  /\ (let w := Scenario.world (Scenario.numberedEntries 40) in
      let s := run mounted [EvChange (SetSearch "zz"); EvTimer] in
      let s' := step s (EvComplete 0 w) in
      search (query s) = "zz" /\ page s = 1 /\ dataCacheRef s = ∅ /\ data s = []
      /\ (exists new, In (TLoad new 1) (tasks s') /\ cl_query new = query s')
      /\ length (data s') = 15%nat
      /\ dataCacheRef s' !! 1 = Some (data s')
      /\ outcome (fetchRawData (w_backend w) initialQuery 1) = Ok (data s', 40)).
Proof.
  split.
  { intros s c H. cbv zeta. cbn [step].
    destruct (change_arms c s H) as (cl & Ht & Hq & Hq').
    destruct (change_frame c s) as (P & R & C & T).
    split; [now exists cl|]. tauto. }
  split.
  { intros s cl Ht. cbv zeta. cbn [step].
    destruct (timeout_resets s cl Ht) as (P & R & C & _ & Hin). tauto. }
  split; [exact empty_cache_stays|].
  split.
  { cbv zeta. split; [vm_compute; reflexivity|]. split; [vm_compute; reflexivity|].
    split; [vm_compute; reflexivity|]. split; [vm_compute; reflexivity|].
    split.
    { eexists _, _. split; [vm_compute; reflexivity|].
      split; [reflexivity|]. split; [vm_compute; reflexivity|].
      vm_compute; reflexivity. }
    split.
    { eexists. split; [vm_compute; reflexivity|]. split; [vm_compute; reflexivity|].
      split; vm_compute; reflexivity. }
    vm_compute; reflexivity. }
  cbv zeta. split; [vm_compute; reflexivity|]. split; [vm_compute; reflexivity|].
  split; [vm_compute; reflexivity|]. split; [vm_compute; reflexivity|].
  split.
  { eexists. split; [vm_compute; right; left; reflexivity | vm_compute; reflexivity]. }
  repeat split; vm_compute; reflexivity.
Qed.

(** ** Local mutations *)

Lemma with_periodicity_same (p : string) (r : MonitoredNumber) :
  periodicity r = p -> with_periodicity p r = r.
Proof. destruct r. cbn. now intros ->. Qed.

Lemma lookup_app_last {A} (l : list A) (x : A) : (l ++ [x]) !! length l = Some x.
Proof. induction l as [|y l IH]; [reflexivity | exact IH]. Qed.

Lemma remove_nth_last {A} (l : list A) (x : A) : remove_nth (length l) (l ++ [x]) = l.
Proof. induction l as [|y l IH]; cbn; [reflexivity | now rewrite IH]. Qed.

Section Periodicity.

Variables (id p : string).

Lemma updateItems_sets (rows : list MonitoredNumber) (r : MonitoredNumber) :
  In r (updateItems id p rows) -> uuid r = id -> periodicity r = p.
Proof.
  unfold updateItems. rewrite in_map_iff. intros (r0 & <- & _).
  destruct (String.eqb_spec (uuid r0) id) as [E|E]; [reflexivity | congruence].
Qed.

Lemma applyPeriodicityLocally_data (s : State) :
  data (applyPeriodicityLocally id p s) = updateItems id p (data s).
Proof. reflexivity. Qed.

Lemma applyPeriodicityLocally_cache (s : State) :
  dataCacheRef (applyPeriodicityLocally id p s) = updateItems id p <$> dataCacheRef s
  /\ dataCache (applyPeriodicityLocally id p s) = updateItems id p <$> dataCacheRef s.
Proof. split; reflexivity. Qed.

Lemma applyPeriodicityLocally_selected (s : State) :
  selectedNumber (applyPeriodicityLocally id p s) =
  match selectedNumber s with
  | Some prev => Some (if String.eqb (uuid prev) id then with_periodicity p prev else prev)
  | None => None
  end.
Proof.
  cbn. destruct (selectedNumber s) as [prev|]; [|reflexivity].
  now destruct (String.eqb (uuid prev) id).
Qed.

Lemma applyPeriodicityLocally_everywhere (s : State) :
  let s' := applyPeriodicityLocally id p s in
  (forall r, In r (data s') -> uuid r = id -> periodicity r = p)
  /\ (forall k rows r, dataCacheRef s' !! k = Some rows -> In r rows ->
                       uuid r = id -> periodicity r = p)
  /\ (forall k rows r, dataCache s' !! k = Some rows -> In r rows ->
                       uuid r = id -> periodicity r = p)
  /\ (forall sel, selectedNumber s' = Some sel -> uuid sel = id -> periodicity sel = p).
Proof.
  cbv zeta. destruct (applyPeriodicityLocally_cache s) as [Hr Hc].
  rewrite Hr, Hc, applyPeriodicityLocally_data, applyPeriodicityLocally_selected.
  split; [intros r; apply updateItems_sets|].
  assert (Hcache : forall k rows r,
             (updateItems id p <$> dataCacheRef s) !! k = Some rows -> In r rows ->
             uuid r = id -> periodicity r = p).
  { intros k rows r Hk. rewrite lookup_fmap in Hk.
    destruct (dataCacheRef s !! k) as [rows0|]; [|discriminate].
    cbn in Hk. injection Hk as <-. apply updateItems_sets. }
  split; [exact Hcache|]. split; [exact Hcache|].
  intros sel Hs Hu. destruct (selectedNumber s) as [prev|]; [|discriminate].
  injection Hs as <-.
  destruct (String.eqb_spec (uuid prev) id) as [E|E]; [reflexivity | congruence].
Qed.

End Periodicity.







(** ** Soft delete *)

Lemma removed_absent (id : string) (rows : list MonitoredNumber) (r : MonitoredNumber) :
  In r (removeFromItems id rows) -> uuid r <> id.
Proof.
  unfold removeFromItems. rewrite filter_In. intros [_ H] E. apply negb_true_iff in H.
  apply String.eqb_neq in H. contradiction.
Qed.

Lemma ceilDiv_positive (a b : Z) : 1 <= a -> 0 < b -> 1 <= ceilDiv a b.
Proof.
  intros Ha Hb. unfold ceilDiv.
  assert (H : (- a) / b < 0) by (apply Z.div_lt_upper_bound; lia). lia.
Qed.

Lemma setPage_frame (p : Z) (s : State) :
  let s' := setPage p s in
  page s' = p /\ dataCacheRef s' = dataCacheRef s /\ dataCache s' = dataCache s
  /\ selectedNumber s' = selectedNumber s /\ totalCount s' = totalCount s
  /\ totalPages s' = totalPages s
  /\ (data s' = data s \/ exists rows, dataCacheRef s !! p = Some rows /\ data s' = rows).
Proof.
  unfold setPage. destruct (Z.eqb_spec p (page s)) as [->|Hne]; [cbn; tauto|].
  pose proof (loadPageData_frame (closure_of (set_page p s)) p false (set_page p s)) as F.
  cbv zeta in *. destruct F as (P & R & C & S & N & T & _ & _ & D).
  rewrite P, R, C, S, N, T. cbn. repeat split. exact D.
Qed.

Lemma totals_frame (pages count : Z) (x : State) :
  let y := set_totalPages pages (set_totalCount count x) in
  data y = data x /\ dataCacheRef y = dataCacheRef x /\ dataCache y = dataCache x
  /\ selectedNumber y = selectedNumber x /\ page y = page x
  /\ totalCount y = count /\ totalPages y = pages.
Proof. cbv zeta. cbn. tauto. Qed.

Lemma removal_frame (id : string) (x : State) :
  let remove := removeFromItems id in
  let y :=
    mapCache remove
      (set_selectedNumber
         (match selectedNumber x with
          | Some prev => if String.eqb (uuid prev) id then None else Some prev
          | None => None
          end)
         (set_data (remove (data x)) x)) in
  data y = remove (data x) /\ dataCacheRef y = remove <$> dataCacheRef x
  /\ dataCache y = remove <$> dataCacheRef x
  /\ selectedNumber y =
     match selectedNumber x with
     | Some prev => if String.eqb (uuid prev) id then None else Some prev
     | None => None
     end
  /\ page y = page x.
Proof. cbv zeta. cbn. tauto. Qed.

Lemma deleting_frame (b : bool) (x : State) :
  let y := set_deletingVatNumber b x in
  data y = data x /\ dataCacheRef y = dataCacheRef x /\ dataCache y = dataCache x
  /\ selectedNumber y = selectedNumber x /\ page y = page x
  /\ totalCount y = totalCount x /\ totalPages y = totalPages x
  /\ deletingVatNumber y = b.
Proof. cbv zeta. cbn. tauto. Qed.

Lemma removeMonitoredNumberLocally_fields (cl : Closure) (id : string) (s : State) :
  let remove := removeFromItems id in
  let count := Z.max 0 (cl_totalCount cl - 1) in
  let pages := Z.max 1 (ceilDiv count (pageSize (cl_query cl))) in
  let s' := removeMonitoredNumberLocally cl id s in
  dataCacheRef s' = remove <$> dataCacheRef s
  /\ dataCache s' = remove <$> dataCacheRef s
  /\ selectedNumber s' =
     match selectedNumber s with
     | Some prev => if String.eqb (uuid prev) id then None else Some prev
     | None => None
     end
  /\ totalCount s' = count /\ totalPages s' = pages
  /\ (pages < cl_page cl -> page s' = pages)
  /\ (cl_page cl <= pages -> page s' = page s)
  /\ (data s' = remove (data s)
      \/ exists k rows, (remove <$> dataCacheRef s) !! k = Some rows /\ data s' = rows).
Proof.
  cbv zeta. unfold removeMonitoredNumberLocally.
  pose proof (removal_frame id s) as F1. cbv zeta in F1.
  set (s1 := mapCache _ _) in *. clearbody s1.
  destruct F1 as (D1 & R1 & C1 & S1 & P1).
  set (count := Z.max 0 (cl_totalCount cl - 1)).
  set (pages := Z.max 1 (ceilDiv count (pageSize (cl_query cl)))).
  pose proof (totals_frame pages count s1) as F2. cbv zeta in F2.
  set (s2 := set_totalPages pages (set_totalCount count s1)) in *. clearbody s2.
  destruct F2 as (D2 & R2 & C2 & S2 & P2 & N2 & T2).
  destruct (Z.ltb_spec pages (cl_page cl)) as [Hlt|Hge].
  - pose proof (setPage_frame pages s2) as F3. cbv zeta in F3.
    set (s3 := setPage pages s2) in *. clearbody s3.
    destruct F3 as (P3 & R3 & C3 & S3 & N3 & T3 & D3).
    rewrite R3, C3, S3, N3, T3, R2, C2, S2, N2, T2, R1, C1, S1.
    repeat split; try assumption; try (intros; lia).
    destruct D3 as [D3 | (rows & Hk & D3)].
    + left. now rewrite D3, D2, D1.
    + right. exists pages, rows. split; [|exact D3]. now rewrite <- R1, <- R2.
  - rewrite R2, C2, S2, N2, T2, P2, R1, C1, S1, P1, D2, D1.
    repeat split; try (intros; lia). now left.
Qed.

(** C7, as the code has it.  After a successful soft delete of an
    entry, handled by the closure of a render on page [P] with total
    count [N] and a positive page size: the entry is in neither the
    current page array nor any cached page, the detail view is
    cleared if it showed the entry and kept otherwise, the total
    count is [max(0, N-1)], the total pages are
    [max(1, ceil(max(0, N-1) / pageSize))], and the active page is
    that last page when [P] exceeds it; for [N >= 2] these are [N-1]
    and [ceil((N-1)/pageSize)]. *)
Theorem soft_delete_removes :
  forall cl id s,
    0 < pageSize (cl_query cl) ->
    let N := cl_totalCount cl in
    let size := pageSize (cl_query cl) in
    let s' := softDeleted cl id None s in
    (forall r, In r (data s') -> uuid r <> id)
    /\ (forall k rows r, dataCacheRef s' !! k = Some rows -> In r rows -> uuid r <> id)
    /\ (forall k rows r, dataCache s' !! k = Some rows -> In r rows -> uuid r <> id)
    /\ selectedNumber s' =
       match selectedNumber s with
       | Some sel => if String.eqb (uuid sel) id then None else Some sel
       | None => None
       end
    /\ totalCount s' = Z.max 0 (N - 1)
    /\ totalPages s' = Z.max 1 (ceilDiv (Z.max 0 (N - 1)) size)
    /\ (totalPages s' < cl_page cl -> page s' = totalPages s')
    /\ (cl_page cl <= totalPages s' -> page s' = page s)
    /\ (2 <= N -> totalCount s' = N - 1 /\ totalPages s' = ceilDiv (N - 1) size)
    /\ deletingVatNumber s' = false.
Proof.
  intros cl id s Hsize N size. cbv zeta. unfold softDeleted.
  pose proof (removeMonitoredNumberLocally_fields cl id s) as F. cbv zeta in F.
  fold N size in F.
  set (s1 := removeMonitoredNumberLocally cl id s) in *. clearbody s1.
  pose proof (deleting_frame false s1) as G. cbv zeta in G.
  set (s2 := set_deletingVatNumber false s1) in *. clearbody s2.
  destruct F as (R & C & S & Nn & T & Plt & Pge & D).
  destruct G as (D2 & R2 & C2 & S2 & P2 & N2 & T2 & B2).
  rewrite D2, R2, C2, S2, P2, N2, T2, B2, R, C, S, Nn, T.
  set (remove := removeFromItems id) in *.
  assert (Hcache : forall k rows r,
             (remove <$> dataCacheRef s) !! k = Some rows -> In r rows -> uuid r <> id).
  { intros k rows r Hk. rewrite lookup_fmap in Hk.
    destruct (dataCacheRef s !! k) as [rows0|]; [|discriminate].
    cbn in Hk. injection Hk as <-. apply removed_absent. }
  split.
  { intros r Hr. destruct D as [D | (k & rows & Hk & D)]; rewrite D in Hr.
    - now apply removed_absent in Hr.
    - now apply (Hcache _ _ r Hk). }
  split; [exact Hcache|]. split; [exact Hcache|].
  split; [reflexivity|]. split; [reflexivity|]. split; [reflexivity|].
  split; [exact Plt|]. split; [exact Pge|]. split; [|reflexivity].
  intros HN. replace (Z.max 0 (N - 1)) with (N - 1) by lia.
  split; [reflexivity|].
  pose proof (ceilDiv_positive (N - 1) size ltac:(lia) Hsize). lia.
Qed.

Lemma soft_delete_removes_witness :
  let s' := step (step Scenario.lastEntryOpen (EvSoftDelete true))
              (EvComplete 0 (Scenario.world Scenario.twoEntries)) in
  (forall r, In r (data s') -> uuid r <> "a1")
  /\ totalCount s' = 0 /\ totalPages s' = 1 /\ selectedNumber s' = None.
Proof.
  cbv zeta.
  destruct (soft_delete_removes (closure_of Scenario.lastEntryOpen) "a1"
              (set_tasks []
                 (set_error None (set_deletingVatNumber true Scenario.lastEntryOpen))))
    as (Hd & _ & _ & Hs & Hn & Ht & _).
  - reflexivity.
  - split; [exact Hd|]. split; [exact Hn|]. split; [exact Ht | exact Hs].
Defined.

(** C7, as stated, fails: when the only entry of the list is
    deleted ([N = 1], page size 15) the total pages stay 1 and are
    not [ceil((N-1)/pageSize) = 0]. *)
Lemma soft_delete_keeps_one_page :
  ~ (forall cl id s,
       0 < pageSize (cl_query cl) -> 1 <= cl_totalCount cl ->
       totalPages (softDeleted cl id None s)
       = ceilDiv (cl_totalCount cl - 1) (pageSize (cl_query cl))).
Proof.
  intros H.
  pose proof (H (closure_of Scenario.lastEntryOpen) "a1" Scenario.lastEntryOpen
                eq_refl ltac:(discriminate)) as E.
  vm_compute in E. discriminate E.
Qed.

(** ** Completions of superseded requests *)

Lemma continuePrefetch_frame (cl : Closure) (ps : list Z) (s : State) :
  data (continuePrefetch cl ps s) = data s
  /\ dataCacheRef (continuePrefetch cl ps s) = dataCacheRef s
  /\ dataCache (continuePrefetch cl ps s) = dataCache s
  /\ query (continuePrefetch cl ps s) = query s.
Proof.
  unfold continuePrefetch.
  destruct (next_uncached (dataCacheRef s) ps) as [[p rest]|]; cbn; tauto.
Qed.

(** Every completion is written, whatever the query state is by then. *)
Lemma completions_unguarded :
  (forall cl P rows count s,
     let s' := loaded cl P (Ok (rows, count)) s in
     data s' = rows /\ dataCacheRef s' !! P = Some rows /\ dataCache s' !! P = Some rows
     /\ query s' = query s)
  /\ (forall cl p rest rows count s,
        let s' := prefetched cl p rest (Ok (rows, count)) s in
        dataCacheRef s' !! p = Some rows /\ dataCache s' !! p = Some rows
        /\ query s' = query s).
Proof.
  split.
  - intros cl P rows count s. cbv zeta. unfold loaded, prefetchNeighbors.
    set (s0 := updateCache P rows _).
    destruct (continuePrefetch_frame cl
                (neighbors P (Some (orElse (ceilDiv count (pageSize (cl_query cl))) 1))
                   (cl_totalPages cl)) s0) as (D & R & C & Q).
    set (s1 := continuePrefetch _ _ s0) in *. clearbody s1.
    change (data (set_loading false s1)) with (data s1).
    change (dataCacheRef (set_loading false s1)) with (dataCacheRef s1).
    change (dataCache (set_loading false s1)) with (dataCache s1).
    change (query (set_loading false s1)) with (query s1).
    rewrite D, R, C, Q. unfold s0. cbn. rewrite !lookup_insert_eq. auto.
  - intros cl p rest rows count s. cbv zeta. unfold prefetched.
    destruct (continuePrefetch_frame cl rest (updateCache p rows s)) as (_ & R & C & Q).
    rewrite R, C, Q. cbn. rewrite !lookup_insert_eq. auto.
Qed.

(** C4. Fails on the code: nothing compares a completion with the
    current query state, the rows of every completed load are
    displayed and cached and those of every completed prefetch are
    cached.  After the search has changed from 1111 to 2222 and the
    cache has been cleared, the fetch started for 1111 completes
    last: its row, which does not match 2222, is the displayed page
    and page 1 of the cache (ref and state mirror), with no request
    left pending, while a fetch for the current state returns the
    other entry. *)
Theorem stale_completion_is_stored :
  (forall cl P rows count s,
     let s' := loaded cl P (Ok (rows, count)) s in
     data s' = rows /\ dataCacheRef s' !! P = Some rows /\ dataCache s' !! P = Some rows
     /\ query s' = query s)
  /\ (forall cl p rest rows count s,
        let s' := prefetched cl p rest (Ok (rows, count)) s in
        dataCacheRef s' !! p = Some rows /\ dataCache s' !! p = Some rows
        /\ query s' = query s)
  /\ (let s := run mounted Scenario.staleTrace in
      search (query s) = "2222"
      /\ timer s = None /\ tasks s = []
      /\ data s = [Scenario.pausedEntry]
      /\ dataCacheRef s !! 1 = Some [Scenario.pausedEntry]
      /\ dataCache s !! 1 = Some [Scenario.pausedEntry]
      /\ Sql.ilike "%2222%" (vat_number Scenario.pausedEntry) = false
      /\ outcome (fetchRawData (RecordStore.backend Scenario.twoEntries) (query s) 1)
         = Ok ([Scenario.checkedEntry], 1)).
Proof.
  split; [exact (proj1 completions_unguarded)|].
  split; [exact (proj2 completions_unguarded)|].
  vm_compute. repeat split.
Qed.

(** * Further properties *)

(** ** Strings and identifier lists *)

(** X3. The sanitized search term holds no [%], no [_] and no comma, and
    it is empty exactly when the trimmed input holds nothing but [%]
    and [_]. *)
Theorem sanitizeSearchTerm_no_wildcards (value : string) :
  Forall (fun c => c <> "%"%char /\ c <> "_"%char /\ c <> ","%char)
    (chars (sanitizeSearchTerm value))
  /\ (sanitizeSearchTerm value = ""
      <-> Forall (fun c => c = "%"%char \/ c = "_"%char) (chars (trim value))).
Proof.
  unfold sanitizeSearchTerm, trim. rewrite !chars_str.
  induction (trim_chars (chars value)) as [|c l [IH1 IH2]]; cbn [List.filter map].
  - split; [constructor|]. split; [constructor | reflexivity].
  - destruct (Ascii.eqb_spec c "%") as [->|Hp]; cbn [orb negb].
    { split; [exact IH1|]. rewrite IH2. split.
      - intros H. constructor; [now left | exact H].
      - intros H. now inversion H. }
    destruct (Ascii.eqb_spec c "_") as [->|Hu]; cbn [negb].
    { split; [exact IH1|]. rewrite IH2. split.
      - intros H. constructor; [now right | exact H].
      - intros H. now inversion H. }
    cbn [map]. split.
    + constructor; [|exact IH1].
      destruct (Ascii.eqb_spec c ",") as [->|Hc]; repeat split; congruence.
    + split; [discriminate|]. intros H. inversion H as [|? ? [E|E] _]; contradiction.
Qed.

Lemma uniq_NoDup (l seen : list string) : List.NoDup (uniq seen l).
Proof.
  revert seen. induction l as [|x l IH]; intros seen; cbn [uniq]; [constructor|].
  destruct (mem x seen); [apply IH|].
  constructor; [|apply IH]. rewrite uniq_In. cbn. tauto.
Qed.

Lemma toUniqueUuids_In (values : list (option string)) (x : string) :
  In x (toUniqueUuids values)
  <-> x <> "" /\ exists s, In (Some s) values /\ trim s = x.
Proof.
  unfold toUniqueUuids. rewrite uniq_In, filter_In, in_map_iff, negb_true_iff.
  split.
  - intros [[(v & Hv & Hin) Hne] _].
    split; [intros ->; discriminate Hne|].
    destruct v as [s|]; [now exists s|].
    subst x. discriminate Hne.
  - intros (Hne & s & Hin & <-). split; [|cbn; tauto].
    split; [now exists (Some s)|].
    destruct (is_empty (trim s)) eqn:E; [|reflexivity].
    apply is_empty_spec in E. contradiction.
Qed.

(** X4. [toUniqueUuids] returns each trimmed, non-empty string of the
    input once: no duplicates, nothing blank, nothing that was not in
    the input, and running it again changes nothing. *)
Theorem toUniqueUuids_spec (values : list (option string)) :
  List.NoDup (toUniqueUuids values)
  /\ (forall x, In x (toUniqueUuids values)
                <-> x <> "" /\ exists s, In (Some s) values /\ trim s = x)
  /\ (forall x, In x (toUniqueUuids (map Some (toUniqueUuids values)))
                <-> In x (toUniqueUuids values)).
Proof.
  split; [apply uniq_NoDup|]. split; [apply toUniqueUuids_In|].
  intros x. rewrite (toUniqueUuids_In (map Some _)). split.
  - intros (_ & s & Hs & <-). apply in_map_iff in Hs. destruct Hs as (s' & [= ->] & Hs).
    assert (Hfix : trim s = s).
    { apply toUniqueUuids_In in Hs. destruct Hs as (_ & s0 & _ & <-).
      unfold trim. now rewrite chars_str, trim_chars_idem. }
    now rewrite Hfix.
  - intros Hx. pose proof Hx as Hx'. apply toUniqueUuids_In in Hx'.
    destruct Hx' as (Hne & s0 & _ & E). split; [exact Hne|].
    exists x. split; [apply in_map_iff; now exists x|].
    rewrite <- E. unfold trim. now rewrite chars_str, trim_chars_idem.
Qed.

(** ** The column filters *)

Lemma trim_fixed (value : string) : trim (trim value) = trim value.
Proof. unfold trim. now rewrite chars_str, trim_chars_idem. Qed.

Lemma applyColumnFilter_validated (query query' : Query) (key value : string) :
  applyColumnFilter query (key, value) = Ok query' ->
  exists added,
    query' = query ++ added /\ Forall validated added /\ (length added <= 2)%nat.
Proof.
  unfold applyColumnFilter.
  destruct (is_empty (trim value)) eqn:Eblank; cbn [orb].
  { intros [= <-]. exists []. rewrite app_nil_r. repeat split; [constructor | cbn; lia]. }
  destruct (String.eqb_spec key "entity_name") as [->|Hent].
  { intros [= <-]. exists []. rewrite app_nil_r. repeat split; [constructor | cbn; lia]. }
  assert (Hskip : Ok query = Ok query' ->
                  exists added, query' = query ++ added /\ Forall validated added
                                /\ (length added <= 2)%nat).
  { intros [= <-]. exists []. rewrite app_nil_r. repeat split; [constructor | cbn; lia]. }
  destruct (String.eqb_spec key "number_of_checks") as [->|Hn].
  { destruct (isNaN (Number (trim value))) eqn:En; cbn [negb]; [exact Hskip|].
    intros [= <-]. eexists [_]. split; [reflexivity|]. split; [|cbn; lia].
    constructor; [|constructor]. split; [discriminate|]. cbn. split; [reflexivity|]. eauto. }
  destruct (String.eqb_spec key "last_check_date") as [->|Hl].
  { destruct (isIsoDate (trim value)) eqn:Ei; [|exact Hskip].
    intros [= <-]. eexists [_]. split; [reflexivity|]. split; [|cbn; lia].
    constructor; [|constructor]. split; [discriminate|]. cbn. split; [reflexivity|]. eauto. }
  destruct (String.eqb_spec key "created_at") as [->|Hc].
  { destruct (isIsoDate (trim value)) eqn:Ei; [|exact Hskip].
    destruct (getNextIsoDate (trim value)) as [next|msg] eqn:En; cbn [bindE];
      [|discriminate].
    intros [= <-]. eexists [_; _]. split; [unfold q_lt, q_gte; now rewrite <- app_assoc|].
    split; [|cbn; lia].
    constructor; [|constructor; [|constructor]].
    - split; [discriminate|]. cbn. exists (trim value). split; [exact Ei|]. now left.
    - split; [discriminate|]. cbn. exists (trim value). split; [exact Ei|]. right.
      split; [reflexivity|]. now exists next. }
  destruct (String.eqb_spec key "country_code") as [->|Hcc].
  { destruct (isIsoCountryCodeLike (toUpperCase (trim value))) eqn:Ec; [|exact Hskip].
    intros [= <-]. eexists [_]. split; [reflexivity|]. split; [|cbn; lia].
    constructor; [|constructor]. split; [discriminate|]. cbn. split; [reflexivity|]. eauto. }
  destruct (String.eqb_spec key "periodicity") as [->|Hp].
  { destruct (mem (toLowerCase (trim value)) periodicityValues) eqn:Em; [|exact Hskip].
    intros [= <-]. eexists [_]. split; [reflexivity|]. split; [|cbn; lia].
    constructor; [|constructor]. split; [discriminate|]. cbn. split; [reflexivity|].
    eexists. split; [reflexivity|]. apply mem_In in Em. exact Em. }
  intros [= <-]. eexists [_]. split; [reflexivity|]. split; [|cbn; lia].
  constructor; [|constructor]. split; [exact Hent|]. cbn [column operator operand cond].
  rewrite (proj2 (String.eqb_neq _ _) Hn), (proj2 (String.eqb_neq _ _) Hl),
    (proj2 (String.eqb_neq _ _) Hc), (proj2 (String.eqb_neq _ _) Hcc),
    (proj2 (String.eqb_neq _ _) Hp).
  split; [reflexivity|]. exists (trim value). split; [reflexivity|].
  split; [|apply trim_fixed].
  intros E. rewrite E in Eblank. discriminate Eblank.
Qed.

(** X5. Whatever the filter object holds, the column filters only add to
    the query, at most two predicates per key, and every predicate
    they add has been checked for its column: a check count that is
    not [NaN], dates of the shape YYYY-MM-DD, a country code of two
    capital letters, one of the four periodicity values, and for any
    other column a containment pattern around a trimmed, non-empty
    text; nothing is sent for [entity_name]. *)
Theorem column_filters_validated (query query' : Query)
    (inputFilters : list (string * string)) :
  applyDirectColumnFilters query inputFilters = Ok query' ->
  exists added,
    query' = query ++ added
    /\ Forall validated added
    /\ (length added <= 2 * length inputFilters)%nat.
Proof.
  revert query. induction inputFilters as [|[key value] rest IH]; intros query.
  - cbn. intros [= <-]. exists []. rewrite app_nil_r. repeat split; constructor.
  - cbn [applyDirectColumnFilters].
    destruct (applyColumnFilter query (key, value)) as [q1|msg] eqn:E1; cbn [bindE];
      [|discriminate].
    intros Hrest.
    destruct (applyColumnFilter_validated _ _ _ _ E1) as (a & -> & Ha & La).
    destruct (IH _ Hrest) as (b & -> & Hb & Lb).
    exists (a ++ b). rewrite <- app_assoc. split; [reflexivity|].
    split; [now apply Forall_app|]. rewrite length_app. cbn [length]. lia.
Qed.

Lemma column_filters_validated_witness :
  exists added,
    applyDirectColumnFilters []
      [("country_code", " fr "); ("periodicity", "Weekly"); ("number_of_checks", "abc");
       ("created_at", "2024-02-28"); ("vat_number", " 123 ")] = Ok added
    /\ Forall validated added /\ (length added <= 10)%nat.
Proof.
  destruct (applyDirectColumnFilters []
              [("country_code", " fr "); ("periodicity", "Weekly");
               ("number_of_checks", "abc"); ("created_at", "2024-02-28");
               ("vat_number", " 123 ")]) as [q|msg] eqn:E; [|discriminate E].
  destruct (column_filters_validated _ _ _ E) as (added & -> & Hv & Hl).
  exists added. cbn [app]. repeat split; assumption.
Defined.

Lemma applyColumnFilter_throws (query : Query) (key value msg : string) :
  applyColumnFilter query (key, value) = Throw msg
  <-> key = "created_at" /\ isIsoDate (trim value) = true
      /\ getNextIsoDate (trim value) = Throw msg.
Proof.
  unfold applyColumnFilter. split.
  - destruct (is_empty (trim value) || String.eqb key "entity_name")%bool; [discriminate|].
    destruct (String.eqb key "number_of_checks");
      [destruct (negb _); discriminate|].
    destruct (String.eqb key "last_check_date");
      [destruct (isIsoDate _); discriminate|].
    destruct (String.eqb_spec key "created_at") as [->|_].
    + destruct (isIsoDate (trim value)); [|discriminate].
      destruct (getNextIsoDate (trim value)); cbn [bindE]; [discriminate|].
      intros [= ->]. auto.
    + destruct (String.eqb key "country_code");
        [destruct (isIsoCountryCodeLike _); discriminate|].
      destruct (String.eqb key "periodicity"); [destruct (mem _ _); discriminate|].
      discriminate.
  - intros (-> & Hiso & Hnext).
    assert (Hne : is_empty (trim value) = false).
    { destruct (trim value); [discriminate Hiso | reflexivity]. }
    rewrite Hne, Hiso, Hnext. reflexivity.
Qed.

(** X6. Compiling the column filters throws exactly when the filter
    object holds a [created_at] value of the shape YYYY-MM-DD for
    which [getNextIsoDate] throws; no other filter value, however
    malformed, makes it throw. *)
Theorem column_filters_throw_iff (query : Query) (inputFilters : list (string * string)) :
  (exists msg, applyDirectColumnFilters query inputFilters = Throw msg)
  <-> Exists (fun entry => fst entry = "created_at"
                           /\ isIsoDate (trim (snd entry)) = true
                           /\ exists msg, getNextIsoDate (trim (snd entry)) = Throw msg)
        inputFilters.
Proof.
  revert query. induction inputFilters as [|[key value] rest IH]; intros query.
  - cbn. split; [intros [msg H]; discriminate H | intros H; inversion H].
  - cbn [applyDirectColumnFilters]. rewrite List.Exists_cons. cbn [fst snd].
    destruct (applyColumnFilter query (key, value)) as [q|msg] eqn:E; cbn [bindE].
    + rewrite IH. split; [tauto|]. intros [(-> & Hiso & msg & Hnext) | H]; [|exact H].
      assert (Ht : applyColumnFilter query ("created_at", value) = Throw msg)
        by now apply applyColumnFilter_throws.
      congruence.
    + apply applyColumnFilter_throws in E. destruct E as (-> & Hiso & Hnext).
      split; [intros _; left; eauto | intros _; now exists msg].
Qed.

(** ** Small helpers *)

(** X7. The VAT part of the certificate's file name is never empty, has at
    most 40 characters and holds only letters, digits, [_] and [-]. *)
Theorem safeFileVat_safe (countryCode number : string) :
  let name := safeFileVat countryCode number in
  name <> ""
  /\ (length (chars name) <= 40)%nat
  /\ Forall (fun c => is_file_char c = true) (chars name).
Proof.
  cbv zeta. unfold safeFileVat, orString.
  set (kept := List.filter is_file_char (chars (countryCode ++ number)%string)).
  destruct (is_empty (str (firstn 40 kept))) eqn:E.
  - split; [discriminate|]. split; [cbn; lia|]. repeat constructor.
  - split; [intros H; rewrite H in E; discriminate E|].
    rewrite chars_str. split.
    + rewrite length_firstn. lia.
    + apply Forall_take, List.Forall_forall. intros c Hc.
      unfold kept in Hc. now apply filter_In in Hc.
Qed.

(** X8. The context menu opens at least 12 pixels from the left and top
    edges, at the click when the click leaves room for it, and fits
    into the viewport with the same margin whenever the viewport is
    large enough to hold it. *)
Theorem context_menu_in_viewport (clientX clientY width height : Z) :
  let x := fst (openVatContextMenu clientX clientY (Some (width, height))) in
  let y := snd (openVatContextMenu clientX clientY (Some (width, height))) in
  12 <= x /\ 12 <= y
  /\ (284 <= width -> x + 260 + 12 <= width)
  /\ (144 <= height -> y + 120 + 12 <= height)
  /\ (12 <= clientX <= width - 272 -> x = clientX)
  /\ (12 <= clientY <= height - 132 -> y = clientY).
Proof. cbv zeta. unfold openVatContextMenu. cbn [fst snd]. lia. Qed.

Lemma context_menu_in_viewport_witness :
  fst (openVatContextMenu 1900 40 (Some (1920, 1080))) + 260 + 12 <= 1920
  /\ snd (openVatContextMenu 1900 40 (Some (1920, 1080))) = 40.
Proof.
  destruct (context_menu_in_viewport 1900 40 1920 1080) as (_ & _ & Hx & _ & _ & Hy).
  split; [apply Hx | apply Hy]; lia.
Defined.

(** X9. An error message taken from a payload is never blank when the
    fallback is not: the banner always has a text. *)
Theorem extractApiErrorMessage_not_blank (payload : JsValue) (fallback : string) :
  is_empty (trim fallback) = false ->
  is_empty (trim (extractApiErrorMessage payload fallback)) = false.
Proof.
  intros Hf. unfold extractApiErrorMessage.
  destruct (negb (truthy payload) || negb (is_object payload))%bool; [exact Hf|].
  assert (Hs : forall v s, nonblank_string v = Some s -> is_empty (trim s) = false).
  { intros v s. destruct v; cbn; try discriminate.
    destruct (is_empty (trim s0)) eqn:E; [discriminate|]. now intros [= <-]. }
  destruct (nonblank_string (property "error" payload)) as [e|] eqn:Ee;
    [exact (Hs _ _ Ee)|].
  destruct (nonblank_string (property "message" payload)) as [m|] eqn:Em;
    [exact (Hs _ _ Em) | exact Hf].
Qed.

Lemma extractApiErrorMessage_not_blank_witness :
  is_empty (trim (extractApiErrorMessage
                    (JObj [("error", JStr "   "); ("message", JStr "quota exceeded")])
                    "Failed to update periodicity.")) = false.
Proof. apply extractApiErrorMessage_not_blank. reflexivity. Defined.

(** ** The resolver and the fetch *)

Lemma toUniqueUuids_fixed (values : list (option string)) (x : string) :
  In x (toUniqueUuids values) -> x <> "" /\ trim x = x.
Proof.
  intros H. apply toUniqueUuids_In in H.
  destruct H as (Hne & s & _ & <-). split; [exact Hne|].
  unfold trim. now rewrite chars_str, trim_chars_idem.
Qed.

Lemma runLookup_result (be : Backend) (l : Lookup) :
  runLookup be l = ([RLookup l], Ok (result_of [] (runLookup be l))).
Proof. reflexivity. Qed.

Lemma runLookup_fixed (be : Backend) (l : Lookup) (x : string) :
  In x (result_of [] (runLookup be l)) -> x <> "" /\ trim x = x.
Proof.
  unfold result_of, runLookup. cbn [outcome snd].
  destruct (r_error (run_lookup be l)); [intros [] | apply toUniqueUuids_fixed].
Qed.

(** X10. For a term that is not empty the resolver sends the two lookups,
    one per collection, and returns the union of their identifier
    lists without duplicates; a lookup that fails counts as an empty
    list and the resolver itself never throws. *)
Theorem resolver_union (be : Backend) (mode : ResolveMode) (term : string) :
  term <> "" ->
  let fromVatNumbers := result_of [] (runLookup be (lookupVatNumbers term mode)) in
  let fromChecks := result_of [] (runLookup be (lookupChecks term)) in
  exists ids,
    resolveVatUuids be mode term
    = ([RLookup (lookupVatNumbers term mode); RLookup (lookupChecks term)], Ok ids)
    /\ List.NoDup ids
    /\ (forall x, In x ids <-> In x fromVatNumbers \/ In x fromChecks)
    /\ (r_error (run_lookup be (lookupVatNumbers term mode)) <> None -> fromVatNumbers = [])
    /\ (r_error (run_lookup be (lookupChecks term)) <> None -> fromChecks = []).
Proof.
  intros Hne. cbv zeta.
  assert (He : is_empty term = false).
  { destruct term; [contradiction | reflexivity]. }
  set (a := result_of [] (runLookup be (lookupVatNumbers term mode))).
  set (b := result_of [] (runLookup be (lookupChecks term))).
  exists (toUniqueUuids (map Some (a ++ b))).
  split.
  { unfold resolveVatUuids, fetchMatchingVatUuidsFromVatNumbers,
      fetchMatchingVatUuidsFromChecks. rewrite He.
    rewrite (runLookup_result be (lookupVatNumbers term mode)).
    rewrite (runLookup_result be (lookupChecks term)). reflexivity. }
  pose proof (uniq_NoDup
                (List.filter (fun v => negb (is_empty v))
                   (map (fun v => match v with Some s => trim s | None => "" end)
                      (map Some (a ++ b)))) []) as Hnd.
  pose proof (toUniqueUuids_In (map Some (a ++ b))) as Hin.
  split; [exact Hnd|]. split.
  - intros x. rewrite Hin, <- in_app_iff. split.
    + intros (_ & s & Hs & <-). apply in_map_iff in Hs.
      destruct Hs as (s' & [= ->] & Hs).
      assert (Hfix : trim s = s).
      { apply in_app_iff in Hs. destruct Hs as [Hs|Hs];
          now apply runLookup_fixed in Hs. }
      now rewrite Hfix.
    + intros Hx.
      assert (Hfix : x <> "" /\ trim x = x).
      { apply in_app_iff in Hx. destruct Hx as [Hx|Hx];
          now apply runLookup_fixed in Hx. }
      split; [tauto|]. exists x. split; [|tauto].
      apply in_map_iff. now exists x.
  - unfold a, b, result_of, runLookup. cbn [outcome snd].
    split; intros H.
    + destruct (r_error (run_lookup be (lookupVatNumbers term mode))); congruence.
    + destruct (r_error (run_lookup be (lookupChecks term))); congruence.
Qed.

Lemma resolver_union_witness :
  exists ids,
    resolveVatUuids (RecordStore.backend Scenario.unionStore) ModeSearch "DE123456789"
    = ([RLookup (lookupVatNumbers "DE123456789" ModeSearch);
        RLookup (lookupChecks "DE123456789")], Ok ids)
    /\ List.NoDup ids.
Proof.
  destruct (resolver_union (RecordStore.backend Scenario.unionStore) ModeSearch
              "DE123456789") as (ids & E & Hnd & _); [discriminate|].
  exists ids. now split.
Defined.

Lemma resolve_failing (be : Backend) (mode : ResolveMode) (term : string) :
  (forall l, r_error (run_lookup be l) <> None) ->
  result_of [] (resolveVatUuids be mode term) = [].
Proof.
  intros Hfail. unfold result_of, resolveVatUuids,
    fetchMatchingVatUuidsFromVatNumbers, fetchMatchingVatUuidsFromChecks, runLookup.
  pose proof (Hfail (lookupVatNumbers term mode)) as H1.
  pose proof (Hfail (lookupChecks term)) as H2.
  destruct (is_empty term); [reflexivity|].
  destruct (r_error (run_lookup be (lookupVatNumbers term mode))); [|contradiction].
  destruct (r_error (run_lookup be (lookupChecks term))); [|contradiction].
  reflexivity.
Qed.

(** X11. When the lookups of the resolver fail, a fetch with an active
    search term or entity filter returns the empty page with count 0:
    the failure is not reported and no paginated query is sent. *)
Theorem lookup_errors_give_empty_page (be : Backend) (st : QueryState) (pageNum : Z)
    (q : Query) :
  applyDirectColumnFilters [] (filters st) = Ok q ->
  searchActive st = true \/ is_empty (trim (entityFilter st)) = false ->
  (forall l, r_error (run_lookup be l) <> None) ->
  outcome (fetchRawData be st pageNum) = Ok emptyPage
  /\ only_lookups (issued (fetchRawData be st pageNum)).
Proof.
  intros Hq Hactive Hfail.
  destruct (applyRequesterFilter (requesterFilter st) q) as [q1|] eqn:Hr.
  2:{ rewrite (fetchRawData_requester_mismatch be st pageNum q Hq Hr).
      split; [reflexivity | constructor]. }
  destruct (resolveConstraint_outcome be st) as [Ht Ho].
  assert (Hs : searchSet be st = []) by (apply resolve_failing, Hfail).
  assert (He : entitySet be st = []) by (apply resolve_failing, Hfail).
  assert (Hempty : outcome (resolveConstraint be st) = Ok (Some [])).
  { rewrite Ho, Hs, He. f_equal.
    destruct (searchActive st), (is_empty (trim (entityFilter st)));
      cbn [intersectUuids List.filter]; try reflexivity.
    destruct Hactive; discriminate. }
  rewrite (fetchRawData_resolved be st pageNum q q1 _ Hq Hr Hempty).
  cbn [issued outcome fst snd]. split; [reflexivity|].
  apply only_lookups_app; [assumption | constructor].
Qed.

Lemma lookup_errors_give_empty_page_witness :
  outcome (fetchRawData Scenario.failingLookups (query Scenario.pageFourOfFive) 5)
  = Ok emptyPage.
Proof.
  apply (lookup_errors_give_empty_page Scenario.failingLookups
           (query Scenario.pageFourOfFive) 5 []).
  - reflexivity.
  - left. reflexivity.
  - intros l. discriminate.
Defined.

(** X12. An entity-name filter that is not blank but holds nothing except
    [%] and [_] gives the empty page with count 0 and no paginated
    query, and no request at all when the search box is not active:
    the filter counts as active by its trimmed value, and its
    sanitized term, being empty, resolves to no identifier. *)
Theorem entity_wildcards_give_empty_page (be : Backend) (st : QueryState) (pageNum : Z)
    (q : Query) :
  applyDirectColumnFilters [] (filters st) = Ok q ->
  is_empty (trim (entityFilter st)) = false ->
  sanitizeSearchTerm (entityFilter st) = "" ->
  outcome (fetchRawData be st pageNum) = Ok emptyPage
  /\ only_lookups (issued (fetchRawData be st pageNum))
  /\ (searchActive st = false -> issued (fetchRawData be st pageNum) = []).
Proof.
  intros Hq Hactive Hsan.
  destruct (applyRequesterFilter (requesterFilter st) q) as [q1|] eqn:Hr.
  2:{ rewrite (fetchRawData_requester_mismatch be st pageNum q Hq Hr).
      split; [reflexivity|]. split; [constructor | reflexivity]. }
  destruct (resolveConstraint_outcome be st) as [Ht Ho].
  assert (He : entitySet be st = []).
  { unfold entitySet. rewrite Hsan. reflexivity. }
  assert (Hempty : outcome (resolveConstraint be st) = Ok (Some [])).
  { rewrite Ho, Hactive, He. f_equal.
    destruct (searchActive st); cbv beta iota zeta;
      [now rewrite intersectUuids_nil_r | reflexivity]. }
  rewrite (fetchRawData_resolved be st pageNum q q1 _ Hq Hr Hempty).
  cbn [issued outcome fst snd]. split; [reflexivity|]. split.
  - apply only_lookups_app; [assumption | constructor].
  - intros Hs. rewrite app_nil_r.
    unfold resolveConstraint. fold (entityFilter st).
    unfold searchActive in Hs. apply negb_false_iff in Hs. rewrite Hs.
    cbn [negb]. rewrite bindF_ret. rewrite Hactive. cbn [negb].
    rewrite sanitize_trim, Hsan. reflexivity.
Qed.

Lemma entity_wildcards_give_empty_page_witness :
  let st := with_filters [("entity_name", " %_ ")] (with_search "%" initialQuery) in
  outcome (fetchRawData (RecordStore.backend Scenario.twoEntries) st 1) = Ok emptyPage
  /\ issued (fetchRawData (RecordStore.backend Scenario.twoEntries) st 1) = [].
Proof.
  cbv zeta.
  destruct (entity_wildcards_give_empty_page (RecordStore.backend Scenario.twoEntries)
              (with_filters [("entity_name", " %_ ")] (with_search "%" initialQuery))
              1 []) as (Ho & _ & Hi); [reflexivity | reflexivity | reflexivity |].
  split; [exact Ho | apply Hi; reflexivity].
Defined.

(** ** Joining the latest check *)

Lemma with_last_check_same (item : MonitoredNumber) :
  with_last_check (last_check_valid item) (last_check_checked_at item)
    (last_check_name item) item = item.
Proof. now destruct item. Qed.

Lemma enrich_rows_requests (be : Backend) (items : list MonitoredNumber) :
  exists t rows,
    enrichWithLastCheckResult be items = (t, Ok rows)
    /\ (t = [] \/ t = [RLatestChecks (List.filter (fun u => negb (is_empty u))
                                        (map uuid items))]).
Proof.
  unfold enrichWithLastCheckResult. destruct items as [|i l] eqn:Ei.
  { exists [], []. auto. }
  rewrite <- Ei. destruct (List.filter _ (map uuid items)) as [|u us] eqn:Eu.
  { exists [], items. auto. }
  eexists _, _. split; [reflexivity|]. now right.
Qed.

(** X13. The enrichment never throws and sends at most one request, for
    the identifiers of the page; it returns the rows it was given, in
    the same order, with nothing changed but the three joined fields
    (and nothing at all when the request fails), and a joined name is
    never blank. *)
Theorem enrich_preserves_rows (be : Backend) (items : list MonitoredNumber) :
  let uuids := List.filter (fun u => negb (is_empty u)) (map uuid items) in
  exists t rows,
    enrichWithLastCheckResult be items = (t, Ok rows)
    /\ (t = [] \/ t = [RLatestChecks uuids])
    /\ Forall2 (fun item row =>
                  row = with_last_check (last_check_valid row) (last_check_checked_at row)
                          (last_check_name row) item)
         items rows
    /\ (t = [] \/ r_error (run_latest_checks be uuids) <> None -> rows = items)
    /\ (t <> [] -> r_error (run_latest_checks be uuids) = None ->
        Forall (fun row => last_check_name row <> Some "") rows).
Proof.
  cbv zeta.
  assert (Hsame : Forall2 (fun item row : MonitoredNumber =>
                    row = with_last_check (last_check_valid row) (last_check_checked_at row)
                            (last_check_name row) item) items items).
  { induction items; constructor; auto. now rewrite with_last_check_same. }
  unfold enrichWithLastCheckResult.
  destruct items as [|i l] eqn:Ei.
  { exists [], []. repeat split; auto. }
  rewrite <- Ei in *. clear Ei.
  set (uuids := List.filter (fun u => negb (is_empty u)) (map uuid items)).
  destruct uuids as [|u us] eqn:Eu.
  { exists [], items. repeat split; auto. congruence. }
  rewrite <- Eu. clear Eu.
  eexists [RLatestChecks uuids], _. split; [reflexivity|]. split; [now right|].
  destruct (r_error (run_latest_checks be uuids)) as [msg|] eqn:Eerr.
  - split; [exact Hsame|]. split; [reflexivity | discriminate].
  - split; [|split].
    + generalize (rows_of (run_latest_checks be uuids)). intros cks.
      clear. induction items as [|item rest IH]; cbn [map]; constructor; [|exact IH].
      reflexivity.
    + intros [H | H]; [discriminate H | congruence].
    + intros _ _. apply List.Forall_forall. intros row Hrow. apply in_map_iff in Hrow.
      destruct Hrow as (item & <- & _).
      unfold enrichItem. cbn [last_check_name with_last_check].
      destruct (find _ _) as [row|] eqn:Ef; [|discriminate].
      apply find_some in Ef. destruct Ef as [_ Ef].
      apply andb_true_iff in Ef. destruct Ef as [_ Ef].
      intros [= H]. rewrite H in Ef. discriminate Ef.
Qed.

Lemma enrich_preserves_rows_witness :
  exists t rows,
    enrichWithLastCheckResult (RecordStore.backend Scenario.unionStore)
      (numbers Scenario.unionStore) = (t, Ok rows)
    /\ Forall (fun row => last_check_name row <> Some "") rows.
Proof.
  destruct (enrich_preserves_rows (RecordStore.backend Scenario.unionStore)
              (numbers Scenario.unionStore)) as (t & rows & E & Ht & _ & _ & Hn).
  exists t, rows. split; [exact E|]. apply Hn; [|reflexivity].
  destruct Ht as [-> | ->]; [|discriminate].
  vm_compute in E. discriminate E.
Defined.

(** ** The cache and its state mirror *)

Lemma prefetchNeighbors_caches (cl : Closure) (P : Z) (total : option Z) (s : State) :
  dataCacheRef (prefetchNeighbors cl P total s) = dataCacheRef s
  /\ dataCache (prefetchNeighbors cl P total s) = dataCache s.
Proof.
  unfold prefetchNeighbors.
  destruct (continuePrefetch_frame cl (neighbors P total (cl_totalPages cl)) s)
    as (_ & R & C & _). now split.
Qed.

Lemma loaded_sync (cl : Closure) (P : Z) (r : Exc PageResult) (s : State) :
  dataCache s = dataCacheRef s ->
  dataCache (loaded cl P r s) = dataCacheRef (loaded cl P r s).
Proof.
  intros H. unfold loaded.
  change (dataCache (set_loading false ?x)) with (dataCache x).
  change (dataCacheRef (set_loading false ?x)) with (dataCacheRef x).
  destruct r as [[rows count]|msg]; [|exact H].
  match goal with
  | |- context [prefetchNeighbors cl P ?t ?x] =>
      destruct (prefetchNeighbors_caches cl P t x) as [-> ->]
  end.
  cbn. now rewrite H.
Qed.

Lemma prefetched_sync (cl : Closure) (p : Z) (rest : list Z) (r : Exc PageResult)
    (s : State) :
  dataCache s = dataCacheRef s ->
  dataCache (prefetched cl p rest r s) = dataCacheRef (prefetched cl p rest r s).
Proof.
  intros H. unfold prefetched.
  match goal with
  | |- context [continuePrefetch cl rest ?x] =>
      destruct (continuePrefetch_frame cl rest x) as (_ & -> & -> & _)
  end.
  destruct r as [[rows count]|msg]; [|exact H]. cbn. now rewrite H.
Qed.

Lemma periodicitySaved_sync (id cur next : string) (r : Exc (option string)) (s : State) :
  dataCache s = dataCacheRef s ->
  dataCache (periodicitySaved id cur next r s)
  = dataCacheRef (periodicitySaved id cur next r s).
Proof.
  intros H. unfold periodicitySaved.
  change (dataCache (set_updatingPeriodicity false ?x)) with (dataCache x).
  change (dataCacheRef (set_updatingPeriodicity false ?x)) with (dataCacheRef x).
  destruct r as [payload|msg]; [|reflexivity].
  destruct (String.eqb _ _); [exact H | reflexivity].
Qed.

Lemma softDeleted_sync (cl : Closure) (id : string) (err : option string) (s : State) :
  dataCache s = dataCacheRef s ->
  dataCache (softDeleted cl id err s) = dataCacheRef (softDeleted cl id err s).
Proof.
  intros H. unfold softDeleted.
  change (dataCache (set_deletingVatNumber false ?x)) with (dataCache x).
  change (dataCacheRef (set_deletingVatNumber false ?x)) with (dataCacheRef x).
  destruct err as [msg|]; [exact H|].
  pose proof (removeMonitoredNumberLocally_fields cl id s) as F. cbv zeta in F.
  destruct F as (-> & -> & _). reflexivity.
Qed.

Lemma step_keeps_sync (s : State) (e : Event) :
  dataCache s = dataCacheRef s -> dataCache (step s e) = dataCacheRef (step s e).
Proof.
  intros H. destruct e; cbn [step].
  - destruct (change_frame c s) as (_ & -> & -> & _). exact H.
  - destruct (timer s) as [cl|] eqn:Ht.
    + destruct (timeout_resets s cl Ht) as (_ & -> & -> & _). reflexivity.
    + unfold timeout. rewrite Ht. exact H.
  - pose proof (setPage_frame (Z.max 1 (page s - 1)) s) as F. cbv zeta in F.
    destruct F as (_ & -> & -> & _). exact H.
  - pose proof (setPage_frame (Z.min (totalPages s) (page s + 1)) s) as F. cbv zeta in F.
    destruct F as (_ & -> & -> & _). exact H.
  - unfold handlePageInputSubmit.
    match goal with
    | |- context [setPage ?p s] =>
        pose proof (setPage_frame p s) as F; cbv zeta in F;
        destruct F as (_ & -> & -> & _)
    end. exact H.
  - unfold changePageSize. destruct (n =? pageSize (query s)); [exact H|].
    set (s1 := clearCache _).
    destruct (page s1 =? 1).
    + pose proof (loadPageData_frame (closure_of s1) 1 true s1) as F. cbv zeta in F.
      destruct F as (_ & -> & -> & _). reflexivity.
    + pose proof (setPage_frame 1 s1) as F. cbv zeta in F.
      destruct F as (_ & -> & -> & _). reflexivity.
  - exact H.
  - unfold savePeriodicity. destruct (selectedNumber s) as [sel|]; [|exact H].
    destruct (String.eqb _ _); [exact H | reflexivity].
  - unfold softDeleteVatNumber. destruct (selectedNumber s) as [sel|]; [|exact H].
    destruct (_ || _)%bool; exact H.
  - destruct (tasks s !! i) as [t|]; [|exact H].
    set (s0 := set_tasks _ s).
    assert (H0 : dataCache s0 = dataCacheRef s0) by exact H.
    clearbody s0.
    destruct t; cbn [complete];
      [now apply loaded_sync | now apply prefetched_sync
       | now apply periodicitySaved_sync | now apply softDeleted_sync | | | |].
    + unfold requesterOptionsLoaded.
      destruct (loadRequesterOptions _ _ _) as [options selected].
      change (dataCache (set_loadingRequesterFilter false ?x)) with (dataCache x).
      change (dataCacheRef (set_loadingRequesterFilter false ?x)) with (dataCacheRef x).
      match goal with
      | |- context [change ?c ?x] => destruct (change_frame c x) as (_ & -> & -> & _)
      end.
      exact H0.
    + unfold certificateDownloaded.
      destruct (w_latestCheck w) as [[check|]|msg]; exact H0.
    + unfold manualCheckDone. destruct (w_check w) as [msg|]; [exact H0 | reflexivity].
    + unfold reloaded.
      change (dataCache (set_contextAction None (set_vatContextMenu None ?x)))
        with (dataCache x).
      change (dataCacheRef (set_contextAction None (set_vatContextMenu None ?x)))
        with (dataCacheRef x).
      now apply loaded_sync.
  - exact H.
  - exact H.
  - unfold handleDownloadFromContextMenu.
    destruct (vatContextMenu s) as [[pos target]|]; [|exact H].
    destruct (contextAction s); exact H.
  - unfold handleForceCheckFromContextMenu.
    destruct (vatContextMenu s) as [[pos target]|]; [|exact H].
    destruct (contextAction s); [exact H|]. destruct confirmed; exact H.
Qed.

(** X14. The state mirror of the page cache never differs from the ref:
    whatever the user does and whatever completes, in whatever order,
    [dataCache] and [dataCacheRef.current] hold the same pages. *)
Theorem cache_mirror_in_sync (evs : list Event) :
  dataCache (run mounted evs) = dataCacheRef (run mounted evs).
Proof.
  unfold run.
  assert (H : dataCache mounted = dataCacheRef mounted) by reflexivity.
  revert H. generalize mounted.
  induction evs as [|e evs IH]; intros s H; cbn [fold_left]; [exact H|].
  apply IH, step_keeps_sync, H.
Qed.

(** ** The page indicator *)

Lemma fetchRawData_count (be : Backend) (st : QueryState) (p : Z)
    (rows : list MonitoredNumber) (count : Z) :
  counts_rows be ->
  outcome (fetchRawData be st p) = Ok (rows, count) -> 0 <= count.
Proof.
  intros Hbe.
  assert (Hrun : forall q, outcome (runPage be q) = Ok (rows, count) -> 0 <= count).
  { intros q. unfold runPage.
    destruct (r_error (run_page be q)); [discriminate|]. cbn [bindF].
    destruct (enrichWithLastCheckResult be (rows_of (run_page be q))) as [t [items|msg]];
      cbn; [|discriminate].
    intros [= _ <-]. destruct (r_count (run_page be q)) as [c|] eqn:Ec; [|lia].
    now apply (Hbe q). }
  destruct (applyDirectColumnFilters [] (filters st)) as [q|msg] eqn:Hq.
  2:{ now rewrite (fetchRawData_throw be st p msg Hq). }
  destruct (applyRequesterFilter (requesterFilter st) q) as [q1|] eqn:Hr.
  2:{ rewrite (fetchRawData_requester_mismatch be st p q Hq Hr). cbn. intros [= _ <-]. lia. }
  destruct (resolveConstraint_outcome be st) as [_ Hc].
  rewrite (fetchRawData_resolved be st p q q1 _ Hq Hr Hc).
  match goal with |- context [match ?c with _ => _ end] => destruct c as [[|u l]|] end;
    cbn [outcome snd]; try apply Hrun.
  intros [= _ <-]. lia.
Qed.

Lemma Forall_remove_nth {A} (P : A -> Prop) (i : nat) (l : list A) :
  Forall P l -> Forall P (remove_nth i l).
Proof.
  intros H. revert i. induction H as [|x l Hx Hl IH]; intros i; [now destruct i|].
  destruct i as [|i]; cbn; [exact Hl | constructor; [exact Hx | apply IH]].
Qed.

Lemma total_pages_positive (count size : Z) :
  0 <= count -> 0 < size -> 1 <= orElse (ceilDiv count size) 1.
Proof.
  intros Hc Hs. unfold orElse.
  destruct (Z.eqb_spec (ceilDiv count size) 0) as [E|E]; [lia|].
  destruct (Z.eq_dec count 0) as [->|Hne].
  - exfalso. apply E. unfold ceilDiv. cbn. now rewrite Z.div_0_l by lia.
  - apply ceilDiv_positive; lia.
Qed.

Lemma store_counts_rows (s : Store) : counts_rows (RecordStore.backend s).
Proof. intros q c. cbn. intros [= <-]. lia. Qed.

Lemma continuePrefetch_well_paged (cl : Closure) (ps : list Z) (s : State) :
  0 < pageSize (cl_query cl) -> well_paged s -> well_paged (continuePrefetch cl ps s).
Proof.
  intros Hcl (Hp & Ht & Hc & Hq & Htm & Htk). unfold continuePrefetch.
  destruct (next_uncached (dataCacheRef s) ps) as [[p rest]|];
    [|repeat split; assumption].
  repeat split; try assumption. cbn. apply Forall_app. split; [exact Htk|].
  constructor; [|constructor]. cbn. now intros n [= <-].
Qed.

Lemma loadPageData_well_paged (cl : Closure) (p : Z) (force : bool) (s : State) :
  0 < pageSize (cl_query cl) -> well_paged s -> well_paged (loadPageData cl p force s).
Proof.
  intros Hcl H. unfold loadPageData.
  destruct (if force then None else dataCacheRef s !! p) as [rows|].
  - apply continuePrefetch_well_paged; [exact Hcl|].
    destruct H as (Hp & Ht & Hc & Hq & Htm & Htk). repeat split; assumption.
  - destruct H as (Hp & Ht & Hc & Hq & Htm & Htk). repeat split; try assumption.
    cbn. apply Forall_app. split; [exact Htk|].
    constructor; [|constructor]. cbn. now intros n [= <-].
Qed.

Lemma setPage_well_paged (p : Z) (s : State) :
  1 <= p -> well_paged s -> well_paged (setPage p s).
Proof.
  intros Hp H. unfold setPage. destruct (p =? page s); [exact H|].
  destruct H as (_ & Ht & Hc & Hq & Htm & Htk).
  apply loadPageData_well_paged; [exact Hq|]. repeat split; assumption.
Qed.

Lemma loaded_well_paged (cl : Closure) (P : Z) (r : Exc PageResult) (s : State) :
  0 < pageSize (cl_query cl) ->
  (forall rows count, r = Ok (rows, count) -> 0 <= count) ->
  well_paged s -> well_paged (loaded cl P r s).
Proof.
  intros Hcl Hr H. unfold loaded.
  assert (Hl : forall x, well_paged x -> well_paged (set_loading false x)).
  { intros x (Hp & Ht & Hc & Hq & Htm & Htk). repeat split; assumption. }
  apply Hl. destruct r as [[rows count]|msg].
  - apply continuePrefetch_well_paged; [exact Hcl|].
    destruct H as (Hp & Ht & Hc & Hq & Htm & Htk).
    repeat split; try assumption.
    + cbn. apply total_pages_positive; [now apply (Hr rows) | exact Hcl].
    + cbn. now apply (Hr rows).
  - destruct H as (Hp & Ht & Hc & Hq & Htm & Htk). repeat split; assumption.
Qed.

Lemma prefetched_well_paged (cl : Closure) (p : Z) (rest : list Z) (r : Exc PageResult)
    (s : State) :
  0 < pageSize (cl_query cl) -> well_paged s -> well_paged (prefetched cl p rest r s).
Proof.
  intros Hcl H. unfold prefetched. apply continuePrefetch_well_paged; [exact Hcl|].
  destruct r as [[rows count]|msg]; [|exact H].
  destruct H as (Hp & Ht & Hc & Hq & Htm & Htk). repeat split; assumption.
Qed.

Lemma periodicitySaved_well_paged (id cur next : string) (r : Exc (option string))
    (s : State) :
  well_paged s -> well_paged (periodicitySaved id cur next r s).
Proof.
  intros (Hp & Ht & Hc & Hq & Htm & Htk). unfold periodicitySaved.
  destruct r as [payload|msg]; [destruct (String.eqb _ _)|];
    repeat split; assumption.
Qed.

Lemma softDeleted_well_paged (cl : Closure) (id : string) (err : option string)
    (s : State) :
  well_paged s -> well_paged (softDeleted cl id err s).
Proof.
  intros H. unfold softDeleted.
  assert (Hd : forall x, well_paged x -> well_paged (set_deletingVatNumber false x)).
  { intros x (Hp & Ht & Hc & Hq & Htm & Htk). repeat split; assumption. }
  apply Hd. destruct err as [msg|].
  { destruct H as (Hp & Ht & Hc & Hq & Htm & Htk). repeat split; assumption. }
  unfold removeMonitoredNumberLocally.
  set (count := Z.max 0 (cl_totalCount cl - 1)).
  set (pages := Z.max 1 (ceilDiv count (pageSize (cl_query cl)))).
  match goal with
  | |- well_paged (if _ then setPage _ ?x else _) =>
      assert (H2 : well_paged x); [|set (s2 := x) in *; clearbody s2]
  end.
  { destruct H as (Hp & Ht & Hc & Hq & Htm & Htk).
    repeat split; try assumption; cbn; lia. }
  destruct (pages <? cl_page cl); [|exact H2].
  apply setPage_well_paged; [lia | exact H2].
Qed.

Lemma change_well_paged (c : Change) (s : State) :
  well_paged s -> well_paged (change c s).
Proof.
  intros H. unfold change. destruct (changes c (query s)); [|exact H].
  destruct H as (Hp & Ht & Hc & Hq & Htm & Htk).
  assert (Hs : pageSize (applyChange c (query s)) = pageSize (query s))
    by now destruct c.
  repeat split; try assumption; cbn; rewrite ?Hs; try assumption.
  intros cl [= <-]. cbn. now rewrite Hs.
Qed.

Lemma step_keeps_well_paged (s : State) (e : Event) :
  wellFormed e -> well_paged s -> well_paged (step s e).
Proof.
  intros He H. destruct e; cbn [step].
  - now apply change_well_paged.
  - unfold timeout. destruct (timer s) as [cl|] eqn:Etm; [|exact H].
    assert (Hcl : 0 < pageSize (cl_query cl)).
    { destruct H as (_ & _ & _ & _ & Htm & _). now apply Htm. }
    assert (H0 : well_paged (clearCache (set_page 1 (set_timer None s)))).
    { destruct H as (Hp & Ht & Hc & Hq & Htm & Htk).
      repeat split; try assumption; cbn; [lia | discriminate]. }
    set (s0 := clearCache _) in *. clearbody s0.
    pose proof (loadPageData_well_paged cl 1 true s0 Hcl H0) as H1.
    set (s1 := loadPageData cl 1 true s0) in *. clearbody s1.
    destruct (page s =? 1); [exact H1|].
    apply loadPageData_well_paged; [|exact H1].
    destruct H1 as (_ & _ & _ & Hq & _). exact Hq.
  - apply setPage_well_paged; [lia | exact H].
  - apply setPage_well_paged; [|exact H].
    destruct H as (Hp & Ht & _). lia.
  - unfold handlePageInputSubmit. apply setPage_well_paged; [|exact H].
    destruct H as (Hp & Ht & _).
    destruct parsed as [n|]; [destruct (n <? 1) eqn:E1|];
      match goal with |- context [totalPages s <? ?x] =>
        destruct (Z.ltb_spec (totalPages s) x) end; lia.
  - unfold changePageSize. destruct (n =? pageSize (query s)); [exact H|].
    assert (Hn : 0 < n).
    { cbn in He. destruct He as [<-|[<-|[<-|[<-|[]]]]]; lia. }
    assert (H1 : well_paged (clearCache (set_query (with_pageSize n (query s)) s))).
    { destruct H as (Hp & Ht & Hc & Hq & Htm & Htk). repeat split; assumption. }
    set (s1 := clearCache _) in *. clearbody s1.
    destruct (page s1 =? 1).
    + apply loadPageData_well_paged; [|exact H1].
      destruct H1 as (_ & _ & _ & Hq & _). exact Hq.
    + apply setPage_well_paged; [lia | exact H1].
  - destruct H as (Hp & Ht & Hc & Hq & Htm & Htk). repeat split; assumption.
  - unfold savePeriodicity. destruct (selectedNumber s) as [sel|]; [|exact H].
    destruct (String.eqb _ _); [exact H|].
    destruct H as (Hp & Ht & Hc & Hq & Htm & Htk). repeat split; try assumption.
    cbn. apply Forall_app. split; [exact Htk|].
    constructor; [|constructor]. cbn. discriminate.
  - unfold softDeleteVatNumber. destruct (selectedNumber s) as [sel|]; [|exact H].
    destruct (_ || _)%bool; [exact H|].
    destruct H as (Hp & Ht & Hc & Hq & Htm & Htk). repeat split; try assumption.
    cbn. apply Forall_app. split; [exact Htk|].
    constructor; [|constructor]. cbn. now intros n [= <-].
  - destruct (tasks s !! i) as [t|] eqn:Et; [|exact H].
    assert (Hok : forall n, task_pageSize t = Some n -> 0 < n).
    { destruct H as (_ & _ & _ & _ & _ & Htk).
      exact (Forall_lookup_1 _ _ _ _ Htk Et). }
    assert (H0 : well_paged (set_tasks (remove_nth i (tasks s)) s)).
    { destruct H as (Hp & Ht & Hc & Hq & Htm & Htk). repeat split; try assumption.
      cbn. now apply Forall_remove_nth. }
    set (s0 := set_tasks _ s) in *. clearbody s0.
    destruct t; cbn [complete].
    + apply loaded_well_paged; [now apply Hok | | exact H0].
      intros rows count Hr. eapply fetchRawData_count; [exact He | exact Hr].
    + apply prefetched_well_paged; [now apply Hok | exact H0].
    + now apply periodicitySaved_well_paged.
    + now apply softDeleted_well_paged.
    + unfold requesterOptionsLoaded.
      destruct (loadRequesterOptions _ _ _) as [options selected].
      assert (H1 : well_paged (change (SetRequester selected)
                                 (set_requesterOptions options s0))).
      { apply change_well_paged.
        destruct H0 as (Hp & Ht & Hc & Hq & Htm & Htk). repeat split; assumption. }
      destruct H1 as (Hp & Ht & Hc & Hq & Htm & Htk). repeat split; assumption.
    + unfold certificateDownloaded.
      destruct H0 as (Hp & Ht & Hc & Hq & Htm & Htk).
      destruct (w_latestCheck w) as [[check|]|msg]; repeat split; assumption.
    + unfold manualCheckDone.
      destruct H0 as (Hp & Ht & Hc & Hq & Htm & Htk).
      destruct (w_check w) as [msg|]; repeat split; try assumption.
      cbn. apply Forall_app. split; [exact Htk|].
      constructor; [|constructor]. cbn. intros n [= <-]. now apply Hok.
    + unfold reloaded.
      assert (H1 : well_paged
                     (loaded cl targetPage
                        (outcome (fetchRawData (w_backend w) (cl_query cl) targetPage)) s0)).
      { apply loaded_well_paged; [now apply Hok | | exact H0].
        intros rows count Hr. eapply fetchRawData_count; [exact He | exact Hr]. }
      destruct H1 as (Hp & Ht & Hc & Hq & Htm & Htk). repeat split; assumption.
  - destruct H as (Hp & Ht & Hc & Hq & Htm & Htk). repeat split; assumption.
  - destruct H as (Hp & Ht & Hc & Hq & Htm & Htk). repeat split; assumption.
  - unfold handleDownloadFromContextMenu.
    destruct (vatContextMenu s) as [[pos target]|]; [|exact H].
    destruct (contextAction s); [exact H|].
    destruct H as (Hp & Ht & Hc & Hq & Htm & Htk). repeat split; try assumption.
    cbn. apply Forall_app. split; [exact Htk|].
    constructor; [|constructor]. cbn. discriminate.
  - unfold handleForceCheckFromContextMenu.
    destruct (vatContextMenu s) as [[pos target]|]; [|exact H].
    destruct (contextAction s); [exact H|]. destruct confirmed; [|exact H].
    destruct H as (Hp & Ht & Hc & Hq & Htm & Htk). repeat split; try assumption.
    cbn. apply Forall_app. split; [exact Htk|].
    constructor; [|constructor]. cbn. now intros n [= <-].
Qed.

(** X15. From mounting on, with page sizes taken from the select and a
    store whose counts are not negative: the current page and the
    number of pages never fall below 1, the total never below 0, and
    the page size stays positive, whatever the user does and whatever
    completes, in whatever order. *)
Theorem page_indicator_stays_valid (evs : list Event) :
  Forall wellFormed evs ->
  let s := run mounted evs in
  1 <= page s /\ 1 <= totalPages s /\ 0 <= totalCount s /\ 0 < pageSize (query s).
Proof.
  intros Hevs. cbv zeta.
  assert (H : well_paged (run mounted evs)).
  { unfold run.
    assert (H0 : well_paged mounted).
    { repeat split; try (cbn; lia); [discriminate|].
      constructor; [cbn; now intros n [= <-]|].
      constructor; [cbn; discriminate | constructor]. }
    revert H0. generalize mounted.
    induction Hevs as [|e evs He _ IH]; intros s H0; cbn [fold_left]; [exact H0|].
    apply IH. now apply step_keeps_well_paged. }
  destruct H as (Hp & Ht & Hc & Hq & _). auto.
Qed.

Lemma page_indicator_stays_valid_witness :
  let s := run mounted
             [EvComplete 0 (Scenario.world Scenario.twoEntries); EvPageSize 50;
              EvPageInput (Some (-3)); EvNextPage; EvPrevPage] in
  1 <= page s /\ 1 <= totalPages s /\ 0 <= totalCount s /\ 0 < pageSize (query s).
Proof.
  apply page_indicator_stays_valid.
  constructor; [apply store_counts_rows|].
  constructor; [cbn; tauto|].
  repeat (constructor; [exact I|]). constructor.
Defined.

(** ** Navigation and completions *)

Lemma next_uncached_Some (cache : gmap Z (list MonitoredNumber)) (ps : list Z)
    (p : Z) (rest : list Z) :
  next_uncached cache ps = Some (p, rest) ->
  In p ps /\ cache !! p = None /\ exists skipped, ps = skipped ++ p :: rest.
Proof.
  induction ps as [|x ps IH]; cbn [next_uncached]; [discriminate|].
  destruct (cached cache x) eqn:Ex.
  - intros H. destruct (IH H) as (Hin & Hn & skipped & ->).
    split; [now right|]. split; [exact Hn|]. now exists (x :: skipped).
  - intros [= -> ->]. split; [now left|]. split; [now apply cached_None|].
    now exists [].
Qed.

Lemma neighbors_near (P : Z) (total : option Z) (tp p : Z) :
  In p (neighbors P total tp) -> p <> P /\ P - 2 <= p <= P + 2.
Proof.
  unfold neighbors. cbn [flat_map]. rewrite !in_app_iff.
  destruct (Z.ltb_spec 0 (P - 1)), (Z.ltb_spec 0 (P - 2));
    repeat match goal with |- context [if ?b then _ else _] => destruct b end;
    cbn [In]; lia.
Qed.

(** X16. Going to a page that is cached shows the cached rows at once,
    without the loading state and without a request for that page;
    the totals and the cache stay as they are, and at most one
    request is started, for a neighbour within two pages that is not
    cached. *)
Theorem cache_hit_navigation (s : State) (P : Z) (rows : list MonitoredNumber) :
  P <> page s ->
  dataCacheRef s !! P = Some rows ->
  let s' := setPage P s in
  page s' = P /\ data s' = rows /\ loading s' = false /\ error s' = error s
  /\ totalCount s' = totalCount s /\ totalPages s' = totalPages s
  /\ dataCacheRef s' = dataCacheRef s
  /\ (tasks s' = tasks s
      \/ exists cl p rest,
           tasks s' = tasks s ++ [TPrefetch cl p rest]
           /\ cl_query cl = query s
           /\ dataCacheRef s !! p = None
           /\ p <> P /\ P - 2 <= p <= P + 2).
Proof.
  intros Hne Hhit. cbv zeta. unfold setPage.
  rewrite (proj2 (Z.eqb_neq _ _) Hne).
  unfold loadPageData. cbn [dataCacheRef set_page]. rewrite Hhit.
  unfold prefetchNeighbors, continuePrefetch. cbn [dataCacheRef set_loading set_data set_page].
  destruct (next_uncached (dataCacheRef s) _) as [[p rest]|] eqn:En.
  - apply next_uncached_Some in En. destruct En as (Hin & Hnone & _).
    apply neighbors_near in Hin.
    cbn. repeat split. right. eexists _, p, rest. repeat split; try tauto.
  - cbn. repeat split. now left.
Qed.

Lemma cache_hit_navigation_witness :
  let s := setPage 1 (set_page 2 Scenario.detailOpen) in
  data s = [Scenario.checkedEntry; Scenario.pausedEntry] /\ loading s = false.
Proof.
  cbv zeta.
  destruct (cache_hit_navigation (set_page 2 Scenario.detailOpen) 1
              [Scenario.checkedEntry; Scenario.pausedEntry])
    as (_ & Hd & Hl & _); [discriminate | reflexivity |].
  now split.
Defined.

(** X17. A prefetch that completes, with rows or with an error, changes
    nothing the user sees: the rows, the loading state, the error,
    the page and the totals stay; rows go into the cache under the
    prefetched page, an error is dropped without a trace, and either
    way the loop goes on with the next neighbour that is not cached. *)
Theorem prefetch_is_silent (cl : Closure) (p : Z) (rest : list Z) (r : Exc PageResult)
    (s : State) :
  let s' := prefetched cl p rest r s in
  let cache' :=
    match r with
    | Ok (rows, _) => <[p := rows]> (dataCacheRef s)
    | Throw _ => dataCacheRef s
    end in
  data s' = data s /\ loading s' = loading s /\ error s' = error s
  /\ page s' = page s /\ totalCount s' = totalCount s /\ totalPages s' = totalPages s
  /\ query s' = query s /\ selectedNumber s' = selectedNumber s
  /\ dataCacheRef s' = cache'
  /\ tasks s' = tasks s ++ match next_uncached cache' rest with
                           | Some (p', rest') => [TPrefetch cl p' rest']
                           | None => []
                           end.
Proof.
  cbv zeta. unfold prefetched, continuePrefetch.
  destruct r as [[rows count]|msg]; cbn [dataCacheRef updateCache set_dataCache set_dataCacheRef].
  - destruct (next_uncached (<[p:=rows]> (dataCacheRef s)) rest) as [[p' rest']|];
      cbn; rewrite ?app_nil_r; repeat split.
  - destruct (next_uncached (dataCacheRef s) rest) as [[p' rest']|];
      cbn; rewrite ?app_nil_r; repeat split.
Qed.

Lemma ceilDiv_least (a b : Z) :
  0 < b -> a <= ceilDiv a b * b /\ forall n, a <= n * b -> ceilDiv a b <= n.
Proof.
  intros Hb. unfold ceilDiv. split.
  - pose proof (Z.mul_div_le (- a) b Hb). lia.
  - intros n Hn.
    assert (H : - n <= (- a) / b) by (apply Z.div_le_lower_bound; lia). lia.
Qed.

(** X18. When the fetch of a page load succeeds with a count that is not
    negative, for a positive page size: the rows and the count are
    shown, and the number of pages is the least number of pages, at
    least 1, that holds [count] rows. *)
Theorem loaded_page_count (s : State) (i : nat) (w : World) (cl : Closure) (P : Z)
    (rows : list MonitoredNumber) (count : Z) :
  tasks s !! i = Some (TLoad cl P) ->
  outcome (fetchRawData (w_backend w) (cl_query cl) P) = Ok (rows, count) ->
  0 <= count ->
  0 < pageSize (cl_query cl) ->
  let s' := step s (EvComplete i w) in
  let size := pageSize (cl_query cl) in
  data s' = rows /\ totalCount s' = count /\ loading s' = false
  /\ dataCacheRef s' !! P = Some rows
  /\ 1 <= totalPages s'
  /\ count <= totalPages s' * size
  /\ (forall n, 1 <= n -> count <= n * size -> totalPages s' <= n).
Proof.
  intros Ht Hr Hc Hs. cbv zeta. cbn [step]. rewrite Ht. cbn [complete]. rewrite Hr.
  set (s0 := set_tasks _ s).
  destruct (proj1 completions_unguarded cl P rows count s0) as (Hd & Hcache & _).
  unfold loaded in *.
  set (T := orElse (ceilDiv count (pageSize (cl_query cl))) 1) in *.
  set (s1 := updateCache P rows _) in *.
  assert (Hframe : totalCount (prefetchNeighbors cl P (Some T) s1) = count
                   /\ totalPages (prefetchNeighbors cl P (Some T) s1) = T).
  { unfold prefetchNeighbors, continuePrefetch.
    destruct (next_uncached _ _) as [[p rest]|]; cbn; auto. }
  destruct Hframe as [Hcount Hpages].
  change (totalCount (set_loading false ?x)) with (totalCount x).
  change (totalPages (set_loading false ?x)) with (totalPages x).
  rewrite Hcount, Hpages.
  split; [exact Hd|]. split; [reflexivity|]. split; [reflexivity|].
  split; [exact Hcache|].
  destruct (ceilDiv_least count (pageSize (cl_query cl)) Hs) as [Hup Hleast].
  pose proof (total_pages_positive count _ Hc Hs) as Hpos. fold T in Hpos.
  split; [exact Hpos|].
  unfold T, orElse in *.
  destruct (Z.eqb_spec (ceilDiv count (pageSize (cl_query cl))) 0) as [E|E].
  - split; [lia|]. intros n Hn _. exact Hn.
  - split; [exact Hup|]. intros n _ Hn. now apply Hleast.
Qed.

Lemma loaded_page_count_witness :
  let s' := step mounted (EvComplete 0 (Scenario.world Scenario.twoEntries)) in
  totalCount s' = 2 /\ 1 <= totalPages s' /\ 2 <= totalPages s' * 15.
Proof.
  cbv zeta.
  destruct (loaded_page_count mounted 0 (Scenario.world Scenario.twoEntries)
              {| cl_query := initialQuery; cl_page := 1;
                 cl_totalCount := 0; cl_totalPages := 1 |} 1
              [Scenario.checkedEntry; Scenario.pausedEntry] 2)
    as (_ & Hc & _ & _ & H1 & H2 & _);
    [reflexivity | vm_compute; reflexivity | lia | reflexivity |].
  repeat split; assumption.
Defined.

Lemma changes_frame (cs : list Change) (s : State) :
  tasks (run s (map EvChange cs)) = tasks s
  /\ page (run s (map EvChange cs)) = page s.
Proof.
  revert s. induction cs as [|c cs IH]; intros s; [now split|].
  cbn [map run fold_left step]. fold (run (change c s) (map EvChange cs)).
  destruct (IH (change c s)) as [-> ->].
  destruct (change_frame c s) as (-> & _ & _ & ->). now split.
Qed.

(** X19. A burst of filter changes followed by the debounce firing once
    starts no fetch before the timeout and then fetches page 1 for the
    query state of the last change only: once when the page was 1,
    twice (the reset itself and the effect on the page number) when it
    was not. *)
Theorem debounce_coalesces (s : State) (cs : list Change) (c : Change) :
  changes c (query (run s (map EvChange cs))) = true ->
  let s1 := step (run s (map EvChange cs)) (EvChange c) in
  let s2 := step s1 EvTimer in
  tasks s1 = tasks s
  /\ timer s2 = None
  /\ exists cl cl',
       cl_query cl = query s1 /\ cl_query cl' = query s1
       /\ tasks s2
          = tasks s ++ (if page s =? 1 then [TLoad cl 1] else [TLoad cl 1; TLoad cl' 1]).
Proof.
  intros Hch. cbv zeta.
  destruct (changes_frame cs s) as [Htasks Hpage].
  set (s0 := run s (map EvChange cs)) in *. clearbody s0.
  cbn [step]. unfold change. rewrite Hch.
  split; [exact Htasks|].
  split.
  { unfold timeout. cbn [timer set_timer]. cbn [page set_timer set_query].
    destruct (page s0 =? 1); unfold loadPageData;
      cbn [dataCacheRef add_task set_tasks set_error set_loading
           clearCache set_dataCache set_dataCacheRef];
      rewrite ?lookup_empty; reflexivity. }
  set (q := applyChange c (query s0)).
  set (cl := closure_of (set_query q s0)).
  exists cl, {| cl_query := q; cl_page := 1;
                cl_totalCount := totalCount s0; cl_totalPages := totalPages s0 |}.
  split; [reflexivity|]. split; [reflexivity|].
  unfold timeout. cbn [timer set_timer]. cbn [page set_timer set_query].
  rewrite Hpage. destruct (page s =? 1).
  - unfold loadPageData. cbn. now rewrite Htasks.
  - unfold loadPageData. cbn [dataCacheRef add_task set_tasks set_error set_loading
                               clearCache set_dataCache set_dataCacheRef].
    rewrite lookup_empty. cbn. now rewrite Htasks, <- app_assoc.
Qed.

Lemma debounce_coalesces_witness :
  let s2 := step (step (run mounted (map EvChange [SetSearch "D"; SetSearch "DE"]))
                    (EvChange (SetSearch "DE1"))) EvTimer in
  exists cl, search (cl_query cl) = "DE1" /\ tasks s2 = tasks mounted ++ [TLoad cl 1].
Proof.
  cbv zeta.
  destruct (debounce_coalesces mounted [SetSearch "D"; SetSearch "DE"] (SetSearch "DE1"))
    as (_ & _ & cl & cl' & Hq & _ & Ht); [reflexivity|].
  exists cl. split; [now rewrite Hq | exact Ht].
Defined.

(** X20. Choosing another page size empties the cache, goes to page 1 and
    starts exactly one fetch, of page 1 with the new size. *)
Theorem page_size_change_resets (s : State) (n : Z) :
  n <> pageSize (query s) ->
  let s' := step s (EvPageSize n) in
  pageSize (query s') = n /\ page s' = 1
  /\ dataCacheRef s' = ∅ /\ dataCache s' = ∅ /\ loading s' = true
  /\ exists cl, pageSize (cl_query cl) = n /\ cl_page cl = 1
                /\ tasks s' = tasks s ++ [TLoad cl 1].
Proof.
  intros Hne. cbv zeta. cbn [step]. unfold changePageSize.
  rewrite (proj2 (Z.eqb_neq _ _) Hne).
  cbn [page clearCache set_dataCache set_dataCacheRef set_query].
  set (s1 := clearCache (set_query (with_pageSize n (query s)) s)).
  destruct (Z.eqb_spec (page s) 1) as [E|E].
  - unfold loadPageData. cbn. repeat split; try assumption.
    exists (closure_of s1). repeat split. exact E.
  - unfold setPage. cbn [page clearCache set_dataCache set_dataCacheRef set_query s1].
    destruct (Z.eqb_spec 1 (page s)) as [E'|_]; [congruence|].
    unfold loadPageData. cbn [dataCacheRef clearCache set_dataCache set_dataCacheRef
                                set_query set_page s1].
    rewrite lookup_empty. cbn. repeat split.
    exists (closure_of (set_page 1 s1)). repeat split.
Qed.

Lemma page_size_change_resets_witness :
  let s' := step (set_page 2 Scenario.detailOpen) (EvPageSize 50) in
  page s' = 1 /\ dataCacheRef s' = ∅.
Proof.
  cbv zeta.
  destruct (page_size_change_resets (set_page 2 Scenario.detailOpen) 50)
    as (_ & Hp & Hr & _); [discriminate|].
  now split.
Defined.

(** X21. The page typed into the page box is clamped into
    [[1, totalPages]], with 1 for a value that is not a number; the
    previous and next buttons move by one page and never leave that
    range. *)
Theorem navigation_stays_in_range (s : State) :
  1 <= totalPages s ->
  (forall parsed,
     let s' := step s (EvPageInput parsed) in
     1 <= page s' <= totalPages s
     /\ (parsed = None -> page s' = 1)
     /\ (forall n, parsed = Some n -> 1 <= n <= totalPages s -> page s' = n))
  /\ (1 <= page s <= totalPages s ->
      page (step s EvPrevPage) = Z.max 1 (page s - 1)
      /\ page (step s EvNextPage) = Z.min (totalPages s) (page s + 1)
      /\ 1 <= page (step s EvPrevPage) <= totalPages s
      /\ 1 <= page (step s EvNextPage) <= totalPages s)
  /\ (forall e, match e with
                | EvPrevPage | EvNextPage | EvPageInput _ => True
                | _ => False
                end ->
                totalPages (step s e) = totalPages s
                /\ totalCount (step s e) = totalCount s
                /\ dataCacheRef (step s e) = dataCacheRef s).
Proof.
  intros Ht. split; [|split].
  - intros parsed. cbv zeta. cbn [step]. unfold handlePageInputSubmit.
    match goal with
    | |- context [setPage ?p s] =>
        pose proof (setPage_frame p s) as F; cbv zeta in F; destruct F as (-> & _)
    end.
    destruct parsed as [n|].
    + destruct (Z.ltb_spec n 1);
        match goal with |- context [totalPages s <? ?x] =>
          destruct (Z.ltb_spec (totalPages s) x) end;
        (split; [lia|]); (split; [discriminate|]); intros m [= <-]; lia.
    + destruct (Z.ltb_spec (totalPages s) 1); [lia|].
      split; [lia|]. split; [reflexivity | discriminate].
  - intros Hp. cbn [step].
    pose proof (setPage_frame (Z.max 1 (page s - 1)) s) as F1. cbv zeta in F1.
    pose proof (setPage_frame (Z.min (totalPages s) (page s + 1)) s) as F2. cbv zeta in F2.
    destruct F1 as (-> & _), F2 as (-> & _). lia.
  - intros e He. destruct e; try contradiction; cbn [step]; unfold handlePageInputSubmit;
      match goal with
      | |- context [setPage ?p s] =>
          pose proof (setPage_frame p s) as F; cbv zeta in F;
          destruct F as (_ & -> & _ & _ & -> & -> & _)
      end; auto.
Qed.

Lemma navigation_stays_in_range_witness :
  1 <= page (step Scenario.pageFourOfFive (EvPageInput (Some 99))) <= 5
  /\ page (step Scenario.pageFourOfFive EvNextPage) = 5.
Proof.
  destruct (navigation_stays_in_range Scenario.pageFourOfFive) as (Hi & Hn & _);
    [cbn; lia|].
  split.
  - exact (proj1 (Hi (Some 99))).
  - destruct Hn as (_ & -> & _); [cbn; lia | reflexivity].
Defined.

(** ** Local mutations, confirmed *)

Lemma normalizePeriodicity_valid (value : option string) :
  In (normalizePeriodicity value) periodicityValues.
Proof.
  unfold normalizePeriodicity, periodicityValues. destruct value as [v|]; [|cbn; tauto].
  destruct (String.eqb_spec v "daily") as [->|_]; [cbn; tauto|].
  destruct (String.eqb_spec v "weekly") as [->|_]; [cbn; tauto|].
  destruct (String.eqb_spec v "monthly") as [->|_]; [cbn; tauto|].
  destruct (String.eqb_spec v "inactive") as [->|_]; cbn; tauto.
Qed.

Lemma applyPeriodicityLocally_rest (id p : string) (s : State) :
  let s' := applyPeriodicityLocally id p s in
  tasks s' = tasks s /\ periodicityDraft s' = periodicityDraft s
  /\ error s' = error s /\ updatingPeriodicity s' = updatingPeriodicity s.
Proof. cbv zeta. cbn. tauto. Qed.

Lemma complete_last (t : Task) (w : World) (s : State) :
  step (add_task t s) (EvComplete (length (tasks s)) w) = complete t w s.
Proof.
  cbn [step add_task tasks set_tasks].
  rewrite lookup_app_last, remove_nth_last. f_equal. now destruct s.
Qed.

(** X22. When the backend accepts a periodicity update: every copy of the
    entry (in the current page array, in every cached page, in the
    detail record) and the draft hold the confirmed value, which is
    the periodicity of the answer, or the draft when the answer has
    none, put through [normalizePeriodicity]; it is always one of the
    four values, ['daily'] when the answer holds anything else. *)
Theorem periodicity_confirmed (s : State) (sel : MonitoredNumber) (w : World)
    (payload : option string) :
  selectedNumber s = Some sel ->
  normalizePeriodicity (Some (periodicity sel)) <> periodicityDraft s ->
  w_patch w = Ok payload ->
  let next := periodicityDraft s in
  let confirmed :=
    normalizePeriodicity (Some (match payload with Some p => p | None => next end)) in
  let s2 := step (step s EvSavePeriodicity) (EvComplete (length (tasks s)) w) in
  (forall r, In r (data s2) -> uuid r = uuid sel -> periodicity r = confirmed)
  /\ (forall k rows r, dataCacheRef s2 !! k = Some rows -> In r rows ->
                       uuid r = uuid sel -> periodicity r = confirmed)
  /\ selectedNumber s2 = Some (with_periodicity confirmed sel)
  /\ periodicityDraft s2 = confirmed
  /\ In confirmed periodicityValues
  /\ updatingPeriodicity s2 = false /\ error s2 = None /\ tasks s2 = tasks s.
Proof.
  intros Hsel Hne Hw. cbv zeta.
  pose proof (normalizePeriodicity_valid
                (Some (match payload with
                       | Some p => p
                       | None => periodicityDraft s
                       end))) as Hvalid.
  set (confirmed := normalizePeriodicity
                      (Some (match payload with
                             | Some p => p
                             | None => periodicityDraft s
                             end))) in *.
  set (s0 := set_error None (set_updatingPeriodicity true s)).
  assert (Hs0 : selectedNumber s0 = Some sel /\ tasks s0 = tasks s
                /\ periodicityDraft s0 = periodicityDraft s /\ error s0 = None)
    by (cbn; auto).
  destruct Hs0 as (Hsel0 & Ht0 & Hd0 & He0).
  assert (Hsave : step s EvSavePeriodicity =
                  add_task (TSavePeriodicity (uuid sel)
                              (normalizePeriodicity (Some (periodicity sel)))
                              (periodicityDraft s))
                    (applyPeriodicityLocally (uuid sel) (periodicityDraft s) s0)).
  { cbn [step]. unfold savePeriodicity. rewrite Hsel.
    now rewrite (proj2 (String.eqb_neq _ _) Hne). }
  rewrite Hsave. clear Hsave. clearbody s0.
  pose proof (applyPeriodicityLocally_everywhere (uuid sel) (periodicityDraft s) s0) as F1.
  pose proof (applyPeriodicityLocally_selected (uuid sel) (periodicityDraft s) s0) as S1.
  pose proof (applyPeriodicityLocally_rest (uuid sel) (periodicityDraft s) s0) as R1.
  cbv zeta in F1, R1.
  set (s1 := applyPeriodicityLocally (uuid sel) (periodicityDraft s) s0) in *.
  clearbody s1.
  destruct F1 as (D1 & C1 & _ & _). destruct R1 as (T1 & P1 & E1 & _).
  rewrite Hsel0, String.eqb_refl in S1.
  rewrite <- Ht0, <- T1. rewrite complete_last. cbn [complete]. rewrite Hw.
  unfold periodicitySaved. fold confirmed. clearbody confirmed.
  destruct (String.eqb_spec confirmed (periodicityDraft s)) as [E|E]; cbv beta iota.
  - rewrite E in *.
    change (data (set_updatingPeriodicity false s1)) with (data s1).
    change (dataCacheRef (set_updatingPeriodicity false s1)) with (dataCacheRef s1).
    change (selectedNumber (set_updatingPeriodicity false s1)) with (selectedNumber s1).
    change (periodicityDraft (set_updatingPeriodicity false s1))
      with (periodicityDraft s1).
    change (error (set_updatingPeriodicity false s1)) with (error s1).
    change (tasks (set_updatingPeriodicity false s1)) with (tasks s1).
    rewrite P1, E1, Hd0, He0.
    repeat split; try assumption; reflexivity.
  - pose proof (applyPeriodicityLocally_everywhere (uuid sel) confirmed s1) as F2.
    pose proof (applyPeriodicityLocally_selected (uuid sel) confirmed s1) as S2.
    pose proof (applyPeriodicityLocally_rest (uuid sel) confirmed s1) as R2.
    cbv zeta in F2, R2.
    set (s2 := applyPeriodicityLocally (uuid sel) confirmed s1) in *. clearbody s2.
    destruct F2 as (D2 & C2 & _ & _). destruct R2 as (T2 & _ & E2 & _).
    rewrite S1 in S2. change (uuid (with_periodicity (periodicityDraft s) sel))
      with (uuid sel) in S2. rewrite String.eqb_refl in S2.
    cbn [data dataCacheRef selectedNumber periodicityDraft error tasks
         updatingPeriodicity set_updatingPeriodicity set_periodicityDraft].
    rewrite S2, E2, E1, He0, T2.
    repeat split; try assumption; try reflexivity.
Qed.

Lemma periodicity_confirmed_witness :
  let w := {| w_backend := RecordStore.backend Scenario.twoEntries;
              w_patch := Ok (Some "yearly"); w_delete := None;
              w_requesters := Ok (None, []); w_latestCheck := Ok None;
              w_check := None |} in
  let s2 := step (step Scenario.detailOpen EvSavePeriodicity) (EvComplete 0 w) in
  selectedNumber s2 = Some (with_periodicity "daily" Scenario.checkedEntry)
  /\ periodicityDraft s2 = "daily".
Proof.
  cbv zeta.
  destruct (periodicity_confirmed Scenario.detailOpen Scenario.checkedEntry
              {| w_backend := RecordStore.backend Scenario.twoEntries;
                 w_patch := Ok (Some "yearly"); w_delete := None;
                 w_requesters := Ok (None, []); w_latestCheck := Ok None;
                 w_check := None |} (Some "yearly"))
    as (_ & _ & Hs & Hd & _); [reflexivity | discriminate | reflexivity |].
  split; [exact Hs | exact Hd].
Defined.

(** ** The soft delete and the status selector *)

Lemma get_filter_set_same (key value : string) (fs : list (string * string)) :
  get_filter key (set_filter key value fs) = Some value.
Proof.
  induction fs as [|[k v] fs IH]; cbn [set_filter get_filter].
  - now rewrite String.eqb_refl.
  - destruct (String.eqb k key) eqn:E; cbn [get_filter]; rewrite E; auto.
Qed.

Lemma get_filter_set_other (key key' value : string) (fs : list (string * string)) :
  key <> key' -> get_filter key (set_filter key' value fs) = get_filter key fs.
Proof.
  intros Hne. induction fs as [|[k v] fs IH]; cbn [set_filter get_filter].
  - destruct (String.eqb_spec key' key); [congruence | reflexivity].
  - destruct (String.eqb_spec k key') as [->|E']; cbn [get_filter].
    + destruct (String.eqb_spec key' key); [congruence | reflexivity].
    + destruct (String.eqb k key); [reflexivity | exact IH].
Qed.

(** X23. Once the update of a soft delete has reached the store, the row
    is selected by the [deleted] status and by none of [inactive],
    [pending] and [active], whatever it was before; with no status
    selected it is still selected. *)
Theorem soft_deleted_row_status (target row : MonitoredNumber) (now : string)
    (sel : MonitoringStatusFilter) :
  Sql.selects_number (applyStatusFilter sel []) (softDeleteUpdate target now row)
  = match sel with
    | StatusDeleted | StatusAll => true
    | StatusInactive | StatusPending | StatusActive => false
    end.
Proof.
  rewrite status_filter_selects.
  assert (Hflag : status_flag (softDeleteUpdate target now row) = Some "deleted").
  { unfold status_flag, softDeleteUpdate, nextReference. cbn [reference].
    rewrite get_filter_set_other by discriminate. apply get_filter_set_same. }
  unfold status_mapping, is_deleted, has_status_flag, is_inactive. rewrite Hflag.
  destruct sel; cbn; reflexivity.
Qed.

(** X24. A soft delete takes nothing but the entry out of the local
    copies: every cached page keeps its other rows and stays cached,
    even when it is left without rows (a later visit shows it empty
    from the cache); the current page array keeps its other rows when
    the page does not change; and when the update fails nothing is
    removed, the totals stay and an error is shown. *)
Theorem soft_delete_keeps_the_rest (cl : Closure) (id : string) (s : State) :
  let s' := softDeleted cl id None s in
  dataCacheRef s' = removeFromItems id <$> dataCacheRef s
  /\ (forall k, cached (dataCacheRef s') k = cached (dataCacheRef s) k)
  /\ (forall k rows r,
        dataCacheRef s !! k = Some rows -> In r rows -> uuid r <> id ->
        exists rows', dataCacheRef s' !! k = Some rows' /\ In r rows')
  /\ (cl_page cl <= totalPages s' -> data s' = removeFromItems id (data s))
  /\ (forall r, In r (data s) -> uuid r <> id -> In r (removeFromItems id (data s)))
  /\ (forall msg,
        let s'' := softDeleted cl id (Some msg) s in
        data s'' = data s /\ dataCacheRef s'' = dataCacheRef s
        /\ selectedNumber s'' = selectedNumber s
        /\ totalCount s'' = totalCount s /\ totalPages s'' = totalPages s
        /\ page s'' = page s
        /\ (exists text, error s'' = Some text /\ (msg <> "" -> text = msg))
        /\ deletingVatNumber s'' = false).
Proof.
  cbv zeta.
  assert (Hkeep : forall rows r, In r rows -> uuid r <> id -> In r (removeFromItems id rows)).
  { intros rows r Hr Hne. unfold removeFromItems. apply filter_In. split; [exact Hr|].
    apply negb_true_iff. now apply String.eqb_neq. }
  pose proof (removeMonitoredNumberLocally_fields cl id s) as F. cbv zeta in F.
  destruct F as (R & _ & _ & _ & T & _ & _ & _).
  assert (Hdata : cl_page cl <= totalPages (removeMonitoredNumberLocally cl id s) ->
                  data (removeMonitoredNumberLocally cl id s)
                  = removeFromItems id (data s)).
  { rewrite T. intros Hle. unfold removeMonitoredNumberLocally.
    pose proof (removal_frame id s) as F1. cbv zeta in F1.
    set (s1 := mapCache _ _) in *. clearbody s1. destruct F1 as (D1 & _).
    set (count := Z.max 0 (cl_totalCount cl - 1)) in *.
    set (pages := Z.max 1 (ceilDiv count (pageSize (cl_query cl)))) in *.
    pose proof (totals_frame pages count s1) as F2. cbv zeta in F2.
    set (s2 := set_totalPages pages (set_totalCount count s1)) in *. clearbody s2.
    destruct F2 as (D2 & _).
    destruct (Z.ltb_spec pages (cl_page cl)); [lia|]. now rewrite D2, D1. }
  unfold softDeleted.
  change (dataCacheRef (set_deletingVatNumber false ?x)) with (dataCacheRef x).
  change (data (set_deletingVatNumber false ?x)) with (data x).
  change (totalPages (set_deletingVatNumber false ?x)) with (totalPages x).
  rewrite R.
  split; [reflexivity|]. split.
  { intros k. unfold cached. rewrite lookup_fmap.
    now destruct (dataCacheRef s !! k). }
  split.
  { intros k rows r Hk Hr Hne. exists (removeFromItems id rows).
    rewrite lookup_fmap, Hk. split; [reflexivity | now apply Hkeep]. }
  split; [exact Hdata|]. split; [intros r; apply Hkeep|].
  intros msg. cbn. repeat split.
  exists (if is_empty msg then "Failed to delete VAT number." else msg).
  split; [reflexivity|]. intros Hne. destruct msg; [contradiction | reflexivity].
Qed.

Lemma soft_delete_keeps_the_rest_witness :
  let s' := softDeleted (closure_of Scenario.detailOpen) "a2" None Scenario.detailOpen in
  data s' = [Scenario.pausedEntry] /\ cached (dataCacheRef s') 1 = true.
Proof.
  cbv zeta.
  destruct (soft_delete_keeps_the_rest (closure_of Scenario.detailOpen) "a2"
              Scenario.detailOpen) as (_ & Hc & _ & Hd & _).
  split; [rewrite Hd; [reflexivity | vm_compute; discriminate] | now rewrite Hc].
Defined.

(** ** The requester options *)

Lemma upper_alnum_fixed (c : ascii) :
  is_upper_alnum c = true -> is_alnum c = true /\ upper_char c = c.
Proof.
  destruct c as [[] [] [] [] [] [] [] []]; vm_compute; intros H;
    first [split; reflexivity | discriminate H].
Qed.

Lemma isVatLike_chars (value : string) :
  isVatLike value = true -> Forall (fun c => is_upper_alnum c = true) (chars value).
Proof.
  unfold isVatLike. destruct (matchRequester value) as [[prefix remainder]|] eqn:E;
    [|discriminate].
  intros _. apply matchRequester_spec in E.
  destruct E as (-> & _ & Hp & _ & Hr). rewrite chars_app. apply Forall_app. split.
  - eapply List.Forall_impl; [|exact Hp]. intros c Hc. unfold is_upper_alnum.
    now rewrite Hc.
  - exact Hr.
Qed.

Lemma normalizeVatInput_fixed (value : string) :
  isVatLike value = true -> normalizeVatInput value = value.
Proof.
  intros H. apply isVatLike_chars in H. unfold normalizeVatInput.
  rewrite <- (str_chars value) at 2. f_equal.
  induction H as [|c l Hc _ IH]; [reflexivity|].
  destruct (upper_alnum_fixed c Hc) as [Ha Hu].
  cbn [List.filter]. rewrite Ha. cbn [map]. now rewrite Hu, IH.
Qed.

Lemma has_option_In (vat : string) (options : list RequesterOption) :
  has_option vat options = true <-> In vat (map opt_value options).
Proof.
  unfold has_option. rewrite existsb_exists, in_map_iff. split.
  - intros (o & Ho & E). apply String.eqb_eq in E. now exists o.
  - intros (o & E & Ho). exists o. split; [exact Ho | now apply String.eqb_eq].
Qed.

Lemma addSubaccounts_valid (t : RequesterLabels) (rows : list Subaccount) :
  forall acc,
    List.NoDup (map opt_value acc) ->
    Forall (fun o => isVatLike (opt_value o) = true) acc ->
    List.NoDup (map opt_value (addSubaccounts t rows acc))
    /\ Forall (fun o => isVatLike (opt_value o) = true) (addSubaccounts t rows acc).
Proof.
  induction rows as [|row rest IH]; intros acc Hnd Hv; cbn [addSubaccounts]; [now split|].
  set (vat := normalizeVatInput (orEmpty (subuser_vat_number row))).
  destruct (isVatLike vat) eqn:Ev; cbn [negb orb]; [|now apply IH].
  destruct (has_option vat acc) eqn:Eh; [now apply IH|].
  apply IH.
  - rewrite map_app. cbn [map opt_value]. apply List.NoDup_app.
    + exact Hnd.
    + constructor; [intros [] | constructor].
    + intros x Hx [<- | []]. apply has_option_In in Hx. congruence.
  - apply Forall_app. split; [exact Hv|]. now repeat constructor.
Qed.

Lemma all_not_vat : isVatLike "__all__" = false.
Proof. reflexivity. Qed.

Lemma requesterOptions_shape (t : RequesterLabels)
    (answer : Exc (option Profile * list Subaccount)) :
  exists rest,
    buildRequesterOptions t answer = allOption t :: rest
    /\ Forall (fun o => isVatLike (opt_value o) = true) rest
    /\ List.NoDup (map opt_value rest).
Proof.
  destruct answer as [[profile subaccounts]|msg]; cbn [buildRequesterOptions].
  - assert (Hown : List.NoDup (map opt_value (ownOption t profile))
                   /\ Forall (fun o => isVatLike (opt_value o) = true)
                        (ownOption t profile)).
    { unfold ownOption. destruct (isVatLike _) eqn:E.
      - split; [repeat constructor; intros [] | now repeat constructor].
      - split; constructor. }
    destruct Hown as [Hnd Hv].
    destruct (addSubaccounts_valid t subaccounts _ Hnd Hv) as [Hnd' Hv'].
    eexists. split; [reflexivity|]. now split.
  - exists []. split; [reflexivity|]. split; constructor.
Qed.

Lemma vat_option_compiles (value : string) (q : Query) :
  isVatLike value = true ->
  exists prefix remainder,
    value = (prefix ++ remainder)%string
    /\ length (chars prefix) = 2%nat
    /\ applyRequesterFilter value q
       = Some (q_eq "vat_number_requester" (VText remainder)
                 (q_eq "country_code_requester" (VText prefix) q)).
Proof.
  intros Hv.
  assert (Hne : String.eqb value "__all__" = false).
  { destruct (String.eqb_spec value "__all__") as [->|]; [discriminate Hv | reflexivity]. }
  unfold applyRequesterFilter. rewrite Hne, (normalizeVatInput_fixed _ Hv).
  unfold isVatLike in Hv.
  destruct (matchRequester value) as [[prefix remainder]|] eqn:Em; [|discriminate].
  exists prefix, remainder. apply matchRequester_spec in Em.
  destruct Em as (Ev & Hlen & _). repeat split; assumption.
Qed.

(** X25. The requester select offers ['__all__'] first and then VAT
    numbers that match the requester pattern, each once (nothing but
    ['__all__'] when loading fails); after the options are loaded the
    selected requester is one of them, the previous one when it is
    still offered.  Selecting any VAT number of the select never
    gives the fail-closed empty page: the value is its own normal
    form and compiles to the equalities on the requester's country
    code and number, which put together are the value. *)
Theorem requester_options_valid (t : RequesterLabels)
    (answer : Exc (option Profile * list Subaccount)) (prev : string) :
  let options := fst (loadRequesterOptions t answer prev) in
  let selected := snd (loadRequesterOptions t answer prev) in
  (exists rest, options = allOption t :: rest
                /\ Forall (fun o => isVatLike (opt_value o) = true) rest)
  /\ List.NoDup (map opt_value options)
  /\ In selected (map opt_value options)
  /\ (In prev (map opt_value options) -> selected = prev)
  /\ (forall msg, answer = Throw msg -> options = [allOption t] /\ selected = "__all__")
  /\ (forall o q,
        In o options -> opt_value o <> "__all__" ->
        normalizeVatInput (opt_value o) = opt_value o
        /\ exists prefix remainder,
             opt_value o = (prefix ++ remainder)%string
             /\ length (chars prefix) = 2%nat
             /\ applyRequesterFilter (opt_value o) q
                = Some (q_eq "vat_number_requester" (VText remainder)
                          (q_eq "country_code_requester" (VText prefix) q))).
Proof.
  cbv zeta. unfold loadRequesterOptions. cbn [fst snd].
  destruct (requesterOptions_shape t answer) as (rest & E & Hv & Hnd).
  split; [exists rest; now split|].
  assert (Hin : In "__all__" (map opt_value (buildRequesterOptions t answer))).
  { rewrite E. now left. }
  split.
  { rewrite E. cbn [map allOption opt_value]. constructor; [|exact Hnd].
    intros Hall. apply in_map_iff in Hall. destruct Hall as (o & Eo & Ho).
    rewrite List.Forall_forall in Hv. specialize (Hv o Ho).
    rewrite Eo, all_not_vat in Hv. discriminate Hv. }
  assert (Hopt : forall o q,
             In o (buildRequesterOptions t answer) -> opt_value o <> "__all__" ->
             normalizeVatInput (opt_value o) = opt_value o
             /\ exists prefix remainder,
                  opt_value o = (prefix ++ remainder)%string
                  /\ length (chars prefix) = 2%nat
                  /\ applyRequesterFilter (opt_value o) q
                     = Some (q_eq "vat_number_requester" (VText remainder)
                               (q_eq "country_code_requester" (VText prefix) q))).
  { intros o q Ho Hne. rewrite E in Ho. destruct Ho as [<- | Ho]; [now contradiction Hne|].
    rewrite List.Forall_forall in Hv. specialize (Hv o Ho).
    split; [now apply normalizeVatInput_fixed | now apply vat_option_compiles]. }
  unfold requesterFilterAfterLoad.
  destruct answer as [a|msg0].
  - destruct (has_option prev _) eqn:Eh.
    + split; [now apply has_option_In|]. split; [reflexivity|].
      split; [discriminate | exact Hopt].
    + split; [exact Hin|]. split; [|split; [discriminate | exact Hopt]].
      intros Hp. apply has_option_In in Hp. congruence.
  - split; [exact Hin|]. split; [|split; [|exact Hopt]].
    + cbn. intros [<- | []]. reflexivity.
    + intros msg _. now split.
Qed.

Lemma requester_options_valid_witness :
  let t := {| mainAccount := "Main account"; subaccountFallback := "Subaccount";
              allRequesters := "All requesters" |} in
  let answer := Ok (Some {| user_vat_number := Some "fr 12-345.678";
                            company_name := Some " ACME " |},
                    [{| sub_name := None; subuser_vat_number := Some "FR12345678" |};
                     {| sub_name := Some "Branch"; subuser_vat_number := Some "de999999999" |};
                     {| sub_name := Some "Broken"; subuser_vat_number := Some "n/a" |}]) in
  fst (loadRequesterOptions t answer "DE999999999")
  = [{| opt_value := "__all__"; opt_label := "All requesters" |};
     {| opt_value := "FR12345678"; opt_label := "ACME (FR12345678)" |};
     {| opt_value := "DE999999999"; opt_label := "Branch (DE999999999)" |}]
  /\ snd (loadRequesterOptions t answer "DE999999999") = "DE999999999"
  /\ exists prefix remainder,
       applyRequesterFilter "DE999999999" []
       = Some (q_eq "vat_number_requester" (VText remainder)
                 (q_eq "country_code_requester" (VText prefix) [])).
Proof.
  intros t answer. split; [vm_compute; reflexivity|].
  destruct (requester_options_valid t answer "DE999999999")
    as (_ & _ & _ & Hsel & _ & Hopt).
  split.
  - apply Hsel. vm_compute. right. right. left. reflexivity.
  - destruct (Hopt {| opt_value := "DE999999999"; opt_label := "Branch (DE999999999)" |} [])
      as (_ & prefix & remainder & _ & _ & H).
    + vm_compute. right. right. left. reflexivity.
    + discriminate.
    + now exists prefix, remainder.
Defined.

(** ** The guards of [fetchRawData], run *)

Lemma search_short_circuit_witness :
  outcome (fetchRawData Scenario.emptyBackend Scenario.searchWithDate 3) = Ok emptyPage
  /\ only_lookups (issued (fetchRawData Scenario.emptyBackend Scenario.searchWithDate 3)).
Proof.
  apply (search_short_circuit Scenario.emptyBackend Scenario.searchWithDate 3
           [Is (cond "created_at" "gte" (VText "2024-12-01T00:00:00.000Z"));
            Is (cond "created_at" "lt" (VText "2024-12-02T00:00:00.000Z"))]);
    reflexivity.
Defined.

Lemma requester_fail_closed_witness :
  fetchRawData (RecordStore.backend Scenario.twoEntries) Scenario.requesterWithDate 1
  = ([], Ok emptyPage).
Proof.
  apply (requester_fail_closed (RecordStore.backend Scenario.twoEntries)
           Scenario.requesterWithDate 1
           [Is (cond "created_at" "gte" (VText "2024-12-01T00:00:00.000Z"));
            Is (cond "created_at" "lt" (VText "2024-12-02T00:00:00.000Z"))]).
  - reflexivity.
  - discriminate.
  - apply matchRequester_None. reflexivity.
Defined.

(** ** The requests of one fetch *)

(** X26. The paginated queries of two consecutive pages of one query state
    ask for the same filters and for adjacent ranges of [pageSize]
    rows: page [p] starts at row [(p - 1) * pageSize] and page
    [p + 1] right after its last row. *)
Theorem pages_tile (be : Backend) (st : QueryState) (p : Z) (pq pq' : PageQuery) :
  In (RPage pq) (issued (fetchRawData be st p)) ->
  In (RPage pq') (issued (fetchRawData be st (p + 1))) ->
  pq_filters pq' = pq_filters pq
  /\ pq_from pq = (p - 1) * pageSize st
  /\ pq_to pq - pq_from pq + 1 = pageSize st
  /\ pq_from pq' = pq_to pq + 1.
Proof.
  intros Hin Hin'.
  destruct (applyDirectColumnFilters [] (filters st)) as [q|msg] eqn:Hq.
  2:{ rewrite (fetchRawData_throw be st p msg Hq) in Hin. contradiction. }
  destruct (applyRequesterFilter (requesterFilter st) q) as [q1|] eqn:Hr.
  2:{ rewrite (fetchRawData_requester_mismatch be st p q Hq Hr) in Hin. contradiction. }
  destruct (resolveConstraint_outcome be st) as [_ Hc].
  destruct (page_request_of be st p q q1 _ pq Hq Hr Hc Hin) as (-> & -> & ->).
  destruct (page_request_of be st (p + 1) q q1 _ pq' Hq Hr Hc Hin') as (-> & -> & _).
  repeat split; lia.
Qed.

Lemma pages_tile_witness :
  let be := RecordStore.backend Scenario.twoEntries in
  exists pq pq',
    In (RPage pq) (issued (fetchRawData be initialQuery 2))
    /\ In (RPage pq') (issued (fetchRawData be initialQuery 3))
    /\ pq_filters pq' = pq_filters pq /\ pq_from pq' = pq_to pq + 1.
Proof.
  cbv zeta.
  exists {| pq_filters := []; pq_from := 15; pq_to := 29 |},
         {| pq_filters := []; pq_from := 30; pq_to := 44 |}.
  assert (H1 : In (RPage {| pq_filters := []; pq_from := 15; pq_to := 29 |})
                 (issued (fetchRawData (RecordStore.backend Scenario.twoEntries)
                            initialQuery 2)))
    by (vm_compute; left; reflexivity).
  assert (H2 : In (RPage {| pq_filters := []; pq_from := 30; pq_to := 44 |})
                 (issued (fetchRawData (RecordStore.backend Scenario.twoEntries)
                            initialQuery (2 + 1))))
    by (vm_compute; left; reflexivity).
  destruct (pages_tile (RecordStore.backend Scenario.twoEntries) initialQuery 2 _ _ H1 H2)
    as (Hf & _ & _ & Hn).
  repeat split; assumption.
Defined.

Lemma resolveVatUuids_issued (be : Backend) (mode : ResolveMode) (term : string) :
  issued (resolveVatUuids be mode term)
  = if is_empty term then []
    else [RLookup (lookupVatNumbers term mode); RLookup (lookupChecks term)].
Proof.
  unfold resolveVatUuids, fetchMatchingVatUuidsFromVatNumbers,
    fetchMatchingVatUuidsFromChecks.
  destruct (is_empty term); [reflexivity|].
  rewrite (runLookup_result be (lookupVatNumbers term mode)).
  rewrite (runLookup_result be (lookupChecks term)). reflexivity.
Qed.

Lemma resolveConstraint_issued (be : Backend) (st : QueryState) :
  exists lookups,
    issued (resolveConstraint be st) = map RLookup lookups /\ (length lookups <= 4)%nat.
Proof.
  unfold resolveConstraint, resolveVatUuidsForSearchTerm, resolveVatUuidsForEntityFilter.
  set (term := sanitizeSearchTerm (search st)).
  set (eterm := sanitizeSearchTerm _).
  destruct (resolveVatUuids_outcome be ModeSearch term) as [Hs _].
  destruct (resolveVatUuids_outcome be ModeEntity eterm) as [He _].
  pose proof (resolveVatUuids_issued be ModeSearch term) as Is.
  pose proof (resolveVatUuids_issued be ModeEntity eterm) as Ie.
  destruct (negb (is_empty term)) eqn:Et.
  - rewrite (bindF_Ok _ _ _ Hs). cbn [retF issued outcome fst snd bindF].
    destruct (negb (is_empty (trim _))).
    + rewrite (bindF_Ok _ _ _ He). cbn [retF issued outcome fst snd].
      rewrite Is, Ie. apply negb_true_iff in Et. rewrite Et.
      destruct (is_empty eterm).
      * eexists [_; _]. split; [reflexivity | cbn; lia].
      * eexists [_; _; _; _]. split; [reflexivity | cbn; lia].
    + cbn [retF issued outcome fst snd]. rewrite Is.
      apply negb_true_iff in Et. rewrite Et.
      eexists [_; _]. split; [reflexivity | cbn; lia].
  - rewrite bindF_ret.
    destruct (negb (is_empty (trim _))).
    + rewrite (bindF_Ok _ _ _ He). cbn [retF issued outcome fst snd].
      rewrite Ie. destruct (is_empty eterm).
      * exists []. split; [reflexivity | cbn; lia].
      * eexists [_; _]. split; [reflexivity | cbn; lia].
    + exists []. split; [reflexivity | cbn; lia].
Qed.

Lemma runPage_requests (be : Backend) (q : PageQuery) :
  issued (runPage be q) = [RPage q]
  \/ exists uuids, issued (runPage be q) = [RPage q; RLatestChecks uuids].
Proof.
  unfold runPage. destruct (r_error (run_page be q)) as [msg|]; [now left|].
  cbn [bindF].
  destruct (enrich_rows_requests be (rows_of (run_page be q))) as (t & rows & E & Ht).
  rewrite E. cbn. destruct Ht as [-> | ->]; [now left | right; eauto].
Qed.

(** X27. One fetch sends at most six requests: first the lookups of the
    resolver, at most four, then at most one paginated query, and
    after it at most one query for the latest checks. *)
Theorem fetch_request_budget (be : Backend) (st : QueryState) (p : Z) :
  exists lookups rest,
    issued (fetchRawData be st p) = map RLookup lookups ++ rest
    /\ (length lookups <= 4)%nat
    /\ (rest = []
        \/ exists pq, rest = [RPage pq]
                      \/ exists uuids, rest = [RPage pq; RLatestChecks uuids]).
Proof.
  destruct (applyDirectColumnFilters [] (filters st)) as [q|msg] eqn:Hq.
  2:{ rewrite (fetchRawData_throw be st p msg Hq). exists [], []. cbn. auto with arith. }
  destruct (applyRequesterFilter (requesterFilter st) q) as [q1|] eqn:Hr.
  2:{ rewrite (fetchRawData_requester_mismatch be st p q Hq Hr).
      exists [], []. cbn. auto with arith. }
  destruct (resolveConstraint_outcome be st) as [_ Hc].
  destruct (resolveConstraint_issued be st) as (lookups & El & Hlen).
  rewrite (fetchRawData_resolved be st p q q1 _ Hq Hr Hc). rewrite El.
  exists lookups.
  match goal with |- context [match ?c with _ => _ end] => destruct c as [[|u l]|] end;
    cbn [issued fst].
  - exists []. auto.
  - eexists. split; [reflexivity|]. split; [exact Hlen|]. right.
    eexists. destruct (runPage_requests be {| pq_filters := q_in "uuid" (u :: l)
        (applyStatusFilter (statusFilter st) q1);
        pq_from := (p - 1) * pageSize st;
        pq_to := (p - 1) * pageSize st + pageSize st - 1 |}) as [E | (uuids & E)];
      rewrite E; [now left | right; eauto].
  - eexists. split; [reflexivity|]. split; [exact Hlen|]. right.
    eexists. destruct (runPage_requests be {| pq_filters :=
        applyStatusFilter (statusFilter st) q1;
        pq_from := (p - 1) * pageSize st;
        pq_to := (p - 1) * pageSize st + pageSize st - 1 |}) as [E | (uuids & E)];
      rewrite E; [now left | right; eauto].
Qed.

Lemma runPage_error (be : Backend) (pq : PageQuery) (msg : string) :
  r_error (run_page be pq) = Some msg -> runPage be pq = ([RPage pq], Throw msg).
Proof. intros H. unfold runPage. now rewrite H. Qed.

Lemma store_error_thrown (be : Backend) (st : QueryState) (p : Z) (pq : PageQuery)
    (msg : string) :
  In (RPage pq) (issued (fetchRawData be st p)) ->
  r_error (run_page be pq) = Some msg ->
  outcome (fetchRawData be st p) = Throw msg
  /\ forall uuids, ~ In (RLatestChecks uuids) (issued (fetchRawData be st p)).
Proof.
  intros Hin Herr.
  destruct (applyDirectColumnFilters [] (filters st)) as [q|m] eqn:Hq.
  2:{ rewrite (fetchRawData_throw be st p m Hq) in Hin. contradiction. }
  destruct (applyRequesterFilter (requesterFilter st) q) as [q1|] eqn:Hr.
  2:{ rewrite (fetchRawData_requester_mismatch be st p q Hq Hr) in Hin. contradiction. }
  destruct (resolveConstraint_outcome be st) as [Hlk Hc].
  destruct (resolveConstraint_issued be st) as (lookups & El & _).
  destruct (page_request_of be st p q q1 _ pq Hq Hr Hc Hin) as (Hf & Hfrom & Hto).
  destruct pq as [f a b]. cbn [pq_filters pq_from pq_to] in Hf, Hfrom, Hto.
  subst f a b.
  assert (Hno : forall uuids x,
             ~ In (RLatestChecks uuids) (map RLookup lookups ++ [RPage x])).
  { intros uuids x Hu. apply in_app_or in Hu. destruct Hu as [Hu|[Hu|[]]].
    - apply in_map_iff in Hu. destruct Hu as (l & E & _). discriminate E.
    - discriminate Hu. }
  rewrite (fetchRawData_resolved be st p q q1 _ Hq Hr Hc) in *. cbv zeta in *.
  rewrite El in *.
  destruct (let fromSearch := if searchActive st then Some (searchSet be st) else None in
            if is_empty (trim (entityFilter st)) then fromSearch
            else Some match fromSearch with
                      | Some l => intersectUuids l (entitySet be st)
                      | None => entitySet be st
                      end) as [[|u l]|].
  - exfalso. cbn [issued fst] in Hin. apply in_app_or in Hin. destruct Hin as [Hin | []].
    apply in_map_iff in Hin. destruct Hin as (l & E & _). discriminate E.
  - rewrite (runPage_error be _ msg Herr). cbn [issued outcome fst snd].
    split; [reflexivity | intros uuids; apply Hno].
  - rewrite (runPage_error be _ msg Herr). cbn [issued outcome fst snd].
    split; [reflexivity | intros uuids; apply Hno].
Qed.

(** X28. When the store answers the paginated query with an error,
    the fetch throws the message of that error and does not ask for
    the latest checks; and when the fetch of a page load throws, the
    message is shown and the loading state ends, while the rows, the
    page, the totals and the cache stay as they were and no prefetch
    is started. *)
Theorem load_failure_keeps_rows :
  (forall be st p pq msg,
     In (RPage pq) (issued (fetchRawData be st p)) ->
     r_error (run_page be pq) = Some msg ->
     outcome (fetchRawData be st p) = Throw msg
     /\ forall uuids, ~ In (RLatestChecks uuids) (issued (fetchRawData be st p)))
  /\ (forall s i w cl P msg,
        tasks s !! i = Some (TLoad cl P) ->
        outcome (fetchRawData (w_backend w) (cl_query cl) P) = Throw msg ->
        let s' := step s (EvComplete i w) in
        error s' = Some msg /\ loading s' = false
        /\ data s' = data s /\ page s' = page s
        /\ totalCount s' = totalCount s /\ totalPages s' = totalPages s
        /\ dataCacheRef s' = dataCacheRef s /\ dataCache s' = dataCache s
        /\ tasks s' = remove_nth i (tasks s)).
Proof.
  split; [exact store_error_thrown|].
  intros s i w cl P msg Ht Hr. cbv zeta. cbn [step]. rewrite Ht. cbn [complete].
  rewrite Hr. cbn. repeat split.
Qed.

Lemma load_failure_keeps_rows_witness :
  let be := {| run_lookup := RecordStore.lookup Scenario.twoEntries;
               run_latest_checks := RecordStore.latest_checks Scenario.twoEntries;
               run_page := fun _ => {| r_data := None;
                                       r_error := Some "permission denied";
                                       r_count := None |} |} in
  let w := {| w_backend := be; w_patch := Ok None; w_delete := None;
              w_requesters := Ok (None, []); w_latestCheck := Ok None; w_check := None |} in
  let s' := step mounted (EvComplete 0 w) in
  error s' = Some "permission denied" /\ data s' = data mounted.
Proof.
  intros be w. cbv zeta.
  destruct load_failure_keeps_rows as [Hthrow Hkeep].
  destruct (Hthrow be initialQuery 1 {| pq_filters := []; pq_from := 0; pq_to := 14 |}
              "permission denied") as [Ho _];
    [vm_compute; left; reflexivity | reflexivity |].
  destruct (Hkeep mounted 0%nat w
              {| cl_query := initialQuery; cl_page := 1;
                 cl_totalCount := 0; cl_totalPages := 1 |} 1 "permission denied")
    as (He & _ & Hd & _); [reflexivity | exact Ho |].
  split; [exact He | exact Hd].
Defined.

(** ** Clicking twice *)

(** X29. A second click while a mutation is in flight starts nothing: the
    soft delete is guarded by its flag (and a declined confirmation
    changes nothing), the periodicity save by the optimistic update,
    after which the draft, one of the four values, is the current
    value. *)
Theorem mutations_not_reentrant (s : State) (sel : MonitoredNumber) :
  selectedNumber s = Some sel ->
  (deletingVatNumber s = false ->
   step s (EvSoftDelete false) = s
   /\ let s1 := step s (EvSoftDelete true) in
      tasks s1 = tasks s ++ [TSoftDelete (closure_of s) (uuid sel)]
      /\ forall confirmed, step s1 (EvSoftDelete confirmed) = s1)
  /\ (In (periodicityDraft s) periodicityValues ->
      let s1 := step s EvSavePeriodicity in
      (length (tasks s1) <= length (tasks s) + 1)%nat
      /\ step s1 EvSavePeriodicity = s1).
Proof.
  intros Hsel. split.
  - intros Hdel.
    assert (H0 : step s (EvSoftDelete false) = s).
    { cbn [step]. unfold softDeleteVatNumber. rewrite Hsel, Hdel. reflexivity. }
    assert (H1 : step s (EvSoftDelete true)
                 = add_task (TSoftDelete (closure_of s) (uuid sel))
                     (set_error None (set_deletingVatNumber true s))).
    { cbn [step]. unfold softDeleteVatNumber. rewrite Hsel, Hdel. reflexivity. }
    split; [exact H0|]. cbv zeta. rewrite H1. split; [reflexivity|].
    intros confirmed. cbn [step]. unfold softDeleteVatNumber.
    cbn [selectedNumber deletingVatNumber add_task set_tasks set_error
         set_deletingVatNumber]. rewrite Hsel. reflexivity.
  - intros Hvalid. cbv zeta. cbn [step].
    assert (Hnorm : normalizePeriodicity (Some (periodicityDraft s)) = periodicityDraft s).
    { unfold periodicityValues in Hvalid. cbn [In] in Hvalid.
      destruct Hvalid as [<-|[<-|[<-|[<-|[]]]]]; reflexivity. }
    destruct (String.eqb (normalizePeriodicity (Some (periodicity sel)))
                (periodicityDraft s)) eqn:E.
    + assert (H1 : savePeriodicity s = s).
      { unfold savePeriodicity. now rewrite Hsel, E. }
      rewrite !H1. split; [lia | reflexivity].
    + set (s0 := set_error None (set_updatingPeriodicity true s)).
      assert (H1 : savePeriodicity s
                   = add_task (TSavePeriodicity (uuid sel)
                                 (normalizePeriodicity (Some (periodicity sel)))
                                 (periodicityDraft s))
                       (applyPeriodicityLocally (uuid sel) (periodicityDraft s) s0)).
      { unfold savePeriodicity. now rewrite Hsel, E. }
      rewrite !H1. clear H1.
      pose proof (applyPeriodicityLocally_selected (uuid sel) (periodicityDraft s) s0) as S1.
      pose proof (applyPeriodicityLocally_rest (uuid sel) (periodicityDraft s) s0) as R1.
      cbv zeta in R1. destruct R1 as (T1 & P1 & _).
      change (selectedNumber s0) with (selectedNumber s) in S1.
      change (periodicityDraft s0) with (periodicityDraft s) in P1.
      change (tasks s0) with (tasks s) in T1.
      rewrite Hsel, String.eqb_refl in S1.
      set (s1 := applyPeriodicityLocally (uuid sel) (periodicityDraft s) s0) in *.
      clearbody s1.
      split.
      { cbn [tasks add_task set_tasks]. rewrite length_app, T1. cbn. lia. }
      unfold savePeriodicity.
      change (selectedNumber (add_task ?t s1)) with (selectedNumber s1).
      change (periodicityDraft (add_task ?t s1)) with (periodicityDraft s1).
      rewrite S1, P1. cbn [periodicity with_periodicity].
      now rewrite Hnorm, String.eqb_refl.
Qed.

Lemma mutations_not_reentrant_witness :
  let s1 := step Scenario.detailOpen EvSavePeriodicity in
  step s1 EvSavePeriodicity = s1.
Proof.
  cbv zeta.
  destruct (mutations_not_reentrant Scenario.detailOpen Scenario.checkedEntry)
    as (_ & Hsave); [reflexivity|].
  apply Hsave. cbn. tauto.
Defined.

(** ** The detail record *)

Lemma continuePrefetch_detail_closed (cl : Closure) (ps : list Z) (s : State) :
  detail_closed s -> detail_closed (continuePrefetch cl ps s).
Proof.
  intros [Hs Ht]. unfold continuePrefetch.
  destruct (next_uncached (dataCacheRef s) ps) as [[p rest]|]; [|now split].
  split; [exact Hs|]. cbn. apply Forall_app. split; [exact Ht | now repeat constructor].
Qed.

Lemma loadPageData_detail_closed (cl : Closure) (p : Z) (force : bool) (s : State) :
  detail_closed s -> detail_closed (loadPageData cl p force s).
Proof.
  intros H. unfold loadPageData.
  destruct (if force then None else dataCacheRef s !! p) as [rows|].
  - apply continuePrefetch_detail_closed. destruct H as [Hs Ht]. now split.
  - destruct H as [Hs Ht]. split; [exact Hs|].
    cbn. apply Forall_app. split; [exact Ht | now repeat constructor].
Qed.

Lemma setPage_detail_closed (p : Z) (s : State) :
  detail_closed s -> detail_closed (setPage p s).
Proof.
  intros H. unfold setPage. destruct (p =? page s); [exact H|].
  apply loadPageData_detail_closed. destruct H as [Hs Ht]. now split.
Qed.

Lemma step_keeps_detail_closed (s : State) (e : Event) :
  detail_closed s -> detail_closed (step s e).
Proof.
  intros H. destruct e; cbn [step].
  - unfold change. destruct (changes c (query s)); [|exact H].
    destruct H as [Hs Ht]. now split.
  - unfold timeout. destruct (timer s) as [cl|]; [|exact H].
    assert (H0 : detail_closed (clearCache (set_page 1 (set_timer None s)))).
    { destruct H as [Hs Ht]. now split. }
    set (s0 := clearCache _) in *. clearbody s0.
    pose proof (loadPageData_detail_closed cl 1 true s0 H0) as H1.
    set (s1 := loadPageData cl 1 true s0) in *. clearbody s1.
    destruct (page s =? 1); [exact H1 | now apply loadPageData_detail_closed].
  - now apply setPage_detail_closed.
  - now apply setPage_detail_closed.
  - unfold handlePageInputSubmit. now apply setPage_detail_closed.
  - unfold changePageSize. destruct (n =? pageSize (query s)); [exact H|].
    assert (H1 : detail_closed (clearCache (set_query (with_pageSize n (query s)) s))).
    { destruct H as [Hs Ht]. now split. }
    set (s1 := clearCache _) in *. clearbody s1.
    destruct (page s1 =? 1);
      [now apply loadPageData_detail_closed | now apply setPage_detail_closed].
  - destruct H as [Hs Ht]. now split.
  - unfold savePeriodicity. destruct H as [Hs Ht]. rewrite Hs. now split.
  - unfold softDeleteVatNumber. destruct H as [Hs Ht]. rewrite Hs. now split.
  - destruct (tasks s !! i) as [t|] eqn:Et; [|exact H].
    assert (Hnone : is_detail_mutation t = false).
    { destruct H as [_ Ht]. exact (Forall_lookup_1 _ _ _ _ Ht Et). }
    assert (H0 : detail_closed (set_tasks (remove_nth i (tasks s)) s)).
    { destruct H as [Hs Ht]. split; [exact Hs|]. cbn. now apply Forall_remove_nth. }
    set (s0 := set_tasks _ s) in *. clearbody s0.
    assert (Hloaded : forall cl P r x, detail_closed x -> detail_closed (loaded cl P r x)).
    { intros cl P r x Hx. unfold loaded.
      assert (Hl : forall y, detail_closed y -> detail_closed (set_loading false y)).
      { intros y [Hs Ht]. now split. }
      apply Hl. destruct r as [[rows count]|msg].
      - unfold prefetchNeighbors. apply continuePrefetch_detail_closed.
        destruct Hx as [Hs Ht]. now split.
      - destruct Hx as [Hs Ht]. now split. }
    destruct t; try discriminate Hnone; cbn [complete].
    + now apply Hloaded.
    + unfold prefetched. apply continuePrefetch_detail_closed.
      destruct (outcome _) as [[rows count]|msg]; [|exact H0].
      destruct H0 as [Hs Ht]. now split.
    + unfold requesterOptionsLoaded.
      destruct (loadRequesterOptions _ _ _) as [options selected].
      unfold change. destruct H0 as [Hs Ht].
      destruct (changes _ _); now split.
    + unfold certificateDownloaded. destruct H0 as [Hs Ht].
      destruct (w_latestCheck w) as [[check|]|msg]; now split.
    + unfold manualCheckDone. destruct H0 as [Hs Ht].
      destruct (w_check w) as [msg|]; [now split|].
      split; [exact Hs|]. cbn. apply Forall_app. split; [exact Ht | now repeat constructor].
    + unfold reloaded.
      destruct (Hloaded cl targetPage
                  (outcome (fetchRawData (w_backend w) (cl_query cl) targetPage)) s0 H0)
        as [Hs Ht].
      now split.
  - destruct H as [Hs Ht]. now split.
  - destruct H as [Hs Ht]. now split.
  - unfold handleDownloadFromContextMenu. destruct H as [Hs Ht].
    destruct (vatContextMenu s) as [[pos target]|]; [|now split].
    destruct (contextAction s); [now split|].
    split; [exact Hs|]. cbn. apply Forall_app. split; [exact Ht | now repeat constructor].
  - unfold handleForceCheckFromContextMenu. destruct H as [Hs Ht].
    destruct (vatContextMenu s) as [[pos target]|]; [|now split].
    destruct (contextAction s); [now split|]. destruct confirmed; [|now split].
    split; [exact Hs|]. cbn. apply Forall_app. split; [exact Ht | now repeat constructor].
Qed.

(** X30. From mounting on, nothing in the page sets the detail record:
    whatever the user does and whatever completes, it stays [null],
    the save of the periodicity and the soft delete return at their
    first guard, and neither the PATCH of a periodicity nor the
    update of a soft delete is ever pending. *)
Theorem detail_record_never_set (evs : list Event) :
  let s := run mounted evs in
  selectedNumber s = None
  /\ Forall (fun t => is_detail_mutation t = false) (tasks s)
  /\ step s EvSavePeriodicity = s
  /\ (forall confirmed, step s (EvSoftDelete confirmed) = s).
Proof.
  cbv zeta.
  assert (H : detail_closed (run mounted evs)).
  { unfold run.
    assert (H0 : detail_closed mounted) by (split; [reflexivity | now repeat constructor]).
    revert H0. generalize mounted.
    induction evs as [|e evs IH]; intros s H0; cbn [fold_left]; [exact H0|].
    apply IH. now apply step_keeps_detail_closed. }
  destruct H as [Hs Ht]. split; [exact Hs|]. split; [exact Ht|].
  cbn [step]. unfold savePeriodicity, softDeleteVatNumber. rewrite Hs. now split.
Qed.


(** ** The requester the page sends *)

Section EveryQuery.

Variable P : QueryState -> Prop.











End EveryQuery.















